(** * Trainer lifecycle, checkpoint contract, GroupRMSprop and MSELoss

    A shallow embedding of

    - [src/common/train/trainer.py]  (class [Trainer]),
    - [src/opt/group_rmsprop_optimizer.py]  ([GroupRMSprop.__init__]),
    - [src/common/evaluation/metrics/regression.py]  ([MSELoss._calc_metric]).

    The trainer is stateful code with exceptions that calls into collaborators
    (model, optimizer, evaluators, callback, value store, the abstract
    [batch_update]).  It is embedded in a state-and-exception monad [M] over a
    record [trainer]; the collaborators are interfaces (type classes) acting on
    an abstract heap [W] that holds every collaborator's mutable state.  Each
    call that leaves the trainer is appended to a ghost [log], so that
    statements about the order and the number of calls can be made.

    What the embedding fixes about the collaborators, whose code is not part
    of these sources:
    - a method of a collaborator may change the heap in any way and may
      raise any exception; hooks and [batch_update] are handed the trainer,
      which they read through its epoch counter and the heap; they do not
      assign [trainer.epoch], toggle the model's mode or the gradient mode;
    - [model.train(mode)] sets [model.training] to [mode] and does not raise;
      [torch.no_grad()] turns the gradient mode off and puts the previous
      mode back on exit;
    - a data loader is the list of its batches, [len] its length. *)

From Stdlib Require Import ZArith List String Bool Lia Floats.
From stdpp Require Import gmap strings.

Local Open Scope string_scope.
Local Open Scope list_scope.
Local Open Scope Z_scope.

(** ** Python exceptions and outcomes *)

(** The handlers of [Trainer.fit] are [except StopFitIteration] followed by
    [except Exception]; an exception is therefore one of three kinds: the
    stop signal, any other instance of [Exception], or an instance of
    [BaseException] only ([KeyboardInterrupt], [SystemExit], ...). *)
Inductive exn : Type :=
| StopFitIteration (msg : string)
| Exception (name : string)
| BaseException (name : string).

Inductive outcome (A : Type) : Type :=
| Return (a : A)
| Raise (e : exn).
Arguments Return {A} a.
Arguments Raise {A} e.

Definition ZeroDivisionError : exn := Exception "ZeroDivisionError".
Definition KeyError (key : string) : exn := Exception (String.append "KeyError: " key).
Definition TypeError : exn := Exception "TypeError".
Definition ValueError (msg : string) : exn := Exception (String.append "ValueError: " msg).

(** Python's [a % b] on integers: floor remainder, [ZeroDivisionError] when
    [b] is zero. *)
Definition py_mod (a b : Z) : outcome Z :=
  if b =? 0 then Raise ZeroDivisionError else Return (a mod b).

(** [range(n)]: the indices [0 .. n-1], empty when [n <= 0]. *)
Definition range (n : Z) : list Z := map Z.of_nat (seq 0 (Z.to_nat n)).

(** [enumerate(l)], counting from [start]. *)
Fixpoint enumerate_from {A : Type} (start : Z) (l : list A) : list (Z * A) :=
  match l with
  | [] => []
  | x :: l' => (start, x) :: enumerate_from (start + 1) l'
  end.

Definition enumerate {A : Type} (l : list A) : list (Z * A) := enumerate_from 0 l.

(** ** Data model *)

Section Data.
Context {Scalar : Type}.

(** A tracked value: its current value and the epoch of its last update. *)
Record TrackedValue : Type := {
  current_value : Scalar;
  epoch_last_updated : Z
}.

(** Modelled from the spec: [FitOutput] ([fit_output.py] is not part of the
    sources).  It carries the optional stop signal and the two tracked-value
    mappings, which start empty and are filled by
    [update_train_tracked_values] and [update_val_tracked_values]; the
    reference to the value store it is constructed with lives in the
    collaborator heap and is not duplicated here. *)
Record FitOutput : Type := {
  exception : option exn;
  train_tracked_values : gmap string TrackedValue;
  val_tracked_values : gmap string TrackedValue
}.

Definition new_FitOutput : FitOutput :=
  {| exception := None; train_tracked_values := ∅; val_tracked_values := ∅ |}.

Definition set_exception (e : exn) (o : FitOutput) : FitOutput :=
  {| exception := Some e;
     train_tracked_values := train_tracked_values o;
     val_tracked_values := val_tracked_values o |}.

Definition update_train_tracked_values (tv : gmap string TrackedValue) (o : FitOutput)
  : FitOutput :=
  {| exception := exception o;
     train_tracked_values := tv ∪ train_tracked_values o;
     val_tracked_values := val_tracked_values o |}.

Definition update_val_tracked_values (tv : gmap string TrackedValue) (o : FitOutput)
  : FitOutput :=
  {| exception := exception o;
     train_tracked_values := train_tracked_values o;
     val_tracked_values := tv ∪ val_tracked_values o |}.
End Data.
Arguments TrackedValue Scalar : clear implicits.
Arguments FitOutput Scalar : clear implicits.

(** The six collaborators whose state a checkpoint holds. *)
Inductive collaborator : Type :=
| the_model | the_optimizer | the_value_store
| the_train_evaluator | the_val_evaluator | the_callback.

(** A checkpoint dictionary, typed as [state_dict] builds it: serialized
    collaborator states under the collaborators' keys, and an integer under
    the key ["epoch"] when that key is present.  [d[key]] reads [states]
    for a collaborator's key and [epoch_item] for ["epoch"]. *)
Record checkpoint_dict (Ser : Type) : Type := {
  states : gmap string Ser;
  epoch_item : option Z
}.
Arguments states {Ser} c.
Arguments epoch_item {Ser} c.

(** [d.keys()]. *)
Definition keys {Ser : Type} (d : checkpoint_dict Ser) : gset string :=
  dom (states d) ∪ match epoch_item d with Some _ => {[ "epoch" ]} | None => ∅ end.

(** ** Calls that leave the trainer, and the ghost log *)

Section Calls.
Context {Device Batch Output Scalar Ser : Type}.

Inductive call : Type :=
| ModelTo (d : Device)
| ModelTrain (mode : bool)
| OnFitStart (num_epochs : Z)
| OnFitEnd (num_epochs : Z) (fit_output : FitOutput Scalar)
| OnEpochStart
| OnEpochEnd
| OnEpochTrainStart (num_batches : Z)
| OnEpochTrainEnd (metric_values : gmap string Scalar)
| OnTrainBatchStart (batch_num : Z)
| OnTrainBatchEnd (batch_num : Z) (batch_output : Output) (metric_values : gmap string Scalar)
| OnEpochValidationStart
| OnEpochValidationEnd (metric_values : gmap string Scalar)
| OnException (e : exn)
| BatchUpdate (batch_num : Z) (batch : Batch)
| TrainEpochStart (epoch : Z)
| TrainEvaluateBatch (output : Output)
| TrainEpochEnd (epoch : Z)
| TrainGetTrackedValues
| ValEpochStart (epoch : Z)
| ValEvaluate
| ValEpochEnd (epoch : Z)
| ValGetTrackedValues
| StateDict (c : collaborator)
| LoadStateDict (c : collaborator) (state : Ser).

(** What a call came back with. *)
Inductive reply : Type :=
| Done
| GaveOutput (o : Output)
| GaveMetrics (m : gmap string Scalar)
| GaveTracked (tv : gmap string (TrackedValue Scalar))
| GaveState (s : Ser)
| Raised (e : exn).

(** One log entry: the call, the trainer's epoch and torch's gradient mode
    when it was made, and its reply. *)
Record entry : Type := {
  at_epoch : Z;
  grad_on : bool;
  what : call;
  came_back : reply
}.
End Calls.
Arguments call : clear implicits.
Arguments reply : clear implicits.
Arguments entry : clear implicits.

(** ** Collaborator interfaces *)

(** A collaborator method acts on the heap [W] of collaborator state and
    either returns or raises; what it did to the heap before raising stays. *)
Definition method (W A : Type) : Type := W -> W * outcome A.

Section Interfaces.
Context {W Device Batch Output Scalar Ser : Type}.

(** [torch.nn.Module], as far as the trainer uses it.  The train/eval flag
    [model.training] is kept in the trainer record below. *)
Class Model : Type := {
  model_to : Device -> method W unit;
  model_state_dict : method W Ser;
  model_load_state_dict : Ser -> method W unit
}.

Class Optimizer : Type := {
  optimizer_state_dict : method W Ser;
  optimizer_load_state_dict : Ser -> method W unit
}.

Class ValueStore : Type := {
  value_store_state_dict : method W Ser;
  value_store_load_state_dict : Ser -> method W unit
}.

Class TrainEvaluator : Type := {
  train_epoch_start : Z -> method W unit;
  train_evaluate_batch : Output -> method W (gmap string Scalar);
  train_epoch_end : Z -> method W unit;
  train_get_tracked_values : method W (gmap string (TrackedValue Scalar));
  train_evaluator_state_dict : method W Ser;
  train_evaluator_load_state_dict : Ser -> method W unit
}.

Class Evaluator : Type := {
  val_epoch_start : Z -> method W unit;
  val_evaluate : method W (gmap string Scalar);
  val_epoch_end : Z -> method W unit;
  val_get_tracked_values : method W (gmap string (TrackedValue Scalar));
  val_evaluator_state_dict : method W Ser;
  val_evaluator_load_state_dict : Ser -> method W unit
}.

(** Every hook receives the trainer; it reads the trainer through its
    [epoch] (the first argument) and through the heap. *)
Class Callback : Type := {
  on_fit_start : Z -> Z -> method W unit;
  on_fit_end : Z -> Z -> FitOutput Scalar -> method W unit;
  on_epoch_start : Z -> method W unit;
  on_epoch_end : Z -> method W unit;
  on_epoch_train_start : Z -> Z -> method W unit;
  on_epoch_train_end : Z -> gmap string Scalar -> method W unit;
  on_train_batch_start : Z -> Z -> method W unit;
  on_train_batch_end : Z -> Z -> Output -> gmap string Scalar -> method W unit;
  on_epoch_validation_start : Z -> method W unit;
  on_epoch_validation_end : Z -> gmap string Scalar -> method W unit;
  on_exception : Z -> exn -> method W unit;
  callback_state_dict : method W Ser;
  callback_load_state_dict : Ser -> method W unit
}.

(** The abstract method [Trainer.batch_update(self, batch_num, batch)]. *)
Class UpdateStrategy : Type := {
  batch_update : Z -> Z -> Batch -> method W Output
}.
End Interfaces.
Arguments Model : clear implicits.
Arguments Optimizer : clear implicits.
Arguments ValueStore : clear implicits.
Arguments TrainEvaluator : clear implicits.
Arguments Evaluator : clear implicits.
Arguments Callback : clear implicits.
Arguments UpdateStrategy : clear implicits.

(** ** The trainer record and its monad *)

Section TrainerState.
Context {W Device Batch Output Scalar Ser : Type}.

(** [collab] is the heap of the collaborators the trainer holds ([model],
    [optimizer], [train_evaluator], [val_evaluator], [value_store],
    [callback]); [training] is [model.training]; [grad_enabled] is torch's
    gradient mode; [log] is ghost. *)
Record trainer : Type := {
  collab : W;
  device : Device;
  epoch : Z;
  training : bool;
  grad_enabled : bool;
  log : list (entry Device Batch Output Scalar Ser)
}.

Definition M (A : Type) : Type := trainer -> trainer * outcome A.

Definition ret {A : Type} (a : A) : M A := fun s => (s, Return a).

Definition raise {A : Type} (e : exn) : M A := fun s => (s, Raise e).

Definition bind {A B : Type} (m : M A) (k : A -> M B) : M B :=
  fun s =>
    match m s with
    | (s1, Return a) => k a s1
    | (s1, Raise e) => (s1, Raise e)
    end.

Definition lift {A : Type} (r : outcome A) : M A := fun s => (s, r).

Definition gets {A : Type} (f : trainer -> A) : M A := fun s => (s, Return (f s)).

Definition set_epoch (e : Z) : M unit :=
  fun s => ({| collab := collab s; device := device s; epoch := e;
               training := training s; grad_enabled := grad_enabled s;
               log := log s |}, Return tt).

Definition set_grad_enabled (g : bool) : M unit :=
  fun s => ({| collab := collab s; device := device s; epoch := epoch s;
               training := training s; grad_enabled := g;
               log := log s |}, Return tt).

Definition to_reply {A : Type} (wrap : A -> reply Output Scalar Ser) (r : outcome A)
  : reply Output Scalar Ser :=
  match r with
  | Return a => wrap a
  | Raise e => Raised e
  end.

(** One call into a collaborator: run it on the heap and log it. *)
Definition invoke {A : Type} (c : call Device Batch Output Scalar Ser)
    (wrap : A -> reply Output Scalar Ser) (f : method W A) : M A :=
  fun s =>
    let '(w, r) := f (collab s) in
    ({| collab := w; device := device s; epoch := epoch s;
        training := training s; grad_enabled := grad_enabled s;
        log := log s ++ [ {| at_epoch := epoch s; grad_on := grad_enabled s;
                             what := c; came_back := to_reply wrap r |} ] |}, r).

(** [model.train(mode)]; [model.eval()] is [model.train(False)]. *)
Definition model_train (mode : bool) : M unit :=
  fun s =>
    ({| collab := collab s; device := device s; epoch := epoch s;
        training := mode; grad_enabled := grad_enabled s;
        log := log s ++ [ {| at_epoch := epoch s; grad_on := grad_enabled s;
                             what := ModelTrain mode; came_back := Done |} ] |},
     Return tt).

(** [with torch.no_grad(): body]: the previous gradient mode comes back on
    every exit. *)
Definition no_grad {A : Type} (body : M A) : M A :=
  fun s =>
    let prev := grad_enabled s in
    let '(s1, _) := set_grad_enabled false s in
    let '(s2, r) := body s1 in
    let '(s3, _) := set_grad_enabled prev s2 in
    (s3, r).

(** [try: body / except ...: / ...]: [handlers e] is the first clause that
    matches [e], if any. *)
Definition try_except {A : Type} (body : M A) (handlers : exn -> option (M A)) : M A :=
  fun s =>
    match body s with
    | (s1, Return a) => (s1, Return a)
    | (s1, Raise e) =>
        match handlers e with
        | Some h => h s1
        | None => (s1, Raise e)
        end
    end.

(** [try: body / finally: fin]: [fin] runs on every exit; what it raises
    replaces the outcome of [body]. *)
Definition try_finally {A : Type} (body : M A) (fin : M unit) : M A :=
  fun s =>
    let '(s1, r) := body s in
    match fin s1 with
    | (s2, Return _) => (s2, r)
    | (s2, Raise e) => (s2, Raise e)
    end.

(** [for x in l: body x]. *)
Fixpoint for_each {A : Type} (l : list A) (body : A -> M unit) : M unit :=
  match l with
  | [] => ret tt
  | x :: l' => bind (body x) (fun _ => for_each l' body)
  end.
End TrainerState.
Arguments trainer : clear implicits.
Arguments M : clear implicits.

Declare Scope trainer_scope.
Delimit Scope trainer_scope with trainer.
Notation "x <- m ;; k" := (bind m (fun x => k))
  (at level 100, m at next level, right associativity) : trainer_scope.
Notation "m ;; k" := (bind m (fun _ => k))
  (at level 100, right associativity) : trainer_scope.

(** ** class Trainer *)

Section Trainer.
Context {W Device Batch Output Scalar Ser : Type}.
Context `{!Model W Device Ser, !Optimizer W Ser, !ValueStore W Ser,
          !TrainEvaluator W Output Scalar Ser, !Evaluator W Scalar Ser,
          !Callback W Output Scalar Ser, !UpdateStrategy W Batch Output}.

Local Abbreviation trainer := (trainer W Device Batch Output Scalar Ser).
Local Abbreviation M := (M W Device Batch Output Scalar Ser).
Local Abbreviation entry := (entry Device Batch Output Scalar Ser).
Local Abbreviation call := (call Device Batch Output Scalar Ser).
Local Open Scope trainer_scope.

(** [Trainer.__init__]: the collaborators are handed in (their state is
    [w], the model's mode [mode]); the epoch counter starts at -1. *)
Definition __init__ (w : W) (dev : Device) (mode grad : bool) : trainer :=
  {| collab := w; device := dev; epoch := -1;
     training := mode; grad_enabled := grad; log := [] |}.

(** [self.callback.hook(self, ...)]. *)
Definition notify (c : call) (hook : Z -> method W unit) : M unit :=
  e <- gets epoch ;;
  invoke c (fun _ => Done) (hook e).

Definition train_batch (item : Z * Batch) : M unit :=
  let '(batch_num, batch) := item in
  notify (OnTrainBatchStart batch_num) (fun e => on_train_batch_start e batch_num) ;;
  e <- gets epoch ;;
  output <- invoke (BatchUpdate batch_num batch) GaveOutput (batch_update e batch_num batch) ;;
  metric_values <- no_grad (invoke (TrainEvaluateBatch output) GaveMetrics
                                   (train_evaluate_batch output)) ;;
  notify (OnTrainBatchEnd batch_num output metric_values)
         (fun e => on_train_batch_end e batch_num output metric_values).

(** [Trainer.__train]. *)
Definition __train (data_loader : list Batch) : M unit :=
  model_train true ;;
  let len := Z.of_nat (length data_loader) in
  notify (OnEpochTrainStart len) (fun e => on_epoch_train_start e len) ;;
  e <- gets epoch ;;
  invoke (TrainEpochStart e) (fun _ => Done) (train_epoch_start e) ;;
  for_each (enumerate data_loader) train_batch ;;
  e <- gets epoch ;;
  invoke (TrainEpochEnd e) (fun _ => Done) (train_epoch_end e) ;;
  tracked <- invoke TrainGetTrackedValues GaveTracked train_get_tracked_values ;;
  let epoch_train_metric_values := current_value <$> tracked in
  notify (OnEpochTrainEnd epoch_train_metric_values)
         (fun e => on_epoch_train_end e epoch_train_metric_values).

(** [Trainer.__validate]. *)
Definition __validate : M unit :=
  model_train false ;;
  notify OnEpochValidationStart on_epoch_validation_start ;;
  e <- gets epoch ;;
  invoke (ValEpochStart e) (fun _ => Done) (val_epoch_start e) ;;
  metric_values <- no_grad (invoke ValEvaluate GaveMetrics val_evaluate) ;;
  e <- gets epoch ;;
  invoke (ValEpochEnd e) (fun _ => Done) (val_epoch_end e) ;;
  notify (OnEpochValidationEnd metric_values)
         (fun e => on_epoch_validation_end e metric_values).

(** The test [(self.epoch + 1) % validate_every == 0]. *)
Definition validation_due (validate_every : Z) : M bool :=
  e <- gets epoch ;;
  r <- lift (py_mod (e + 1) validate_every) ;;
  ret (r =? 0).

(** One iteration of the epoch loop of [fit]. *)
Definition epoch_iteration (data_loader : list Batch) (validate_every : Z) : M unit :=
  e <- gets epoch ;;
  set_epoch (e + 1) ;;
  notify OnEpochStart on_epoch_start ;;
  __train data_loader ;;
  due <- validation_due validate_every ;;
  (if due then __validate else ret tt) ;;
  notify OnEpochEnd on_epoch_end.

(** The body of the [try] block of [fit]. *)
Definition fit_try (data_loader : list Batch) (num_epochs validate_every : Z) : M unit :=
  d <- gets device ;;
  invoke (ModelTo d) (fun _ => Done) (model_to d) ;;
  notify (OnFitStart num_epochs) (fun e => on_fit_start e num_epochs) ;;
  for_each (range num_epochs) (fun _ => epoch_iteration data_loader validate_every).

(** The [except] clauses of [fit], in order. *)
Definition fit_except (output : FitOutput Scalar) (e : exn) : option (M (FitOutput Scalar)) :=
  match e with
  | StopFitIteration _ =>
      Some (notify (OnException e) (fun ep => on_exception ep e) ;;
            ret (set_exception e output))
  | Exception _ =>
      Some (notify (OnException e) (fun ep => on_exception ep e) ;;
            raise e)
  | BaseException _ => None
  end.

(** [Trainer.fit]. *)
Definition fit (data_loader : list Batch) (num_epochs validate_every : Z)
  : M (FitOutput Scalar) :=
  let output := new_FitOutput in
  original_train_mode <- gets training ;;
  start_epoch <- gets epoch ;;
  output <- try_finally
              (try_except
                 (fit_try data_loader num_epochs validate_every ;; ret output)
                 (fit_except output))
              (model_train original_train_mode) ;;
  tracked <- invoke TrainGetTrackedValues GaveTracked train_get_tracked_values ;;
  let output := update_train_tracked_values tracked output in
  tracked <- invoke ValGetTrackedValues GaveTracked val_get_tracked_values ;;
  let output := update_val_tracked_values tracked output in
  e <- gets epoch ;;
  notify (OnFitEnd (e - start_epoch) output)
         (fun ep => on_fit_end ep (e - start_epoch) output) ;;
  ret output.

(** [Trainer.state_dict]. *)
Definition state_dict : M (checkpoint_dict Ser) :=
  model <- invoke (StateDict the_model) GaveState model_state_dict ;;
  optimizer <- invoke (StateDict the_optimizer) GaveState optimizer_state_dict ;;
  value_store <- invoke (StateDict the_value_store) GaveState value_store_state_dict ;;
  train_evaluator <- invoke (StateDict the_train_evaluator) GaveState
                            train_evaluator_state_dict ;;
  val_evaluator <- invoke (StateDict the_val_evaluator) GaveState
                          val_evaluator_state_dict ;;
  callback <- invoke (StateDict the_callback) GaveState callback_state_dict ;;
  e <- gets epoch ;;
  ret {| states := <["model" := model]>
                   (<["optimizer" := optimizer]>
                    (<["value_store" := value_store]>
                     (<["train_evaluator" := train_evaluator]>
                      (<["val_evaluator" := val_evaluator]>
                       (<["callback" := callback]> ∅)))));
         epoch_item := Some e |}.

(** [d[key]] for a collaborator's key, and [d["epoch"]]: [KeyError] when
    the key is missing. *)
Definition getitem (d : checkpoint_dict Ser) (key : string) : M Ser :=
  match states d !! key with
  | Some v => ret v
  | None => raise (KeyError key)
  end.

Definition getitem_epoch (d : checkpoint_dict Ser) : M Z :=
  match epoch_item d with
  | Some z => ret z
  | None => raise (KeyError "epoch")
  end.

(** [self.c.load_state_dict(state_dict[key])]. *)
Definition restore (c : collaborator) (load : Ser -> method W unit)
    (d : checkpoint_dict Ser) (key : string) : M unit :=
  v <- getitem d key ;;
  invoke (LoadStateDict c v) (fun _ => Done) (load v).

(** [Trainer.load_state_dict]; the epoch counter is assigned last. *)
Definition load_state_dict (d : checkpoint_dict Ser) : M unit :=
  restore the_model model_load_state_dict d "model" ;;
  restore the_optimizer optimizer_load_state_dict d "optimizer" ;;
  restore the_value_store value_store_load_state_dict d "value_store" ;;
  restore the_train_evaluator train_evaluator_load_state_dict d "train_evaluator" ;;
  restore the_val_evaluator val_evaluator_load_state_dict d "val_evaluator" ;;
  restore the_callback callback_load_state_dict d "callback" ;;
  z <- getitem_epoch d ;;
  set_epoch z.
End Trainer.

(** ** Reading the log *)

Section Log.
Context {W Device Batch Output Scalar Ser : Type}.
Local Abbreviation trainer := (trainer W Device Batch Output Scalar Ser).
Local Abbreviation entry := (entry Device Batch Output Scalar Ser).
Local Abbreviation call := (call Device Batch Output Scalar Ser).
Local Abbreviation M := (M W Device Batch Output Scalar Ser).

(** The entries logged between two states of one run. *)
Definition since (s s' : trainer) : list entry := drop (length (log s)) (log s').

Definition is_model_to (c : call) : bool :=
  match c with ModelTo _ => true | _ => false end.
Definition is_on_fit_start (c : call) : bool :=
  match c with OnFitStart _ => true | _ => false end.
Definition is_on_exception (c : call) : bool :=
  match c with OnException _ => true | _ => false end.
Definition is_on_fit_end (c : call) : bool :=
  match c with OnFitEnd _ _ => true | _ => false end.
Definition is_on_epoch_start (c : call) : bool :=
  match c with OnEpochStart => true | _ => false end.
Definition is_on_epoch_end (c : call) : bool :=
  match c with OnEpochEnd => true | _ => false end.
Definition is_validation_start (c : call) : bool :=
  match c with OnEpochValidationStart => true | _ => false end.
Definition is_get_tracked_values (c : call) : bool :=
  match c with TrainGetTrackedValues | ValGetTrackedValues => true | _ => false end.

(** The calls of the training phase, of the validation phase, and of the
    whole [try] block of [fit]. *)
Definition train_call (c : call) : bool :=
  match c with
  | ModelTrain true | OnEpochTrainStart _ | TrainEpochStart _
  | OnTrainBatchStart _ | BatchUpdate _ _ | TrainEvaluateBatch _
  | OnTrainBatchEnd _ _ _ | TrainEpochEnd _ | TrainGetTrackedValues
  | OnEpochTrainEnd _ => true
  | _ => false
  end.

Definition validate_call (c : call) : bool :=
  match c with
  | ModelTrain false | OnEpochValidationStart | ValEpochStart _ | ValEvaluate
  | ValEpochEnd _ | OnEpochValidationEnd _ => true
  | _ => false
  end.

Definition try_call (c : call) : bool :=
  match c with
  | ModelTo _ | OnFitStart _ | OnEpochStart | OnEpochEnd => true
  | _ => train_call c || validate_call c
  end.

(** Calls that neither start a validation nor end an epoch. *)
Definition off_schedule (c : call) : bool :=
  negb (is_validation_start c) && negb (is_on_epoch_end c).

(** The calls [fit] makes outside its [try] block. *)
Definition outside_try (c : call) : bool :=
  match c with
  | OnException _ | ModelTrain _ | TrainGetTrackedValues | ValGetTrackedValues
  | OnFitEnd _ _ => true
  | _ => false
  end.

(** How many logged calls satisfy [p], and at which epochs they were made. *)
Definition count_calls (p : call -> bool) (l : list entry) : nat :=
  length (List.filter (fun en => p (what en)) l).

Definition epochs_of (p : call -> bool) (l : list entry) : list Z :=
  map at_epoch (List.filter (fun en => p (what en)) l).

(** What a caller can observe of one run that started in [s]: the outcome,
    the collaborators' state, the epoch counter, the model's mode and the
    calls that were made. *)
Definition observe {A : Type} (s : trainer) (run : trainer * outcome A)
  : outcome A * W * Z * bool * list entry :=
  (run.2, collab run.1, epoch run.1, training run.1, since s run.1).

(** [grows ok s s']: from [s] to [s'] the device, the epoch and the
    gradient mode are unchanged and the log has grown by calls that
    satisfy [ok], all made at the epoch of [s]. *)
Definition grows (ok : call -> bool) (s s' : trainer) : Prop :=
  device s' = device s /\ epoch s' = epoch s /\ grad_enabled s' = grad_enabled s /\
  exists d, log s' = log s ++ d /\
            Forall (fun en => at_epoch en = epoch s /\ ok (what en) = true) d.

(** [keeps ok m]: every run of [m] grows the log by [ok] calls. *)
Definition keeps (ok : call -> bool) {A : Type} (m : M A) : Prop :=
  forall s, grows ok s (m s).1.

(** [logs_only ok s s']: from [s] to [s'] the log has grown by calls that
    satisfy [ok]. *)
Definition logs_only (ok : call -> bool) (s s' : trainer) : Prop :=
  exists d, log s' = log s ++ d /\ Forall (fun en => ok (what en) = true) d.

(** [advances ok m]: every run of [m] grows the log by [ok] calls and does
    not move the epoch counter back. *)
Definition advances (ok : call -> bool) {A : Type} (m : M A) : Prop :=
  forall s, logs_only ok s (m s).1 /\ epoch s <= epoch (m s).1.

(** [emits P m]: what any run of [m] adds to the log satisfies [P]. *)
Definition emits (P : list entry -> Prop) {A : Type} (m : M A) : Prop :=
  forall s, exists d, log (m s).1 = log s ++ d /\ P d.

(** A stretch of log follows the validation schedule: validation only
    started at epochs where it was due, and it started at every due epoch
    whose iteration reached [on_epoch_end]. *)
Definition on_schedule (validate_every : Z) (d : list entry) : Prop :=
  (forall e, In e (epochs_of is_validation_start d) ->
             validate_every <> 0 /\ (e + 1) mod validate_every = 0) /\
  (forall e, In e (epochs_of is_on_epoch_end d) ->
             (e + 1) mod validate_every = 0 ->
             In e (epochs_of is_validation_start d)).

(** The [n] epochs [start], [start + 1], ... *)
Fixpoint epochs_from (start : Z) (n : nat) : list Z :=
  match n with
  | O => []
  | S n' => start :: epochs_from (start + 1) n'
  end.

(** A log entry of a call that came back normally with nothing. *)
Definition done (e : Z) (g : bool) (c : call) : entry :=
  {| at_epoch := e; grad_on := g; what := c; came_back := Done |}.

(** The calls [fit] makes after its [try] block when it is about to return
    [output]: the model's mode is put back, both evaluators are asked for
    their tracked values, and [on_fit_end] is told the number of epochs
    run. *)
Definition finishing_calls (e : Z) (g : bool) (mode : bool) (epochs_run : Z)
    (output : FitOutput Scalar) : list entry :=
  [ done e g (ModelTrain mode);
    {| at_epoch := e; grad_on := g; what := TrainGetTrackedValues;
       came_back := GaveTracked (train_tracked_values output) |};
    {| at_epoch := e; grad_on := g; what := ValGetTrackedValues;
       came_back := GaveTracked (val_tracked_values output) |};
    done e g (OnFitEnd epochs_run output) ].

(** The log entry of [c.state_dict()] that came back with [state], and of
    [c.load_state_dict(v)] with its reply. *)
Definition saved (e : Z) (g : bool) (c : collaborator) (state : Ser) : entry :=
  {| at_epoch := e; grad_on := g; what := StateDict c; came_back := GaveState state |}.

Definition loaded (e : Z) (g : bool) (c : collaborator) (v : Ser)
    (r : reply Output Scalar Ser) : entry :=
  {| at_epoch := e; grad_on := g; what := LoadStateDict c v; came_back := r |}.

(** The checkpoint dictionary built from the six serialized states and the
    epoch counter. *)
Definition checkpoint (model optimizer value_store train_evaluator val_evaluator
    callback : Ser) (e : Z) : checkpoint_dict Ser :=
  {| states := <["model" := model]>
               (<["optimizer" := optimizer]>
                (<["value_store" := value_store]>
                 (<["train_evaluator" := train_evaluator]>
                  (<["val_evaluator" := val_evaluator]>
                   (<["callback" := callback]> ∅)))));
     epoch_item := Some e |}.

(** The same trainer with another log. *)
Definition relog (l : list entry) (s : trainer) : trainer :=
  {| collab := collab s; device := device s; epoch := epoch s;
     training := training s; grad_enabled := grad_enabled s; log := l |}.

(** [log_blind m]: [m] does not read the log; started with the log [l] it
    does what it does on the empty log, after [l]. *)
Definition log_blind {A : Type} (m : M A) : Prop :=
  forall s l,
    m (relog l s) =
    (relog (l ++ log (m (relog [] s)).1) (m (relog [] s)).1, (m (relog [] s)).2).

(** The four calls made for one batch that came back with output [o] and
    metric values [m]; the evaluator is called with gradients off. *)
Definition batch_calls (e : Z) (g : bool) (item : Z * Batch)
    (r : Output * gmap string Scalar) : list entry :=
  [ {| at_epoch := e; grad_on := g; what := OnTrainBatchStart item.1; came_back := Done |};
    {| at_epoch := e; grad_on := g; what := BatchUpdate item.1 item.2;
       came_back := GaveOutput r.1 |};
    {| at_epoch := e; grad_on := false; what := TrainEvaluateBatch r.1;
       came_back := GaveMetrics r.2 |};
    {| at_epoch := e; grad_on := g; what := OnTrainBatchEnd item.1 r.1 r.2;
       came_back := Done |} ].

(** The calls of a whole training phase at epoch [e] over [data_loader],
    whose batches came back with [results] and whose evaluator ended the
    epoch with the tracked values [tracked]. *)
Definition train_calls (e : Z) (g : bool) (data_loader : list Batch)
    (results : list (Output * gmap string Scalar))
    (tracked : gmap string (TrackedValue Scalar)) : list entry :=
  [ {| at_epoch := e; grad_on := g; what := ModelTrain true; came_back := Done |};
    {| at_epoch := e; grad_on := g;
       what := OnEpochTrainStart (Z.of_nat (length data_loader)); came_back := Done |};
    {| at_epoch := e; grad_on := g; what := TrainEpochStart e; came_back := Done |} ]
  ++ concat (zip_with (batch_calls e g) (enumerate data_loader) results)
  ++ [ {| at_epoch := e; grad_on := g; what := TrainEpochEnd e; came_back := Done |};
       {| at_epoch := e; grad_on := g; what := TrainGetTrackedValues;
          came_back := GaveTracked tracked |};
       {| at_epoch := e; grad_on := g;
          what := OnEpochTrainEnd (current_value <$> tracked); came_back := Done |} ].

(** The calls of a whole validation phase at epoch [e]. *)
Definition validate_calls (e : Z) (g : bool) (metric_values : gmap string Scalar)
  : list entry :=
  [ {| at_epoch := e; grad_on := g; what := ModelTrain false; came_back := Done |};
    {| at_epoch := e; grad_on := g; what := OnEpochValidationStart; came_back := Done |};
    {| at_epoch := e; grad_on := g; what := ValEpochStart e; came_back := Done |};
    {| at_epoch := e; grad_on := false; what := ValEvaluate;
       came_back := GaveMetrics metric_values |};
    {| at_epoch := e; grad_on := g; what := ValEpochEnd e; came_back := Done |};
    {| at_epoch := e; grad_on := g; what := OnEpochValidationEnd metric_values;
       came_back := Done |} ].
End Log.

(** ** The collaborators' side of the checkpoint contract *)

Section Contract.
Context {W Device Output Scalar Ser : Type}.
Context `{!Model W Device Ser, !Optimizer W Ser, !ValueStore W Ser,
          !TrainEvaluator W Output Scalar Ser, !Evaluator W Scalar Ser,
          !Callback W Output Scalar Ser}.

Definition state_dict_of (c : collaborator) : method W Ser :=
  match c with
  | the_model => model_state_dict
  | the_optimizer => optimizer_state_dict
  | the_value_store => value_store_state_dict
  | the_train_evaluator => train_evaluator_state_dict
  | the_val_evaluator => val_evaluator_state_dict
  | the_callback => callback_state_dict
  end.

Definition load_state_dict_of (c : collaborator) : Ser -> method W unit :=
  match c with
  | the_model => model_load_state_dict
  | the_optimizer => optimizer_load_state_dict
  | the_value_store => value_store_load_state_dict
  | the_train_evaluator => train_evaluator_load_state_dict
  | the_val_evaluator => val_evaluator_load_state_dict
  | the_callback => callback_load_state_dict
  end.

(** Every collaborator exposes a symmetric save/restore pair:
    [state_dict] reads its state ([captured]) without changing the heap,
    and [load_state_dict] of a captured state puts that collaborator's
    state into the heap it is applied to ([restored c src dst]: the heap
    [dst] with [c]'s state taken from [src]).  The six collaborators make
    up the heap: restoring all of them from [src] gives [src]. *)
Class SymmetricCheckpoints : Type := {
  captured : collaborator -> W -> Ser;
  restored : collaborator -> W -> W -> W;
  state_dict_reads : forall c w, state_dict_of c w = (w, Return (captured c w));
  load_state_dict_restores : forall c src dst,
    load_state_dict_of c (captured c src) dst = (restored c src dst, Return tt);
  collaborators_make_up_heap : forall src dst,
    restored the_callback src
      (restored the_val_evaluator src
         (restored the_train_evaluator src
            (restored the_value_store src
               (restored the_optimizer src
                  (restored the_model src dst))))) = src
}.

(** The checkpoint of a heap and an epoch. *)
Definition capture `{!SymmetricCheckpoints} (w : W) (e : Z) : checkpoint_dict Ser :=
  checkpoint (captured the_model w) (captured the_optimizer w)
             (captured the_value_store w) (captured the_train_evaluator w)
             (captured the_val_evaluator w) (captured the_callback w) e.
End Contract.
Arguments SymmetricCheckpoints W {Device Output Scalar Ser _ _ _ _ _ _}.

(** ** GroupRMSprop.__init__ *)

Module GroupRMSprop.
(** The per-group defaults handed to [torch.optim.Optimizer.__init__]. *)
Record defaults : Type := {
  lr : float;
  beta : float;
  eps : float;
  adjusted_lr : float
}.

Section Init.
Context {Params Base : Type}.
(** [torch.optim.Optimizer.__init__(self, params, defaults)]. *)
Context (Optimizer__init__ : Params -> defaults -> outcome Base).
(** ["{}".format(x)] on a float. *)
Context (format : float -> string).

Definition __init__ (params : Params) (lr beta eps : float) : outcome Base :=
  if negb (0 <=? lr)%float then
    Raise (ValueError (String.append "Invalid learning rate: " (format lr)))
  else if negb (0 <=? eps)%float then
    Raise (ValueError (String.append "Invalid epsilon value: " (format eps)))
  else if negb (0 <=? beta)%float then
    Raise (ValueError (String.append "Invalid beta value: " (format beta)))
  else
    Optimizer__init__ params
      {| lr := lr; beta := beta; eps := eps; adjusted_lr := lr |}.
End Init.
End GroupRMSprop.

(** ** MSELoss._calc_metric *)

Module MSELoss.
Record MSELoss : Type := { reduction : string }.

Section CalcMetric.
Context {Tensor Scalar : Type}.
(** The tensor operations of torch the method uses: [a - b], [a ** n],
    [t.mean()], [t.sum()], [t.item()] and [len(t)]. *)
Context (sub : Tensor -> Tensor -> Tensor) (pow : Tensor -> Z -> Tensor)
        (mean sum : Tensor -> Tensor) (item : Tensor -> Scalar) (len : Tensor -> Z).

Definition _calc_metric (self : MSELoss) (y_pred y : Tensor) : Scalar * Z :=
  let losses := pow (sub y_pred y) 2 in
  let loss := if String.eqb (reduction self) "mean" then mean losses else sum losses in
  (item loss, len y).
End CalcMetric.
End MSELoss.

(** ** A concrete set of collaborators

    A one-weight model trained on integer batches, used to run the embedding
    on concrete inputs.  A [plan] says where the collaborators misbehave. *)

Module Demo.
Record plan : Type := {
  stop_at : option Z;               (* on_train_batch_end raises StopFitIteration at this epoch *)
  update_fails_at : option Z;       (* batch_update raises RuntimeError at this epoch *)
  interrupt_at : option Z;          (* batch_update is interrupted at this epoch *)
  on_exception_raises : option exn; (* what the on_exception hook raises *)
  on_fit_end_raises : option exn    (* what the on_fit_end hook raises *)
}.

Definition well_behaved : plan :=
  {| stop_at := None; update_fails_at := None; interrupt_at := None;
     on_exception_raises := None; on_fit_end_raises := None |}.

(** [on_train_batch_end] asks to stop at epoch 2. *)
Definition stop_plan : plan :=
  {| stop_at := Some 2; update_fails_at := None; interrupt_at := None;
     on_exception_raises := None; on_fit_end_raises := None |}.

(** As [stop_plan], with an [on_exception] hook that fails. *)
Definition stop_broken_hook_plan : plan :=
  {| stop_at := Some 2; update_fails_at := None; interrupt_at := None;
     on_exception_raises := Some (Exception "LoggerError"); on_fit_end_raises := None |}.

(** [on_fit_end] raises the stop signal. *)
Definition late_stop_plan : plan :=
  {| stop_at := None; update_fails_at := None; interrupt_at := None;
     on_exception_raises := None; on_fit_end_raises := Some (StopFitIteration "late") |}.

(** [batch_update] fails at epoch 1. *)
Definition failing_plan : plan :=
  {| stop_at := None; update_fails_at := Some 1; interrupt_at := None;
     on_exception_raises := None; on_fit_end_raises := None |}.

(** As [failing_plan], with an [on_exception] hook that fails. *)
Definition failing_broken_hook_plan : plan :=
  {| stop_at := None; update_fails_at := Some 1; interrupt_at := None;
     on_exception_raises := Some (Exception "LoggerError"); on_fit_end_raises := None |}.

(** The run is interrupted from the keyboard during epoch 0. *)
Definition interrupted_plan : plan :=
  {| stop_at := None; update_fails_at := None; interrupt_at := Some 0;
     on_exception_raises := None; on_fit_end_raises := None |}.

(** [on_fit_end] fails. *)
Definition end_fails_plan : plan :=
  {| stop_at := None; update_fails_at := None; interrupt_at := None;
     on_exception_raises := None; on_fit_end_raises := Some (Exception "IOError") |}.

Record world : Type := {
  weights : Z;                      (* model *)
  steps : Z;                        (* optimizer *)
  train_loss : TrackedValue Z;      (* value store *)
  val_loss : TrackedValue Z;        (* value store *)
  batches_seen : Z;                 (* train evaluator *)
  val_runs : Z;                     (* validation evaluator *)
  hooks : Z                         (* callback *)
}.

Definition fresh_world : world :=
  {| weights := 0; steps := 0;
     train_loss := {| current_value := 0; epoch_last_updated := -1 |};
     val_loss := {| current_value := 0; epoch_last_updated := -1 |};
     batches_seen := 0; val_runs := 0; hooks := 0 |}.

Definition with_model (z : Z) (w : world) : world :=
  {| weights := z; steps := steps w; train_loss := train_loss w; val_loss := val_loss w;
     batches_seen := batches_seen w; val_runs := val_runs w; hooks := hooks w |}.
Definition with_optimizer (z : Z) (w : world) : world :=
  {| weights := weights w; steps := z; train_loss := train_loss w; val_loss := val_loss w;
     batches_seen := batches_seen w; val_runs := val_runs w; hooks := hooks w |}.
Definition with_train_loss (t : TrackedValue Z) (w : world) : world :=
  {| weights := weights w; steps := steps w; train_loss := t; val_loss := val_loss w;
     batches_seen := batches_seen w; val_runs := val_runs w; hooks := hooks w |}.
Definition with_val_loss (t : TrackedValue Z) (w : world) : world :=
  {| weights := weights w; steps := steps w; train_loss := train_loss w; val_loss := t;
     batches_seen := batches_seen w; val_runs := val_runs w; hooks := hooks w |}.
Definition with_batches_seen (z : Z) (w : world) : world :=
  {| weights := weights w; steps := steps w; train_loss := train_loss w;
     val_loss := val_loss w; batches_seen := z; val_runs := val_runs w; hooks := hooks w |}.
Definition with_val_runs (z : Z) (w : world) : world :=
  {| weights := weights w; steps := steps w; train_loss := train_loss w;
     val_loss := val_loss w; batches_seen := batches_seen w; val_runs := z; hooks := hooks w |}.
Definition with_hooks (z : Z) (w : world) : world :=
  {| weights := weights w; steps := steps w; train_loss := train_loss w;
     val_loss := val_loss w; batches_seen := batches_seen w; val_runs := val_runs w;
     hooks := z |}.

Definition ok (w : world) : world * outcome unit := (w, Return tt).

Definition hook (w : world) : world * outcome unit := ok (with_hooks (hooks w + 1) w).

Definition hook_or (e : option exn) (w : world) : world * outcome unit :=
  match e with
  | Some e => (with_hooks (hooks w + 1) w, Raise e)
  | None => hook w
  end.

Definition at_epoch_of (o : option Z) (e : Z) : bool :=
  match o with Some z => z =? e | None => false end.

(** Serialized collaborator state: a list of integers. *)
Definition load1 (set : Z -> world -> world) (v : list Z) (w : world)
  : world * outcome unit :=
  match v with
  | [z] => ok (set z w)
  | _ => (w, Raise (Exception "RuntimeError"))
  end.

Definition load_value_store (v : list Z) (w : world) : world * outcome unit :=
  match v with
  | [a; b; c; d] =>
      ok (with_val_loss {| current_value := c; epoch_last_updated := d |}
            (with_train_loss {| current_value := a; epoch_last_updated := b |} w))
  | _ => (w, Raise (Exception "RuntimeError"))
  end.

Definition demo_captured (c : collaborator) (w : world) : list Z :=
  match c with
  | the_model => [weights w]
  | the_optimizer => [steps w]
  | the_value_store =>
      [current_value (train_loss w); epoch_last_updated (train_loss w);
       current_value (val_loss w); epoch_last_updated (val_loss w)]
  | the_train_evaluator => [batches_seen w]
  | the_val_evaluator => [val_runs w]
  | the_callback => [hooks w]
  end.

Definition demo_restored (c : collaborator) (src dst : world) : world :=
  match c with
  | the_model => with_model (weights src) dst
  | the_optimizer => with_optimizer (steps src) dst
  | the_value_store =>
      with_val_loss {| current_value := current_value (val_loss src);
                       epoch_last_updated := epoch_last_updated (val_loss src) |}
        (with_train_loss {| current_value := current_value (train_loss src);
                            epoch_last_updated := epoch_last_updated (train_loss src) |}
           dst)
  | the_train_evaluator => with_batches_seen (batches_seen src) dst
  | the_val_evaluator => with_val_runs (val_runs src) dst
  | the_callback => with_hooks (hooks src) dst
  end.

(** The checkpoint of a fresh trainer. *)
Definition fresh_checkpoint : checkpoint_dict (list Z) :=
  checkpoint [0] [0] [0; -1; 0; -1] [0] [0] [0] (-1).

(** Integer vectors as tensors, for [MSELoss]. *)
Definition vsub (a b : list Z) : list Z := zip_with Z.sub a b.
Definition vpow (a : list Z) (n : Z) : list Z := map (fun x => x ^ n) a.
Definition vsum (a : list Z) : list Z := [fold_right Z.add 0 a].
Definition vmean (a : list Z) : list Z := [fold_right Z.add 0 a / Z.of_nat (length a)].
Definition vitem (a : list Z) : Z := hd 0 a.
Definition vlen (a : list Z) : Z := Z.of_nat (length a).

Section Collaborators.
Context (p : plan).

#[local] Instance demo_model : Model world unit (list Z) := {|
  model_to := fun _ w => ok w;
  model_state_dict := fun w => (w, Return [weights w]);
  model_load_state_dict := load1 with_model
|}.

#[local] Instance demo_optimizer : Optimizer world (list Z) := {|
  optimizer_state_dict := fun w => (w, Return [steps w]);
  optimizer_load_state_dict := load1 with_optimizer
|}.

#[local] Instance demo_value_store : ValueStore world (list Z) := {|
  value_store_state_dict := fun w =>
    (w, Return [current_value (train_loss w); epoch_last_updated (train_loss w);
                current_value (val_loss w); epoch_last_updated (val_loss w)]);
  value_store_load_state_dict := load_value_store
|}.

#[local] Instance demo_train_evaluator : TrainEvaluator world Z Z (list Z) := {|
  train_epoch_start := fun _ w => ok (with_batches_seen 0 w);
  train_evaluate_batch := fun output w =>
    (with_batches_seen (batches_seen w + 1) w, Return {[ "loss" := output ]});
  train_epoch_end := fun e w =>
    ok (with_train_loss {| current_value := weights w; epoch_last_updated := e |} w);
  train_get_tracked_values := fun w => (w, Return {[ "train loss" := train_loss w ]});
  train_evaluator_state_dict := fun w => (w, Return [batches_seen w]);
  train_evaluator_load_state_dict := load1 with_batches_seen
|}.

#[local] Instance demo_val_evaluator : Evaluator world Z (list Z) := {|
  val_epoch_start := fun _ w => ok w;
  val_evaluate := fun w =>
    (with_val_runs (val_runs w + 1) w, Return {[ "val loss" := weights w ]});
  val_epoch_end := fun e w =>
    ok (with_val_loss {| current_value := weights w; epoch_last_updated := e |} w);
  val_get_tracked_values := fun w => (w, Return {[ "val loss" := val_loss w ]});
  val_evaluator_state_dict := fun w => (w, Return [val_runs w]);
  val_evaluator_load_state_dict := load1 with_val_runs
|}.

#[local] Instance demo_callback : Callback world Z Z (list Z) := {|
  on_fit_start := fun _ _ => hook;
  on_fit_end := fun _ _ _ => hook_or (on_fit_end_raises p);
  on_epoch_start := fun _ => hook;
  on_epoch_end := fun _ => hook;
  on_epoch_train_start := fun _ _ => hook;
  on_epoch_train_end := fun _ _ => hook;
  on_train_batch_start := fun _ _ => hook;
  on_train_batch_end := fun e _ _ _ =>
    hook_or (if at_epoch_of (stop_at p) e then Some (StopFitIteration "stop") else None);
  on_epoch_validation_start := fun _ => hook;
  on_epoch_validation_end := fun _ _ => hook;
  on_exception := fun _ _ => hook_or (on_exception_raises p);
  callback_state_dict := fun w => (w, Return [hooks w]);
  callback_load_state_dict := load1 with_hooks
|}.

#[local] Instance demo_update : UpdateStrategy world Z Z := {|
  batch_update := fun e _ batch w =>
    if at_epoch_of (update_fails_at p) e then (w, Raise (Exception "RuntimeError"))
    else if at_epoch_of (interrupt_at p) e then (w, Raise (BaseException "KeyboardInterrupt"))
    else (with_optimizer (steps w + 1) (with_model (weights w + batch) w),
          Return (weights w + batch))
|}.

Definition fresh_trainer : trainer world unit Z Z Z (list Z) :=
  __init__ fresh_world tt true true.

(** A new trainer whose model is in eval mode. *)
Definition fresh_eval_trainer : trainer world unit Z Z Z (list Z) :=
  __init__ fresh_world tt false true.

(** The trainer after four epochs. *)
Definition trained : trainer world unit Z Z Z (list Z) :=
  (fit [1; 2] 4 2 fresh_trainer).1.

End Collaborators.

(** The trainer's methods on these collaborators, under the plan [p]. *)
Abbreviation train p :=
  (__train (W := world) (Device := unit) (Batch := Z) (Output := Z) (Scalar := Z)
     (Ser := list Z) (TrainEvaluator0 := demo_train_evaluator)
     (Callback0 := demo_callback p) (UpdateStrategy0 := demo_update p)).
Abbreviation validate p :=
  (__validate (W := world) (Device := unit) (Batch := Z) (Output := Z) (Scalar := Z)
     (Ser := list Z) (Evaluator0 := demo_val_evaluator) (Callback0 := demo_callback p)).
Abbreviation epoch_iteration p :=
  (epoch_iteration (W := world) (Device := unit) (Batch := Z) (Output := Z) (Scalar := Z)
     (Ser := list Z) (TrainEvaluator0 := demo_train_evaluator)
     (Evaluator0 := demo_val_evaluator) (Callback0 := demo_callback p)
     (UpdateStrategy0 := demo_update p)).
Abbreviation fit_try p :=
  (fit_try (W := world) (Device := unit) (Batch := Z) (Output := Z) (Scalar := Z)
     (Ser := list Z) (Model0 := demo_model) (TrainEvaluator0 := demo_train_evaluator)
     (Evaluator0 := demo_val_evaluator) (Callback0 := demo_callback p)
     (UpdateStrategy0 := demo_update p)).
Abbreviation fit p :=
  (fit (W := world) (Device := unit) (Batch := Z) (Output := Z) (Scalar := Z)
     (Ser := list Z) (Model0 := demo_model) (TrainEvaluator0 := demo_train_evaluator)
     (Evaluator0 := demo_val_evaluator) (Callback0 := demo_callback p)
     (UpdateStrategy0 := demo_update p)).
Abbreviation state_dict p :=
  (state_dict (W := world) (Device := unit) (Batch := Z) (Output := Z) (Scalar := Z)
     (Ser := list Z) (Model0 := demo_model) (Optimizer0 := demo_optimizer)
     (ValueStore0 := demo_value_store) (TrainEvaluator0 := demo_train_evaluator)
     (Evaluator0 := demo_val_evaluator) (Callback0 := demo_callback p)).
Abbreviation load_state_dict p :=
  (load_state_dict (W := world) (Device := unit) (Batch := Z) (Output := Z) (Scalar := Z)
     (Ser := list Z) (Model0 := demo_model) (Optimizer0 := demo_optimizer)
     (ValueStore0 := demo_value_store) (TrainEvaluator0 := demo_train_evaluator)
     (Evaluator0 := demo_val_evaluator) (Callback0 := demo_callback p)).
End Demo.

(** ** More ways to read a run *)

Section MoreLog.
Context {W Device Batch Output Scalar Ser : Type}.
Local Abbreviation trainer := (trainer W Device Batch Output Scalar Ser).
Local Abbreviation entry := (entry Device Batch Output Scalar Ser).
Local Abbreviation call := (call Device Batch Output Scalar Ser).
Local Abbreviation M := (M W Device Batch Output Scalar Ser).

Definition is_batch_update (c : call) : bool :=
  match c with BatchUpdate _ _ => true | _ => false end.
Definition is_on_train_batch_start (c : call) : bool :=
  match c with OnTrainBatchStart _ => true | _ => false end.
Definition is_on_train_batch_end (c : call) : bool :=
  match c with OnTrainBatchEnd _ _ _ => true | _ => false end.
Definition is_load_state_dict (c : call) : bool :=
  match c with LoadStateDict _ _ => true | _ => false end.

(** The calls [fit] makes after its handlers. *)
Definition final_call (c : call) : bool :=
  match c with
  | TrainGetTrackedValues | ValGetTrackedValues | OnFitEnd _ _ => true
  | _ => false
  end.

(** The calls [fit] makes outside its epoch loop. *)
Definition outside_loop (c : call) : bool :=
  is_model_to c || is_on_fit_start c || outside_try c.

(** The four calls made for every batch. *)
Definition is_train_evaluate_batch (c : call) : bool :=
  match c with TrainEvaluateBatch _ => true | _ => false end.

Definition batch_call (c : call) : bool :=
  is_on_train_batch_start c || is_batch_update c || is_train_evaluate_batch c
  || is_on_train_batch_end c.

(** The keys [load_state_dict] reads, in the order it reads them. *)
Definition checkpoint_keys : list string :=
  ["model"; "optimizer"; "value_store"; "train_evaluator"; "val_evaluator";
   "callback"; "epoch"].

(** [frames f m]: no run of [m] changes the field [f] of the trainer. *)
Definition frames {X A : Type} (f : trainer -> X) (m : M A) : Prop :=
  forall s, f (m s).1 = f s.

(** A field that a call into a collaborator or [model.train] leaves alone:
    it does not depend on the heap, the model's mode or the log. *)
Definition own_field {X : Type} (f : trainer -> X) : Prop :=
  forall s (w : W) (b : bool) (l : list entry),
    f {| collab := w; device := device s; epoch := epoch s; training := b;
         grad_enabled := grad_enabled s; log := l |} = f s.
End MoreLog.

(** ** Replaying a log against the collaborators *)

Section Replay.
Context {W Device Batch Output Scalar Ser : Type}.
Context `{!Model W Device Ser, !Optimizer W Ser, !ValueStore W Ser,
          !TrainEvaluator W Output Scalar Ser, !Evaluator W Scalar Ser,
          !Callback W Output Scalar Ser, !UpdateStrategy W Batch Output}.

Local Abbreviation trainer := (trainer W Device Batch Output Scalar Ser).
Local Abbreviation entry := (entry Device Batch Output Scalar Ser).
Local Abbreviation call := (call Device Batch Output Scalar Ser).
Local Abbreviation reply := (reply Output Scalar Ser).
Local Abbreviation M := (M W Device Batch Output Scalar Ser).

(** The heap a collaborator's method left, and the reply logged for what
    it returned or raised. *)
Definition answered {A : Type} (wrap : A -> reply) (run : W * outcome A) : W * reply :=
  (run.1, to_reply wrap run.2).

(** The collaborator's method that each call of the vocabulary stands for,
    run on the heap [w] for a trainer whose epoch counter is [e].
    [model.train(mode)] only sets the model's flag, which is not part of
    the heap. *)
Definition answer (e : Z) (c : call) (w : W) : W * reply :=
  match c with
  | ModelTo d => answered (fun _ => Done) (model_to d w)
  | ModelTrain _ => (w, Done)
  | OnFitStart n => answered (fun _ => Done) (on_fit_start e n w)
  | OnFitEnd n output => answered (fun _ => Done) (on_fit_end e n output w)
  | OnEpochStart => answered (fun _ => Done) (on_epoch_start e w)
  | OnEpochEnd => answered (fun _ => Done) (on_epoch_end e w)
  | OnEpochTrainStart n => answered (fun _ => Done) (on_epoch_train_start e n w)
  | OnEpochTrainEnd m => answered (fun _ => Done) (on_epoch_train_end e m w)
  | OnTrainBatchStart n => answered (fun _ => Done) (on_train_batch_start e n w)
  | OnTrainBatchEnd n o m => answered (fun _ => Done) (on_train_batch_end e n o m w)
  | OnEpochValidationStart => answered (fun _ => Done) (on_epoch_validation_start e w)
  | OnEpochValidationEnd m => answered (fun _ => Done) (on_epoch_validation_end e m w)
  | OnException x => answered (fun _ => Done) (on_exception e x w)
  | BatchUpdate n batch => answered GaveOutput (batch_update e n batch w)
  | TrainEpochStart e' => answered (fun _ => Done) (train_epoch_start e' w)
  | TrainEvaluateBatch o => answered GaveMetrics (train_evaluate_batch o w)
  | TrainEpochEnd e' => answered (fun _ => Done) (train_epoch_end e' w)
  | TrainGetTrackedValues => answered GaveTracked (train_get_tracked_values w)
  | ValEpochStart e' => answered (fun _ => Done) (val_epoch_start e' w)
  | ValEvaluate => answered GaveMetrics (val_evaluate w)
  | ValEpochEnd e' => answered (fun _ => Done) (val_epoch_end e' w)
  | ValGetTrackedValues => answered GaveTracked (val_get_tracked_values w)
  | StateDict c => answered GaveState (state_dict_of c w)
  | LoadStateDict c v => answered (fun _ => Done) (load_state_dict_of c v w)
  end.

(** [replays w l w']: the entries of [l] are what the collaborators do
    when the calls of [l] are made one after the other starting from the
    heap [w]: each call, made on the heap the one before it left, gives the
    logged reply, and the last one leaves the heap [w']. *)
Fixpoint replays (w : W) (l : list entry) (w' : W) : Prop :=
  match l with
  | [] => w' = w
  | en :: l' =>
      exists w1, answer (at_epoch en) (what en) w = (w1, came_back en) /\
                 replays w1 l' w'
  end.

(** [records_at m s]: the run of [m] from [s] changes the heap by the calls
    it logs and by nothing else. *)
Definition records_at {A : Type} (m : M A) (s : trainer) : Prop :=
  exists d, log (m s).1 = log s ++ d /\ replays (collab s) d (collab (m s).1).

Definition records {A : Type} (m : M A) : Prop := forall s, records_at m s.
End Replay.

(** * Facts *)

(** ** The monad *)

Section MonadFacts.
Context {W Device Batch Output Scalar Ser : Type}.
Local Abbreviation trainer := (trainer W Device Batch Output Scalar Ser).
Local Abbreviation M := (M W Device Batch Output Scalar Ser).
Local Abbreviation entry := (entry Device Batch Output Scalar Ser).
Local Abbreviation call := (call Device Batch Output Scalar Ser).

Local Abbreviation keeps := (keeps (W := W)).
Implicit Types (ok : call -> bool) (s : trainer).

Lemma bind_Return {A B : Type} (m : M A) (k : A -> M B) s s1 a :
  m s = (s1, Return a) -> bind m k s = k a s1.
Proof. intros E. unfold bind. now rewrite E. Qed.

Lemma bind_Raise {A B : Type} (m : M A) (k : A -> M B) s s1 e :
  m s = (s1, Raise e) -> bind m k s = (s1, Raise e).
Proof. intros E. unfold bind. now rewrite E. Qed.

Lemma bind_inv {A B : Type} (m : M A) (k : A -> M B) s s' r :
  bind m k s = (s', r) ->
  (exists s1 a, m s = (s1, Return a) /\ k a s1 = (s', r)) \/
  (exists e, m s = (s', Raise e) /\ r = Raise e).
Proof.
  unfold bind. destruct (m s) as [s1 [a|e]]; intros E.
  - left. eauto.
  - right. inversion E; subst. eauto.
Qed.

Lemma bind_Return_inv {A B : Type} (m : M A) (k : A -> M B) s s' b :
  bind m k s = (s', Return b) ->
  exists s1 a, m s = (s1, Return a) /\ k a s1 = (s', Return b).
Proof.
  intros E. apply bind_inv in E as [E | (e & _ & E)]; [exact E | discriminate].
Qed.

(** *** What one run adds to the log *)

Lemma grows_refl ok s : grows ok s s.
Proof.
  repeat split. exists []. split; [now rewrite app_nil_r | constructor].
Qed.

Lemma grows_trans ok s1 s2 s3 : grows ok s1 s2 -> grows ok s2 s3 -> grows ok s1 s3.
Proof.
  intros (D1 & E1 & G1 & d1 & L1 & F1) (D2 & E2 & G2 & d2 & L2 & F2).
  repeat split; try congruence.
  exists (d1 ++ d2). split.
  - rewrite L2, L1. now rewrite app_assoc.
  - apply Forall_app. split; [exact F1 |].
    rewrite E1 in F2. exact F2.
Qed.

Lemma grows_weaken (ok ok' : call -> bool) s s' :
  (forall c, ok c = true -> ok' c = true) -> grows ok s s' -> grows ok' s s'.
Proof.
  intros Hsub (D & E & G & d & L & F). repeat split; trivial.
  exists d. split; [exact L |].
  eapply List.Forall_impl; [| exact F]. cbn. intros en [? ?]. auto.
Qed.

Lemma keeps_ret ok {A : Type} (a : A) : keeps ok (ret a).
Proof. intros s. apply grows_refl. Qed.

Lemma keeps_raise ok {A : Type} (e : exn) : keeps ok (raise (A := A) e).
Proof. intros s. apply grows_refl. Qed.

Lemma keeps_lift ok {A : Type} (r : outcome A) : keeps ok (lift r).
Proof. intros s. apply grows_refl. Qed.

Lemma keeps_gets ok {A : Type} (f : trainer -> A) : keeps ok (gets f).
Proof. intros s. apply grows_refl. Qed.

Lemma keeps_bind ok {A B : Type} (m : M A) (k : A -> M B) :
  keeps ok m -> (forall a, keeps ok (k a)) -> keeps ok (bind m k).
Proof.
  intros Hm Hk s. specialize (Hm s). unfold bind.
  destruct (m s) as [s1 [a|e]]; cbn in *; [| exact Hm].
  eapply grows_trans; [exact Hm | apply Hk].
Qed.

Lemma grows_one ok (s : trainer) (w : W) (b : bool) (c : call) (r : reply Output Scalar Ser) :
  ok c = true ->
  grows ok s {| collab := w; device := device s; epoch := epoch s; training := b;
                grad_enabled := grad_enabled s;
                log := log s ++ [ {| at_epoch := epoch s; grad_on := grad_enabled s;
                                     what := c; came_back := r |} ] |}.
Proof.
  intros Hc. repeat split. eexists. split; [reflexivity |].
  repeat constructor. exact Hc.
Qed.

Lemma keeps_invoke ok {A : Type} c (wrap : A -> reply Output Scalar Ser) (f : method W A) :
  ok c = true -> keeps ok (invoke c wrap f).
Proof.
  intros Hc s. unfold invoke. destruct (f (collab s)) as [w r]. cbn.
  now apply grows_one.
Qed.

Lemma keeps_model_train ok mode : ok (ModelTrain mode) = true -> keeps ok (model_train mode).
Proof. intros Hc s. unfold model_train. cbn. now apply grows_one. Qed.

Lemma keeps_no_grad_invoke ok {A : Type} c (wrap : A -> reply Output Scalar Ser)
    (f : method W A) :
  ok c = true -> keeps ok (no_grad (invoke c wrap f)).
Proof.
  intros Hc s. unfold no_grad, invoke. cbn. destruct (f (collab s)) as [w r]. cbn.
  repeat split. eexists. split; [reflexivity |].
  repeat constructor. exact Hc.
Qed.

Lemma keeps_for_each ok {A : Type} (l : list A) (body : A -> M unit) :
  (forall x, keeps ok (body x)) -> keeps ok (for_each l body).
Proof.
  intros Hb. induction l as [| x l IH]; cbn.
  - apply keeps_ret.
  - apply keeps_bind; [apply Hb | intros _; exact IH].
Qed.

Lemma keeps_weaken (ok ok' : call -> bool) {A : Type} (m : M A) :
  (forall c, ok c = true -> ok' c = true) -> keeps ok m -> keeps ok' m.
Proof. intros Hsub Hm s. eapply grows_weaken; [exact Hsub | apply Hm]. Qed.

(** *** Counting over a grown log *)

Lemma since_app (s s' : trainer) d : log s' = log s ++ d -> since s s' = d.
Proof. intros E. unfold since. rewrite E. apply drop_app_length. Qed.

Lemma epochs_of_app (p : call -> bool) (l1 l2 : list entry) :
  epochs_of p (l1 ++ l2) = epochs_of p l1 ++ epochs_of p l2.
Proof. unfold epochs_of. now rewrite List.filter_app, map_app. Qed.

Lemma count_calls_app (p : call -> bool) (l1 l2 : list entry) :
  count_calls p (l1 ++ l2) = (count_calls p l1 + count_calls p l2)%nat.
Proof. unfold count_calls. now rewrite List.filter_app, length_app. Qed.

Lemma count_calls_epochs_of (p : call -> bool) (l : list entry) :
  count_calls p l = length (epochs_of p l).
Proof. unfold count_calls, epochs_of. now rewrite length_map. Qed.

Lemma epochs_of_none (ok p : call -> bool) (e : Z) (d : list entry) :
  (forall c, ok c = true -> p c = false) ->
  Forall (fun en => at_epoch en = e /\ ok (what en) = true) d ->
  epochs_of p d = [].
Proof.
  intros Hno F. induction F as [| en d [_ Hen] _ IH]; [reflexivity |].
  unfold epochs_of in *. cbn. rewrite (Hno _ Hen). exact IH.
Qed.
Lemma count_calls_none (ok p : call -> bool) (d : list entry) :
  (forall c, ok c = true -> p c = false) ->
  Forall (fun en => ok (what en) = true) d -> count_calls p d = 0%nat.
Proof.
  intros Hno F. unfold count_calls.
  induction F as [| en d Hen _ IH]; cbn; [reflexivity |].
  rewrite (Hno _ Hen). exact IH.
Qed.
End MonadFacts.

(** ** The phases of an epoch *)

Section PhaseFacts.
Context {W Device Batch Output Scalar Ser : Type}.
Context `{!Model W Device Ser, !Optimizer W Ser, !ValueStore W Ser,
          !TrainEvaluator W Output Scalar Ser, !Evaluator W Scalar Ser,
          !Callback W Output Scalar Ser, !UpdateStrategy W Batch Output}.

Local Abbreviation trainer := (trainer W Device Batch Output Scalar Ser).
Local Abbreviation M := (M W Device Batch Output Scalar Ser).
Local Abbreviation entry := (entry Device Batch Output Scalar Ser).
Local Abbreviation call := (call Device Batch Output Scalar Ser).
Local Abbreviation keeps :=
  (keeps (W := W) (Device := Device) (Batch := Batch) (Output := Output)
         (Scalar := Scalar) (Ser := Ser)).
Implicit Types (ok : call -> bool) (s : trainer).

Lemma keeps_notify ok c (hook : Z -> method W unit) :
  ok c = true -> keeps ok (notify c hook).
Proof.
  intros Hc. unfold notify. apply keeps_bind; [apply keeps_gets |].
  intros e. now apply keeps_invoke.
Qed.

Ltac keeps_step :=
  first
    [ apply keeps_ret | apply keeps_raise | apply keeps_lift | apply keeps_gets
    | apply keeps_notify; reflexivity
    | apply keeps_no_grad_invoke; reflexivity
    | apply keeps_invoke; reflexivity
    | apply keeps_model_train; reflexivity
    | apply keeps_bind; [| intros ?] ].

Lemma keeps_train_batch item : keeps train_call (train_batch item).
Proof. destruct item as [batch_num batch]. unfold train_batch. repeat keeps_step. Qed.

Lemma keeps_train data_loader : keeps train_call (__train data_loader).
Proof.
  unfold __train. repeat keeps_step.
  apply keeps_for_each. apply keeps_train_batch.
Qed.

Lemma keeps_validate : keeps validate_call __validate.
Proof. unfold __validate. repeat keeps_step. Qed.

Lemma keeps_validation_due ok validate_every : keeps ok (validation_due validate_every).
Proof. unfold validation_due. repeat keeps_step. Qed.

(** A phase that came back normally: the exact calls. *)

Lemma train_batch_Return item s s' :
  train_batch item s = (s', Return tt) ->
  exists r, log s' = log s ++ batch_calls (epoch s) (grad_enabled s) item r /\
            epoch s' = epoch s /\ grad_enabled s' = grad_enabled s /\
            training s' = training s.
Proof.
  destruct item as [batch_num batch].
  unfold train_batch, notify, bind, gets, invoke, no_grad, set_grad_enabled. cbn.
  destruct (on_train_batch_start _ _ _) as [w1 [[]|e1]]; [| discriminate].
  destruct (batch_update _ _ _ _) as [w2 [o|e2]]; [| discriminate]. cbn.
  destruct (train_evaluate_batch _ _) as [w3 [m|e3]]; [| discriminate]. cbn.
  destruct (on_train_batch_end _ _ _ _ _) as [w4 [[]|e4]]; [| discriminate].
  intros E. inversion E; subst; clear E. cbn.
  exists (o, m). repeat split.
  unfold batch_calls. cbn. now repeat rewrite <- List.app_assoc.
Qed.

Lemma train_batches_Return (items : list (Z * Batch)) s s' :
  for_each items train_batch s = (s', Return tt) ->
  exists results,
    length results = length items /\
    log s' = log s ++ concat (zip_with (batch_calls (epoch s) (grad_enabled s)) items results) /\
    epoch s' = epoch s /\ grad_enabled s' = grad_enabled s /\ training s' = training s.
Proof.
  revert s. induction items as [| item items IH]; intros s; cbn.
  - intros E. inversion E; subst. exists []. cbn. now rewrite app_nil_r.
  - intros E. apply bind_Return_inv in E as (s1 & [] & E1 & E2).
    apply train_batch_Return in E1 as (r & L1 & Ep1 & G1 & T1).
    apply IH in E2 as (rs & Len & L2 & Ep2 & G2 & T2).
    exists (r :: rs). cbn. repeat split; try congruence.
    rewrite L2, L1, Ep1, G1. now rewrite <- List.app_assoc.
Qed.

Lemma enumerate_from_length {A : Type} (start : Z) (l : list A) :
  length (enumerate_from start l) = length l.
Proof. revert start. induction l as [| x l IH]; intros start; cbn; [| rewrite IH]; reflexivity. Qed.

Lemma train_Return data_loader s s' :
  __train data_loader s = (s', Return tt) ->
  exists results tracked,
    length results = length data_loader /\
    log s' = log s ++ train_calls (epoch s) (grad_enabled s) data_loader results tracked /\
    epoch s' = epoch s /\ grad_enabled s' = grad_enabled s /\ training s' = true.
Proof.
  unfold __train. intros E.
  apply bind_Return_inv in E as (s1 & [] & E1 & E).
  unfold model_train in E1. inversion E1; subst s1; clear E1.
  unfold notify at 1 in E. unfold bind at 1 2, gets at 1, invoke at 1 in E. cbn in E.
  destruct (on_epoch_train_start _ _ _) as [w1 [[]|e1]]; [| discriminate].
  unfold bind at 1 2, gets at 1, invoke at 1 in E. cbn in E.
  destruct (train_epoch_start _ _) as [w2 [[]|e2]]; [| discriminate].
  apply bind_Return_inv in E as (s3 & [] & E3 & E).
  apply train_batches_Return in E3 as (rs & Len & L3 & Ep3 & G3 & T3). cbn in *.
  unfold notify, bind, gets, invoke in E. cbn in E.
  destruct (train_epoch_end _ _) as [w4 [[]|e4]]; [| discriminate]. cbn in E.
  destruct (train_get_tracked_values _) as [w5 [tracked|e5]]; [| discriminate]. cbn in E.
  destruct (on_epoch_train_end _ _ _) as [w6 [[]|e6]]; [| discriminate].
  inversion E; subst s'; clear E. cbn.
  exists rs, tracked. unfold enumerate in Len. rewrite enumerate_from_length in Len.
  repeat split; trivial.
  rewrite L3, Ep3, G3. unfold train_calls, enumerate. cbn.
  now repeat rewrite <- List.app_assoc.
Qed.

Lemma validate_Return s s' :
  __validate s = (s', Return tt) ->
  exists metric_values,
    log s' = log s ++ validate_calls (epoch s) (grad_enabled s) metric_values /\
    epoch s' = epoch s /\ grad_enabled s' = grad_enabled s /\ training s' = false.
Proof.
  unfold __validate, notify, bind, gets, invoke, no_grad, model_train, set_grad_enabled. cbn.
  destruct (on_epoch_validation_start _ _) as [w1 [[]|e1]]; [| discriminate]. cbn.
  destruct (val_epoch_start _ _) as [w2 [[]|e2]]; [| discriminate]. cbn.
  destruct (val_evaluate _) as [w3 [m|e3]]; [| discriminate]. cbn.
  destruct (val_epoch_end _ _) as [w4 [[]|e4]]; [| discriminate]. cbn.
  destruct (on_epoch_validation_end _ _ _) as [w5 [[]|e5]]; [| discriminate].
  intros E. inversion E; subst; clear E. cbn.
  exists m. repeat split. unfold validate_calls. now repeat rewrite <- List.app_assoc.
Qed.
End PhaseFacts.

(** ** The epoch loop *)

Section LoopFacts.
Context {W Device Batch Output Scalar Ser : Type}.
Context `{!Model W Device Ser, !Optimizer W Ser, !ValueStore W Ser,
          !TrainEvaluator W Output Scalar Ser, !Evaluator W Scalar Ser,
          !Callback W Output Scalar Ser, !UpdateStrategy W Batch Output}.

Local Abbreviation trainer := (trainer W Device Batch Output Scalar Ser).
Local Abbreviation M := (M W Device Batch Output Scalar Ser).
Local Abbreviation entry := (entry Device Batch Output Scalar Ser).
Local Abbreviation call := (call Device Batch Output Scalar Ser).
Local Abbreviation keeps :=
  (keeps (W := W) (Device := Device) (Batch := Batch) (Output := Output)
         (Scalar := Scalar) (Ser := Ser)).
Local Abbreviation advances :=
  (advances (W := W) (Device := Device) (Batch := Batch) (Output := Output)
            (Scalar := Scalar) (Ser := Ser)).
Implicit Types (ok : call -> bool) (s : trainer).

Lemma logs_only_refl ok s : logs_only ok s s.
Proof. exists []. split; [now rewrite app_nil_r | constructor]. Qed.

Lemma logs_only_trans ok s1 s2 s3 :
  logs_only ok s1 s2 -> logs_only ok s2 s3 -> logs_only ok s1 s3.
Proof.
  intros (d1 & L1 & F1) (d2 & L2 & F2). exists (d1 ++ d2). split.
  - rewrite L2, L1. now rewrite <- List.app_assoc.
  - apply Forall_app. now split.
Qed.

Lemma grows_logs_only ok ok' s s' :
  (forall c, ok c = true -> ok' c = true) -> grows ok s s' -> logs_only ok' s s'.
Proof.
  intros Hsub (_ & _ & _ & d & L & F). exists d. split; [exact L |].
  eapply List.Forall_impl; [| exact F]. cbn. intros en [_ ?]. auto.
Qed.

Lemma train_call_try_call (c : call) : train_call c = true -> try_call c = true.
Proof. destruct c; cbn; try reflexivity; try discriminate; intros ->; reflexivity. Qed.

Lemma validate_call_try_call (c : call) : validate_call c = true -> try_call c = true.
Proof.
  destruct c; cbn; try reflexivity; try discriminate; intros ->;
    rewrite ?orb_true_r; reflexivity.
Qed.

Lemma notify_Return (c : call) (hook : Z -> method W unit) s s' :
  notify c hook s = (s', Return tt) ->
  log s' = log s ++ [done (epoch s) (grad_enabled s) c] /\
  epoch s' = epoch s /\ grad_enabled s' = grad_enabled s /\ training s' = training s.
Proof.
  unfold notify, bind, gets, invoke. cbn.
  destruct (hook _ _) as [w [[]|e]]; [| discriminate].
  intros E. inversion E; subst. cbn. repeat split.
Qed.

Lemma validation_due_Return validate_every s s' due :
  validation_due validate_every s = (s', Return due) ->
  s' = s /\ validate_every <> 0 /\ due = ((epoch s + 1) mod validate_every =? 0).
Proof.
  unfold validation_due, bind, gets, lift, ret, py_mod. cbn.
  destruct (Z.eqb_spec validate_every 0) as [-> | Hne]; [discriminate |].
  intros E. inversion E; subst. repeat split. exact Hne.
Qed.

Lemma bind_gets {A B : Type} (f : trainer -> A) (k : A -> M B) s :
  bind (gets f) k s = k (f s) s.
Proof. reflexivity. Qed.

Lemma advances_ret ok {A : Type} (a : A) : advances ok (ret a).
Proof. intros s. cbn. split; [apply logs_only_refl | lia]. Qed.

Lemma advances_bind ok {A B : Type} (m : M A) (k : A -> M B) :
  advances ok m -> (forall a, advances ok (k a)) -> advances ok (bind m k).
Proof.
  intros Hm Hk s. specialize (Hm s). unfold bind.
  destruct (m s) as [s1 [a|e]]; cbn in *; [| exact Hm].
  destruct Hm as [L1 E1], (Hk a s1) as [L2 E2].
  split; [eapply logs_only_trans; eassumption | lia].
Qed.

Lemma advances_keeps (ok ok' : call -> bool) {A : Type} (m : M A) :
  (forall c, ok c = true -> ok' c = true) -> keeps ok m -> advances ok' m.
Proof.
  intros Hsub K s. specialize (K s). split.
  - eapply grows_logs_only; eassumption.
  - destruct K as (_ & -> & _). lia.
Qed.

Lemma advances_for_each ok {A : Type} (l : list A) (body : A -> M unit) :
  (forall x, advances ok (body x)) -> advances ok (for_each l body).
Proof.
  intros Hb. induction l as [| x l IH]; cbn.
  - apply advances_ret.
  - apply advances_bind; [apply Hb | intros _; exact IH].
Qed.

(** The part of an iteration after the counter has moved. *)
Lemma keeps_iteration_rest data_loader validate_every :
  keeps try_call
    (bind (notify OnEpochStart on_epoch_start) (fun _ =>
     bind (__train data_loader) (fun _ =>
     bind (validation_due validate_every) (fun due =>
     bind (if due then __validate else ret tt) (fun _ =>
     notify OnEpochEnd on_epoch_end))))).
Proof.
  apply keeps_bind; [now apply keeps_notify | intros _].
  apply keeps_bind;
    [eapply keeps_weaken; [apply train_call_try_call | apply keeps_train] | intros _].
  apply keeps_bind; [apply keeps_validation_due | intros due].
  apply keeps_bind; [| intros _; now apply keeps_notify].
  destruct due; [| apply keeps_ret].
  eapply keeps_weaken; [apply validate_call_try_call | apply keeps_validate].
Qed.

(** Whatever its outcome, one iteration moves the epoch counter one step. *)
Lemma iteration_epoch data_loader validate_every s :
  epoch (epoch_iteration data_loader validate_every s).1 = epoch s + 1.
Proof.
  unfold epoch_iteration. rewrite bind_gets.
  unfold bind at 1, set_epoch at 1.
  match goal with
  | |- context [bind ?m ?k ?s1] =>
      destruct (keeps_iteration_rest data_loader validate_every s1) as (_ & E & _)
  end.
  exact E.
Qed.

(** Whatever its outcome, one iteration only makes calls of the [try]
    block. *)
Lemma advances_iteration data_loader validate_every :
  advances try_call (epoch_iteration data_loader validate_every).
Proof.
  intros s. split; [| rewrite iteration_epoch; lia].
  unfold epoch_iteration. rewrite bind_gets.
  unfold bind at 1, set_epoch at 1.
  match goal with
  | |- context [bind ?m ?k ?s1] =>
      destruct (keeps_iteration_rest data_loader validate_every s1) as (_ & _ & _ & d & L & F)
  end.
  exists d. split; [exact L |].
  eapply List.Forall_impl; [| exact F]. cbn. now intros en [_ ?].
Qed.

(** Whatever its outcome, the [try] block of [fit] only makes calls of the
    [try] block; the epoch counter does not go back. *)
Lemma advances_fit_try data_loader num_epochs validate_every :
  advances try_call (fit_try data_loader num_epochs validate_every).
Proof.
  intros s. unfold fit_try. rewrite bind_gets.
  apply advances_bind;
    [apply (advances_keeps try_call); [auto | now apply keeps_invoke] | intros _].
  apply advances_bind;
    [apply (advances_keeps try_call); [auto | now apply keeps_notify] | intros _].
  apply advances_for_each. intros _. apply advances_iteration.
Qed.

(** *** Iterations that came back normally *)

Lemma epochs_of_done (p : call -> bool) (e : Z) (g : bool) (c : call) :
  epochs_of p [done e g c] = if p c then [e] else [].
Proof. unfold epochs_of. cbn. now destruct (p c). Qed.

Lemma epochs_of_train (p : call -> bool) data_loader s :
  (forall c, train_call c = true -> p c = false) ->
  epochs_of p (since s (__train data_loader s).1) = [].
Proof.
  intros Hp. destruct (keeps_train data_loader s) as (_ & _ & _ & d & L & F).
  rewrite (since_app _ _ _ L). eapply epochs_of_none; eassumption.
Qed.

Lemma iteration_Return data_loader validate_every s s' :
  epoch_iteration data_loader validate_every s = (s', Return tt) ->
  validate_every <> 0 /\ epoch s' = epoch s + 1 /\
  exists d,
    log s' = log s ++ d /\
    epochs_of is_on_epoch_start d = [epoch s + 1] /\
    epochs_of is_on_epoch_end d = [epoch s + 1] /\
    epochs_of is_validation_start d =
      (if (epoch s + 1 + 1) mod validate_every =? 0 then [epoch s + 1] else []).
Proof.
  intros E. pose proof (iteration_epoch data_loader validate_every s) as Ep.
  rewrite E in Ep. cbn in Ep.
  unfold epoch_iteration in E. rewrite bind_gets in E.
  unfold bind at 1, set_epoch at 1 in E.
  apply bind_Return_inv in E as (s1 & [] & E1 & E).
  apply notify_Return in E1 as (L1 & Ep1 & _). cbn in L1, Ep1.
  apply bind_Return_inv in E as (s2 & [] & E2 & E).
  pose proof (epochs_of_train is_on_epoch_start data_loader s1) as T1.
  pose proof (epochs_of_train is_on_epoch_end data_loader s1) as T2.
  pose proof (epochs_of_train is_validation_start data_loader s1) as T3.
  destruct (keeps_train data_loader s1) as (_ & Ep2 & _ & d2 & L2 & _).
  rewrite (since_app _ _ _ L2) in T1, T2, T3.
  rewrite E2 in *. cbn in Ep2, L2.
  apply bind_Return_inv in E as (s3 & due & E3 & E).
  apply validation_due_Return in E3 as (-> & Hne & ->).
  apply bind_Return_inv in E as (s4 & [] & E4 & E).
  apply notify_Return in E as (L5 & _).
  repeat split; [exact Hne | exact Ep |].
  rewrite Ep2, Ep1 in E4.
  destruct ((epoch s + 1 + 1) mod validate_every =? 0).
  - apply validate_Return in E4 as (m & L4 & Ep4 & G4 & _).
    eexists. split.
    { rewrite L5, L4, L2, L1. repeat rewrite <- List.app_assoc. reflexivity. }
    rewrite Ep4, Ep2, Ep1.
    repeat rewrite epochs_of_app. rewrite T1, T2, T3 by (now intros []).
    repeat rewrite epochs_of_done. cbn. repeat split.
  - inversion E4; subst s4; clear E4.
    eexists. split.
    { rewrite L5, L2, L1. repeat rewrite <- List.app_assoc. reflexivity. }
    rewrite Ep2, Ep1.
    repeat rewrite epochs_of_app. rewrite T1, T2, T3 by (now intros []).
    repeat rewrite epochs_of_done. cbn. repeat split.
Qed.

Lemma loop_Return data_loader validate_every (l : list Z) s s' :
  for_each l (fun _ => epoch_iteration data_loader validate_every) s = (s', Return tt) ->
  epoch s' = epoch s + Z.of_nat (length l) /\
  exists d,
    log s' = log s ++ d /\
    epochs_of is_on_epoch_start d = epochs_from (epoch s + 1) (length l) /\
    epochs_of is_on_epoch_end d = epochs_from (epoch s + 1) (length l) /\
    epochs_of is_validation_start d =
      List.filter (fun e => (e + 1) mod validate_every =? 0)
                  (epochs_from (epoch s + 1) (length l)).
Proof.
  revert s. induction l as [| i l IH]; intros s E.
  - cbn in E. inversion E; subst s'. split; [cbn; lia |].
    exists []. rewrite app_nil_r. repeat split.
  - cbn [for_each] in E. apply bind_Return_inv in E as (s1 & [] & E1 & E).
    apply iteration_Return in E1 as (Hne & Ep1 & d1 & L1 & A1 & B1 & C1).
    apply IH in E as (Ep2 & d2 & L2 & A2 & B2 & C2).
    split; [cbn [length]; lia |].
    exists (d1 ++ d2). split; [rewrite L2, L1; now rewrite <- List.app_assoc |].
    repeat rewrite epochs_of_app. rewrite A1, A2, B1, B2, C1, C2, Ep1.
    cbn [length epochs_from List.filter app]. repeat split.
    now destruct ((epoch s + 1 + 1) mod validate_every =? 0).
Qed.

Lemma epochs_from_length (start : Z) (n : nat) : length (epochs_from start n) = n.
Proof.
  revert start. induction n as [| n IH]; intros start; cbn [epochs_from length];
    [reflexivity | now rewrite IH].
Qed.

Lemma range_length (n : Z) : length (range n) = Z.to_nat n.
Proof. unfold range. now rewrite length_map, length_seq. Qed.

Lemma fit_try_Return data_loader num_epochs validate_every s s' :
  fit_try data_loader num_epochs validate_every s = (s', Return tt) ->
  epoch s' = epoch s + Z.of_nat (Z.to_nat num_epochs) /\
  exists d,
    log s' = log s ++ d /\
    epochs_of is_on_epoch_start d = epochs_from (epoch s + 1) (Z.to_nat num_epochs) /\
    epochs_of is_on_epoch_end d = epochs_from (epoch s + 1) (Z.to_nat num_epochs) /\
    epochs_of is_validation_start d =
      List.filter (fun e => (e + 1) mod validate_every =? 0)
                  (epochs_from (epoch s + 1) (Z.to_nat num_epochs)).
Proof.
  unfold fit_try. rewrite bind_gets. intros E.
  apply bind_Return_inv in E as (s1 & [] & E1 & E).
  unfold invoke in E1. destruct (model_to _ _) as [w1 r1].
  inversion E1; subst s1 r1; clear E1.
  apply bind_Return_inv in E as (s2 & [] & E2 & E).
  apply notify_Return in E2 as (L2 & Ep2 & _). cbn in L2, Ep2.
  apply loop_Return in E as (Ep3 & d & L3 & A & B & C).
  rewrite range_length in *. rewrite Ep2 in *.
  split; [exact Ep3 |].
  eexists. split.
  { rewrite L3, L2. repeat rewrite <- List.app_assoc. reflexivity. }
  repeat rewrite epochs_of_app. rewrite A, B, C. repeat split.
Qed.
End LoopFacts.

(** ** Trainer.fit *)

Section FitFacts.
Context {W Device Batch Output Scalar Ser : Type}.
Context `{!Model W Device Ser, !Optimizer W Ser, !ValueStore W Ser,
          !TrainEvaluator W Output Scalar Ser, !Evaluator W Scalar Ser,
          !Callback W Output Scalar Ser, !UpdateStrategy W Batch Output}.

Local Abbreviation trainer := (trainer W Device Batch Output Scalar Ser).
Local Abbreviation M := (M W Device Batch Output Scalar Ser).
Local Abbreviation entry := (entry Device Batch Output Scalar Ser).
Local Abbreviation call := (call Device Batch Output Scalar Ser).
Implicit Types (s : trainer) (data_loader : list Batch).

Lemma fit_output_filled (tv vv : gmap string (TrackedValue Scalar)) :
  update_val_tracked_values vv (update_train_tracked_values tv new_FitOutput) =
  {| exception := None; train_tracked_values := tv; val_tracked_values := vv |}.
Proof.
  unfold update_val_tracked_values, update_train_tracked_values. cbn.
  now rewrite !(right_id_L ∅ (∪)).
Qed.

Lemma fit_output_stopped (e : exn) (tv vv : gmap string (TrackedValue Scalar)) :
  update_val_tracked_values vv
    (update_train_tracked_values tv (set_exception e new_FitOutput)) =
  {| exception := Some e; train_tracked_values := tv; val_tracked_values := vv |}.
Proof.
  unfold update_val_tracked_values, update_train_tracked_values. cbn.
  now rewrite !(right_id_L ∅ (∪)).
Qed.

(** What [fit] does once its [try] block has come back normally. *)
Lemma fit_after_Return data_loader num_epochs validate_every s s1 :
  fit_try data_loader num_epochs validate_every s = (s1, Return tt) ->
  forall s' r,
    fit data_loader num_epochs validate_every s = (s', r) ->
    epoch s' = epoch s1 /\ logs_only (fun c => negb (is_on_exception c)) s1 s' /\
    forall output, r = Return output ->
      exception output = None /\
      log s' = log s1 ++ finishing_calls (epoch s1) (grad_enabled s1) (training s)
                           (epoch s1 - epoch s) output.
Proof.
  intros Htry s' r. unfold fit. rewrite !bind_gets.
  unfold bind at 1, try_finally, try_except, bind at 1. rewrite Htry.
  unfold model_train, ret. cbn.
  unfold notify, bind, gets, invoke. cbn.
  destruct (train_get_tracked_values _) as [w2 [tv|e2]]; cbn.
  2:{ intros E. inversion E; subst. cbn. split; [reflexivity |]. split.
      - eexists. rewrite <- List.app_assoc. split; [reflexivity |].
        now repeat constructor.
      - discriminate. }
  destruct (val_get_tracked_values _) as [w3 [vv|e3]]; cbn.
  2:{ intros E. inversion E; subst. cbn. split; [reflexivity |]. split.
      - eexists. rewrite <- !List.app_assoc. split; [reflexivity |].
        now repeat constructor.
      - discriminate. }
  rewrite fit_output_filled.
  destruct (on_fit_end _ _ _ _) as [w4 [[]|e4]]; cbn;
    intros E; inversion E; subst; cbn; (split; [reflexivity |]); split;
    try (eexists; rewrite <- !List.app_assoc; split; [reflexivity |];
         now repeat constructor);
    try discriminate.
  intros output [= <-]. cbn. split; [reflexivity |].
  unfold finishing_calls, done. cbn. now rewrite <- !List.app_assoc.
Qed.

(** What [fit] does once its [try] block has raised the stop signal. *)
Lemma fit_after_stop data_loader num_epochs validate_every s s1 msg :
  fit_try data_loader num_epochs validate_every s = (s1, Raise (StopFitIteration msg)) ->
  fit data_loader num_epochs validate_every s =
    match on_exception (epoch s1) (StopFitIteration msg) (collab s1) with
    | (w2, Raise e2) =>
        ({| collab := w2; device := device s1; epoch := epoch s1;
            training := training s; grad_enabled := grad_enabled s1;
            log := log s1 ++
                   [ {| at_epoch := epoch s1; grad_on := grad_enabled s1;
                        what := OnException (StopFitIteration msg);
                        came_back := Raised e2 |};
                     done (epoch s1) (grad_enabled s1) (ModelTrain (training s)) ] |},
         Raise e2)
    | (w2, Return _) =>
        bind (invoke TrainGetTrackedValues GaveTracked train_get_tracked_values)
          (fun tv =>
           bind (invoke ValGetTrackedValues GaveTracked val_get_tracked_values)
             (fun vv =>
              let output := {| exception := Some (StopFitIteration msg);
                               train_tracked_values := tv;
                               val_tracked_values := vv |} in
              bind (notify (OnFitEnd (epoch s1 - epoch s) output)
                      (fun ep => on_fit_end ep (epoch s1 - epoch s) output))
                (fun _ => ret output)))
          {| collab := w2; device := device s1; epoch := epoch s1;
             training := training s; grad_enabled := grad_enabled s1;
             log := log s1 ++
                    [ done (epoch s1) (grad_enabled s1)
                        (OnException (StopFitIteration msg));
                      done (epoch s1) (grad_enabled s1) (ModelTrain (training s)) ] |}
    end.
Proof.
  intros Htry. unfold fit. rewrite !bind_gets.
  unfold bind at 1, try_finally, try_except, bind at 1. rewrite Htry.
  unfold fit_except, model_train, ret.
  unfold notify at 1, bind at 1 2, gets at 1, invoke at 1. cbn.
  destruct (on_exception _ _ _) as [w2 [[]|e2]]; cbn.
  - rewrite <- List.app_assoc. cbn.
    unfold bind, invoke, notify, gets. cbn.
    destruct (train_get_tracked_values _) as [w3 [tv|e3]]; cbn; [| reflexivity].
    destruct (val_get_tracked_values _) as [w4 [vv|e4]]; cbn; [| reflexivity].
    now rewrite fit_output_stopped.
  - now rewrite <- List.app_assoc.
Qed.

(** What [fit] does once its [try] block has raised another [Exception]. *)
Lemma fit_after_Exception data_loader num_epochs validate_every s s1 name :
  fit_try data_loader num_epochs validate_every s = (s1, Raise (Exception name)) ->
  fit data_loader num_epochs validate_every s =
    let '(w2, r2) := on_exception (epoch s1) (Exception name) (collab s1) in
    ({| collab := w2; device := device s1; epoch := epoch s1;
        training := training s; grad_enabled := grad_enabled s1;
        log := log s1 ++
               [ {| at_epoch := epoch s1; grad_on := grad_enabled s1;
                    what := OnException (Exception name);
                    came_back := to_reply (fun _ => Done) r2 |};
                 done (epoch s1) (grad_enabled s1) (ModelTrain (training s)) ] |},
     Raise (match r2 with Return _ => Exception name | Raise e2 => e2 end)).
Proof.
  intros Htry. unfold fit. rewrite !bind_gets.
  unfold bind at 1, try_finally, try_except, bind at 1. rewrite Htry.
  unfold fit_except, model_train, ret, raise.
  unfold notify at 1, bind at 1 2, gets at 1, invoke at 1. cbn.
  destruct (on_exception _ _ _) as [w2 [[]|e2]]; cbn; now rewrite <- List.app_assoc.
Qed.

(** What [fit] does once its [try] block has raised something that is not
    an [Exception]. *)
Lemma fit_after_BaseException data_loader num_epochs validate_every s s1 name :
  fit_try data_loader num_epochs validate_every s = (s1, Raise (BaseException name)) ->
  fit data_loader num_epochs validate_every s =
    ({| collab := collab s1; device := device s1; epoch := epoch s1;
        training := training s; grad_enabled := grad_enabled s1;
        log := log s1 ++ [ done (epoch s1) (grad_enabled s1) (ModelTrain (training s)) ] |},
     Raise (BaseException name)).
Proof.
  intros Htry. unfold fit. rewrite !bind_gets.
  unfold bind at 1, try_finally, try_except, bind at 1. rewrite Htry.
  reflexivity.
Qed.

(** A [fit] that returned an output without a stop signal ran its [try]
    block to the end. *)
Lemma fit_Return_None data_loader num_epochs validate_every s s' output :
  fit data_loader num_epochs validate_every s = (s', Return output) ->
  exception output = None ->
  exists s1, fit_try data_loader num_epochs validate_every s = (s1, Return tt).
Proof.
  intros E Hnone.
  destruct (fit_try data_loader num_epochs validate_every s)
    as [s1 [[]|[msg|name|name]]] eqn:Htry.
  - now exists s1.
  - exfalso. rewrite (fit_after_stop _ _ _ _ _ _ Htry) in E.
    destruct (on_exception _ _ _) as [w2 [[]|e2]]; [| discriminate].
    unfold bind, invoke, notify, gets, ret in E. cbn in E.
    destruct (train_get_tracked_values _) as [w3 [tv|e3]]; [| discriminate].
    destruct (val_get_tracked_values _) as [w4 [vv|e4]]; [| discriminate]. cbn in E.
    unfold invoke in E. cbn in E.
    destruct (on_fit_end _ _ _ _) as [w5 [[]|e5]]; [| discriminate].
    inversion E; subst. discriminate.
  - exfalso. rewrite (fit_after_Exception _ _ _ _ _ _ Htry) in E.
    destruct (on_exception _ _ _) as [w2 r2]. discriminate.
  - exfalso. rewrite (fit_after_BaseException _ _ _ _ _ _ Htry) in E. discriminate.
Qed.

End FitFacts.

(** ** Checkpoints *)

Section CheckpointFacts.
Context {W Device Batch Output Scalar Ser : Type}.
Context `{!Model W Device Ser, !Optimizer W Ser, !ValueStore W Ser,
          !TrainEvaluator W Output Scalar Ser, !Evaluator W Scalar Ser,
          !Callback W Output Scalar Ser, !UpdateStrategy W Batch Output}.

Local Abbreviation trainer := (trainer W Device Batch Output Scalar Ser).
Local Abbreviation M := (M W Device Batch Output Scalar Ser).
Local Abbreviation entry := (entry Device Batch Output Scalar Ser).
Local Abbreviation call := (call Device Batch Output Scalar Ser).
Implicit Types (s : trainer) (d : checkpoint_dict Ser).

(** [state_dict] that came back: each collaborator's own [state_dict] ran,
    in the order of the dictionary, on the heap the one before it left. *)
Lemma state_dict_Return s s' d :
  state_dict s = (s', Return d) ->
  exists w1 w2 w3 w4 w5 model optimizer value_store train_evaluator val_evaluator callback,
    model_state_dict (collab s) = (w1, Return model) /\
    optimizer_state_dict w1 = (w2, Return optimizer) /\
    value_store_state_dict w2 = (w3, Return value_store) /\
    train_evaluator_state_dict w3 = (w4, Return train_evaluator) /\
    val_evaluator_state_dict w4 = (w5, Return val_evaluator) /\
    callback_state_dict w5 = (collab s', Return callback) /\
    d = checkpoint model optimizer value_store train_evaluator val_evaluator callback
          (epoch s) /\
    epoch s' = epoch s /\ training s' = training s /\
    log s' = log s ++
             [ saved (epoch s) (grad_enabled s) the_model model;
               saved (epoch s) (grad_enabled s) the_optimizer optimizer;
               saved (epoch s) (grad_enabled s) the_value_store value_store;
               saved (epoch s) (grad_enabled s) the_train_evaluator train_evaluator;
               saved (epoch s) (grad_enabled s) the_val_evaluator val_evaluator;
               saved (epoch s) (grad_enabled s) the_callback callback ].
Proof.
  unfold state_dict, bind, invoke, gets, ret. cbn.
  destruct (model_state_dict _) as [w1 [a1|?]]; [| discriminate]. cbn.
  destruct (optimizer_state_dict _) as [w2 [a2|?]] eqn:E2; [| discriminate]. cbn.
  destruct (value_store_state_dict _) as [w3 [a3|?]] eqn:E3; [| discriminate]. cbn.
  destruct (train_evaluator_state_dict _) as [w4 [a4|?]] eqn:E4; [| discriminate]. cbn.
  destruct (val_evaluator_state_dict _) as [w5 [a5|?]] eqn:E5; [| discriminate]. cbn.
  destruct (callback_state_dict _) as [w6 [a6|?]] eqn:E6; [| discriminate]. cbn.
  intros E. inversion E; subst; clear E. cbn.
  exists w1, w2, w3, w4, w5, a1, a2, a3, a4, a5, a6. repeat split; trivial.
  unfold saved. now rewrite <- !List.app_assoc.
Qed.

Lemma checkpoint_keys_dom (model optimizer value_store train_evaluator val_evaluator
    callback : Ser) (e : Z) :
  keys (checkpoint model optimizer value_store train_evaluator val_evaluator callback e)
  = ({[ "model"; "optimizer"; "value_store"; "train_evaluator"; "val_evaluator";
        "callback"; "epoch" ]} : gset string).
Proof. unfold keys, checkpoint. cbn. rewrite !dom_insert_L, dom_empty_L. set_solver. Qed.

Lemma log_app_nil s : log s = log s ++ [].
Proof. now rewrite app_nil_r. Qed.

Ltac load_failed :=
  intros E; inversion E; subst; clear E; cbn;
  eexists; split;
  [ first [ apply log_app_nil | rewrite <- ?List.app_assoc; reflexivity ] | ];
  split; [ repeat constructor | ];
  split; [ discriminate | intros ? ?; reflexivity ].

(** [load_state_dict]: every collaborator is restored before the epoch
    counter changes; when all went well each collaborator's own
    [load_state_dict] ran on the value under its key, on the heap the one
    before it left, and the counter is the one under ["epoch"]; when
    anything was raised the counter has not changed. *)
Lemma load_state_dict_spec d s s' r :
  load_state_dict d s = (s', r) ->
  exists calls,
    log s' = log s ++ calls /\
    Forall (fun en => at_epoch en = epoch s) calls /\
    (r = Return tt ->
     exists model optimizer value_store train_evaluator val_evaluator callback z
            w1 w2 w3 w4 w5,
       states d !! "model" = Some model /\ states d !! "optimizer" = Some optimizer /\
       states d !! "value_store" = Some value_store /\
       states d !! "train_evaluator" = Some train_evaluator /\
       states d !! "val_evaluator" = Some val_evaluator /\
       states d !! "callback" = Some callback /\
       epoch_item d = Some z /\
       model_load_state_dict model (collab s) = (w1, Return tt) /\
       optimizer_load_state_dict optimizer w1 = (w2, Return tt) /\
       value_store_load_state_dict value_store w2 = (w3, Return tt) /\
       train_evaluator_load_state_dict train_evaluator w3 = (w4, Return tt) /\
       val_evaluator_load_state_dict val_evaluator w4 = (w5, Return tt) /\
       callback_load_state_dict callback w5 = (collab s', Return tt) /\
       epoch s' = z /\
       calls = [ loaded (epoch s) (grad_enabled s) the_model model Done;
                 loaded (epoch s) (grad_enabled s) the_optimizer optimizer Done;
                 loaded (epoch s) (grad_enabled s) the_value_store value_store Done;
                 loaded (epoch s) (grad_enabled s) the_train_evaluator train_evaluator Done;
                 loaded (epoch s) (grad_enabled s) the_val_evaluator val_evaluator Done;
                 loaded (epoch s) (grad_enabled s) the_callback callback Done ]) /\
    (forall e, r = Raise e -> epoch s' = epoch s).
Proof.
  unfold load_state_dict, restore, getitem, getitem_epoch, bind, invoke, ret, raise,
    set_epoch.
  destruct (states d !! "model") as [v1|]; cbn; [| load_failed].
  destruct (model_load_state_dict v1 _) as [w1 [[]|e1]] eqn:E1; cbn; [| load_failed].
  destruct (states d !! "optimizer") as [v2|]; cbn; [| load_failed].
  destruct (optimizer_load_state_dict v2 _) as [w2 [[]|e2]] eqn:E2; cbn; [| load_failed].
  destruct (states d !! "value_store") as [v3|]; cbn; [| load_failed].
  destruct (value_store_load_state_dict v3 _) as [w3 [[]|e3]] eqn:E3; cbn; [| load_failed].
  destruct (states d !! "train_evaluator") as [v4|]; cbn; [| load_failed].
  destruct (train_evaluator_load_state_dict v4 _) as [w4 [[]|e4]] eqn:E4; cbn;
    [| load_failed].
  destruct (states d !! "val_evaluator") as [v5|]; cbn; [| load_failed].
  destruct (val_evaluator_load_state_dict v5 _) as [w5 [[]|e5]] eqn:E5; cbn;
    [| load_failed].
  destruct (states d !! "callback") as [v6|]; cbn; [| load_failed].
  destruct (callback_load_state_dict v6 _) as [w6 [[]|e6]] eqn:E6; cbn; [| load_failed].
  destruct (epoch_item d) as [z|]; cbn; [| load_failed].
  intros E. inversion E; subst; clear E. cbn.
  eexists. split; [rewrite <- !List.app_assoc; reflexivity |].
  split; [repeat constructor |].
  split; [| discriminate].
  intros _. exists v1, v2, v3, v4, v5, v6, z, w1, w2, w3, w4, w5. repeat split; trivial.
Qed.
End CheckpointFacts.

(** ** Runs do not depend on the log *)

Section LogBlind.
Context {W Device Batch Output Scalar Ser : Type}.
Context `{!Model W Device Ser, !Optimizer W Ser, !ValueStore W Ser,
          !TrainEvaluator W Output Scalar Ser, !Evaluator W Scalar Ser,
          !Callback W Output Scalar Ser, !UpdateStrategy W Batch Output}.

Local Abbreviation trainer := (trainer W Device Batch Output Scalar Ser).
Local Abbreviation M := (M W Device Batch Output Scalar Ser).
Local Abbreviation entry := (entry Device Batch Output Scalar Ser).
Local Abbreviation call := (call Device Batch Output Scalar Ser).
Local Abbreviation log_blind :=
  (log_blind (W := W) (Device := Device) (Batch := Batch) (Output := Output)
             (Scalar := Scalar) (Ser := Ser)).
Implicit Types (s : trainer) (l : list entry).

Lemma relog_id s : relog (log s) s = s.
Proof. now destruct s. Qed.

Lemma log_blind_run {A : Type} (m : M A) s :
  log_blind m ->
  m s = (relog (log s ++ log (m (relog [] s)).1) (m (relog [] s)).1, (m (relog [] s)).2).
Proof. intros Hm. rewrite <- (Hm s (log s)). now rewrite relog_id. Qed.

Lemma log_blind_ret {A : Type} (a : A) : log_blind (ret a).
Proof. intros s l. cbn. unfold ret, relog. cbn. now rewrite app_nil_r. Qed.

Lemma log_blind_raise {A : Type} (e : exn) : log_blind (raise (A := A) e).
Proof. intros s l. cbn. unfold raise, relog. cbn. now rewrite app_nil_r. Qed.

Lemma log_blind_lift {A : Type} (r : outcome A) : log_blind (lift r).
Proof. intros s l. cbn. unfold lift, relog. cbn. now rewrite app_nil_r. Qed.

Lemma log_blind_gets {A : Type} (f : trainer -> A) :
  (forall s l, f (relog l s) = f s) -> log_blind (gets f).
Proof.
  intros Hf s l. unfold gets. cbn. rewrite !Hf. unfold relog. cbn.
  now rewrite app_nil_r.
Qed.

Lemma log_blind_set_epoch (e : Z) : log_blind (set_epoch e).
Proof. intros s l. unfold set_epoch, relog. cbn. now rewrite app_nil_r. Qed.

Lemma log_blind_model_train (mode : bool) : log_blind (model_train mode).
Proof. intros s l. reflexivity. Qed.

Lemma log_blind_invoke {A : Type} c (wrap : A -> reply Output Scalar Ser) (f : method W A) :
  log_blind (invoke c wrap f).
Proof. intros s l. unfold invoke. cbn. now destruct (f (collab s)). Qed.

Lemma log_blind_bind {A B : Type} (m : M A) (k : A -> M B) :
  log_blind m -> (forall a, log_blind (k a)) -> log_blind (bind m k).
Proof.
  intros Hm Hk s l. unfold bind. rewrite (Hm s l).
  destruct (m (relog [] s)) as [s1 [a|e]]; cbn; [| reflexivity].
  rewrite (Hk a s1 (l ++ log s1)). rewrite (log_blind_run (k a) s1 (Hk a)). cbn.
  now rewrite <- List.app_assoc.
Qed.

Lemma log_blind_no_grad {A : Type} (body : M A) : log_blind body -> log_blind (no_grad body).
Proof.
  intros Hb s l. unfold no_grad, set_grad_enabled. cbn.
  match goal with
  | |- context [body ?x] =>
      match x with
      | context [l] => change x with (relog l (set_grad_enabled false s).1)
      end
  end.
  rewrite (Hb _ l). cbn.
  match goal with
  | |- context [body ?x] => change x with (relog [] (set_grad_enabled false s).1)
  end.
  destruct (body _) as [s2 r]. reflexivity.
Qed.

Lemma log_blind_try_except {A : Type} (body : M A) (handlers : exn -> option (M A)) :
  log_blind body -> (forall e h, handlers e = Some h -> log_blind h) ->
  log_blind (try_except body handlers).
Proof.
  intros Hb Hh s l. unfold try_except. rewrite (Hb s l).
  destruct (body (relog [] s)) as [s1 [a|e]]; cbn; [reflexivity |].
  destruct (handlers e) as [h|] eqn:Eh; [| reflexivity].
  rewrite (Hh e h Eh s1 (l ++ log s1)). rewrite (log_blind_run h s1 (Hh e h Eh)). cbn.
  now rewrite <- List.app_assoc.
Qed.

Lemma log_blind_try_finally {A : Type} (body : M A) (fin : M unit) :
  log_blind body -> log_blind fin -> log_blind (try_finally body fin).
Proof.
  intros Hb Hf s l. unfold try_finally. rewrite (Hb s l).
  destruct (body (relog [] s)) as [s1 r]; cbn.
  rewrite (Hf s1 (l ++ log s1)). rewrite (log_blind_run fin s1 Hf).
  destruct (fin (relog [] s1)) as [s2 [[]|e]]; cbn; now rewrite <- List.app_assoc.
Qed.

Lemma log_blind_for_each {A : Type} (items : list A) (body : A -> M unit) :
  (forall x, log_blind (body x)) -> log_blind (for_each items body).
Proof.
  intros Hb. induction items as [| x items IH]; cbn.
  - apply log_blind_ret.
  - apply log_blind_bind; [apply Hb | intros _; exact IH].
Qed.

Ltac log_blind_step :=
  first
    [ apply log_blind_ret | apply log_blind_raise | apply log_blind_lift
    | apply log_blind_gets; reflexivity
    | apply log_blind_set_epoch | apply log_blind_model_train
    | apply log_blind_invoke
    | apply log_blind_no_grad
    | apply log_blind_bind; [| intros ?] ].

Lemma log_blind_notify c (hook : Z -> method W unit) : log_blind (notify c hook).
Proof. unfold notify. repeat log_blind_step. Qed.

Lemma log_blind_train data_loader : log_blind (__train data_loader).
Proof.
  unfold __train. repeat first [apply log_blind_notify | log_blind_step].
  apply log_blind_for_each. intros [batch_num batch]. unfold train_batch.
  repeat first [apply log_blind_notify | log_blind_step].
Qed.

Lemma log_blind_validate : log_blind __validate.
Proof. unfold __validate. repeat first [apply log_blind_notify | log_blind_step]. Qed.

Lemma log_blind_fit_try data_loader num_epochs validate_every :
  log_blind (fit_try data_loader num_epochs validate_every).
Proof.
  unfold fit_try. repeat first [apply log_blind_notify | log_blind_step].
  apply log_blind_for_each. intros _. unfold epoch_iteration, validation_due.
  repeat first [apply log_blind_notify | apply log_blind_train | log_blind_step].
  match goal with |- _ (if ?due then _ else _) => destruct due end;
    [apply log_blind_validate | apply log_blind_ret].
Qed.

Lemma log_blind_fit data_loader num_epochs validate_every :
  log_blind (fit data_loader num_epochs validate_every).
Proof.
  unfold fit.
  apply log_blind_bind; [apply log_blind_gets; reflexivity | intros mode].
  apply log_blind_bind; [apply log_blind_gets; reflexivity | intros start_epoch].
  apply log_blind_bind.
  - apply log_blind_try_finally; [| apply log_blind_model_train].
    apply log_blind_try_except.
    + apply log_blind_bind; [apply log_blind_fit_try | intros _; apply log_blind_ret].
    + intros e h. unfold fit_except.
      destruct e; intros [= <-];
        repeat first [apply log_blind_notify | log_blind_step].
  - intros output. repeat first [apply log_blind_notify | log_blind_step].
Qed.

(** Two trainers that differ in their logs only are observed to behave the
    same. *)
Lemma observe_log_blind {A : Type} (m : M A) s t :
  log_blind m ->
  collab t = collab s -> device t = device s -> epoch t = epoch s ->
  training t = training s -> grad_enabled t = grad_enabled s ->
  observe t (m t) = observe s (m s).
Proof.
  intros Hm Hc Hd He Ht Hg.
  assert (relog [] t = relog [] s) as Heq by (unfold relog; congruence).
  unfold observe. rewrite (log_blind_run m s Hm), (log_blind_run m t Hm), Heq. cbn.
  unfold since. cbn. now rewrite !drop_app_length.
Qed.
End LogBlind.

(** ** Saving and restoring with symmetric collaborators *)

Section RoundTrip.
Context {W Device Batch Output Scalar Ser : Type}.
Context `{!Model W Device Ser, !Optimizer W Ser, !ValueStore W Ser,
          !TrainEvaluator W Output Scalar Ser, !Evaluator W Scalar Ser,
          !Callback W Output Scalar Ser, !UpdateStrategy W Batch Output}.
Context `{!SymmetricCheckpoints W}.

Local Abbreviation trainer := (trainer W Device Batch Output Scalar Ser).
Implicit Types (s t : trainer).

Lemma state_dict_symmetric s :
  state_dict s =
    (relog (log s ++
            [ saved (epoch s) (grad_enabled s) the_model (captured the_model (collab s));
              saved (epoch s) (grad_enabled s) the_optimizer
                (captured the_optimizer (collab s));
              saved (epoch s) (grad_enabled s) the_value_store
                (captured the_value_store (collab s));
              saved (epoch s) (grad_enabled s) the_train_evaluator
                (captured the_train_evaluator (collab s));
              saved (epoch s) (grad_enabled s) the_val_evaluator
                (captured the_val_evaluator (collab s));
              saved (epoch s) (grad_enabled s) the_callback
                (captured the_callback (collab s)) ]) s,
     Return (capture (collab s) (epoch s))).
Proof.
  pose proof (state_dict_reads the_model) as R1.
  pose proof (state_dict_reads the_optimizer) as R2.
  pose proof (state_dict_reads the_value_store) as R3.
  pose proof (state_dict_reads the_train_evaluator) as R4.
  pose proof (state_dict_reads the_val_evaluator) as R5.
  pose proof (state_dict_reads the_callback) as R6.
  cbn in R1, R2, R3, R4, R5, R6.
  unfold state_dict, bind, invoke, gets, ret. cbn.
  rewrite R1. cbn. rewrite R2. cbn. rewrite R3. cbn. rewrite R4. cbn.
  rewrite R5. cbn. rewrite R6. cbn.
  unfold relog, saved. cbn. now rewrite <- !List.app_assoc.
Qed.

Lemma load_state_dict_symmetric (src : W) (e : Z) t :
  load_state_dict (capture src e) t =
    ({| collab := src; device := device t; epoch := e; training := training t;
        grad_enabled := grad_enabled t;
        log := log t ++
               [ loaded (epoch t) (grad_enabled t) the_model
                   (captured the_model src) Done;
                 loaded (epoch t) (grad_enabled t) the_optimizer
                   (captured the_optimizer src) Done;
                 loaded (epoch t) (grad_enabled t) the_value_store
                   (captured the_value_store src) Done;
                 loaded (epoch t) (grad_enabled t) the_train_evaluator
                   (captured the_train_evaluator src) Done;
                 loaded (epoch t) (grad_enabled t) the_val_evaluator
                   (captured the_val_evaluator src) Done;
                 loaded (epoch t) (grad_enabled t) the_callback
                   (captured the_callback src) Done ] |},
     Return tt).
Proof.
  pose proof (load_state_dict_restores the_model src) as R1.
  pose proof (load_state_dict_restores the_optimizer src) as R2.
  pose proof (load_state_dict_restores the_value_store src) as R3.
  pose proof (load_state_dict_restores the_train_evaluator src) as R4.
  pose proof (load_state_dict_restores the_val_evaluator src) as R5.
  pose proof (load_state_dict_restores the_callback src) as R6.
  cbn in R1, R2, R3, R4, R5, R6.
  unfold load_state_dict, restore, getitem, getitem_epoch, bind, invoke, ret, set_epoch.
  change (states (capture src e) !! "model") with (Some (captured the_model src)).
  change (states (capture src e) !! "optimizer") with (Some (captured the_optimizer src)).
  change (states (capture src e) !! "value_store")
    with (Some (captured the_value_store src)).
  change (states (capture src e) !! "train_evaluator")
    with (Some (captured the_train_evaluator src)).
  change (states (capture src e) !! "val_evaluator")
    with (Some (captured the_val_evaluator src)).
  change (states (capture src e) !! "callback") with (Some (captured the_callback src)).
  change (epoch_item (capture src e)) with (Some e).
  cbn. rewrite R1. cbn. rewrite R2. cbn. rewrite R3. cbn. rewrite R4. cbn.
  rewrite R5. cbn. rewrite R6. cbn.
  rewrite collaborators_make_up_heap.
  unfold loaded. now rewrite <- !List.app_assoc.
Qed.
End RoundTrip.

(** ** Properties of everything a run logs *)

Section Emits.
Context {W Device Batch Output Scalar Ser : Type}.
Local Abbreviation trainer := (trainer W Device Batch Output Scalar Ser).
Local Abbreviation M := (M W Device Batch Output Scalar Ser).
Local Abbreviation entry := (entry Device Batch Output Scalar Ser).
Local Abbreviation call := (call Device Batch Output Scalar Ser).
Local Abbreviation emits :=
  (emits (W := W) (Device := Device) (Batch := Batch) (Output := Output)
         (Scalar := Scalar) (Ser := Ser)).

(** [P] holds of the empty stretch and of the concatenation of two
    stretches that satisfy it. *)
Context (P : list entry -> Prop).
Hypothesis P_nil : P [].
Hypothesis P_app : forall d1 d2, P d1 -> P d2 -> P (d1 ++ d2).

Lemma emits_silent {A : Type} (m : M A) :
  (forall s, log (m s).1 = log s) -> emits P m.
Proof. intros Hm s. exists []. rewrite app_nil_r. auto. Qed.

Lemma emits_bind {A B : Type} (m : M A) (k : A -> M B) :
  emits P m -> (forall a, emits P (k a)) -> emits P (bind m k).
Proof.
  intros Hm Hk s. destruct (Hm s) as (d1 & L1 & P1). unfold bind.
  destruct (m s) as [s1 [a|e]]; cbn in *; [| eauto].
  destruct (Hk a s1) as (d2 & L2 & P2).
  exists (d1 ++ d2). split; [| auto].
  rewrite L2, L1. now rewrite <- List.app_assoc.
Qed.

Lemma emits_for_each {A : Type} (items : list A) (body : A -> M unit) :
  (forall x, emits P (body x)) -> emits P (for_each items body).
Proof.
  intros Hb. induction items as [| x items IH]; cbn.
  - now apply emits_silent.
  - apply emits_bind; [apply Hb | intros _; exact IH].
Qed.

Lemma emits_try_except {A : Type} (body : M A) (handlers : exn -> option (M A)) :
  emits P body -> (forall e h, handlers e = Some h -> emits P h) ->
  emits P (try_except body handlers).
Proof.
  intros Hb Hh s. destruct (Hb s) as (d1 & L1 & P1). unfold try_except.
  destruct (body s) as [s1 [a|e]]; cbn in *; [eauto |].
  destruct (handlers e) as [h|] eqn:Eh; [| eauto].
  destruct (Hh e h Eh s1) as (d2 & L2 & P2).
  exists (d1 ++ d2). split; [| auto].
  rewrite L2, L1. now rewrite <- List.app_assoc.
Qed.

Lemma emits_try_finally {A : Type} (body : M A) (fin : M unit) :
  emits P body -> emits P fin -> emits P (try_finally body fin).
Proof.
  intros Hb Hf s. destruct (Hb s) as (d1 & L1 & P1). unfold try_finally.
  destruct (body s) as [s1 r]; cbn in *.
  destruct (Hf s1) as (d2 & L2 & P2).
  exists (d1 ++ d2). split; [| auto].
  destruct (fin s1) as [s2 [[]|e]]; cbn in *; rewrite L2, L1;
    now rewrite <- List.app_assoc.
Qed.

Lemma emits_keeps (ok : call -> bool) {A : Type} (m : M A) :
  (forall e d, Forall (fun en => at_epoch en = e /\ ok (what en) = true) d -> P d) ->
  keeps ok m -> emits P m.
Proof.
  intros Hok K s. destruct (K s) as (_ & _ & _ & d & L & F).
  exists d. split; [exact L | eapply Hok; exact F].
Qed.
End Emits.

(** ** The validation schedule *)

Section Schedule.
Context {W Device Batch Output Scalar Ser : Type}.
Context `{!Model W Device Ser, !Optimizer W Ser, !ValueStore W Ser,
          !TrainEvaluator W Output Scalar Ser, !Evaluator W Scalar Ser,
          !Callback W Output Scalar Ser, !UpdateStrategy W Batch Output}.

Local Abbreviation trainer := (trainer W Device Batch Output Scalar Ser).
Local Abbreviation M := (M W Device Batch Output Scalar Ser).
Local Abbreviation entry := (entry Device Batch Output Scalar Ser).
Local Abbreviation call := (call Device Batch Output Scalar Ser).
Local Abbreviation keeps :=
  (keeps (W := W) (Device := Device) (Batch := Batch) (Output := Output)
         (Scalar := Scalar) (Ser := Ser)).
Local Abbreviation emits :=
  (emits (W := W) (Device := Device) (Batch := Batch) (Output := Output)
         (Scalar := Scalar) (Ser := Ser)).
Implicit Types (s : trainer) (d : list entry) (ok : call -> bool).

Lemma on_schedule_nil validate_every : on_schedule validate_every ([] : list entry).
Proof. split; intros e []. Qed.

Lemma on_schedule_app validate_every d1 d2 :
  on_schedule validate_every d1 -> on_schedule validate_every d2 ->
  on_schedule validate_every (d1 ++ d2).
Proof.
  intros [A1 B1] [A2 B2]. split; intros e; rewrite !epochs_of_app, !in_app_iff.
  - intros [?|?]; auto.
  - intros [?|?] ?; auto.
Qed.

Lemma on_schedule_quiet validate_every ok (e : Z) d :
  (forall c, ok c = true -> off_schedule c = true) ->
  Forall (fun en => at_epoch en = e /\ ok (what en) = true) d ->
  on_schedule validate_every d.
Proof.
  intros Hok F. unfold on_schedule.
  assert (epochs_of is_validation_start d = []) as ->.
  { eapply epochs_of_none; [| exact F]. intros c Hc. apply Hok in Hc.
    unfold off_schedule in Hc. now destruct (is_validation_start c). }
  assert (epochs_of is_on_epoch_end d = []) as ->.
  { eapply epochs_of_none; [| exact F]. intros c Hc. apply Hok in Hc.
    unfold off_schedule in Hc.
    destruct (is_validation_start c), (is_on_epoch_end c); now cbn in Hc. }
  split; intros ? [].
Qed.

Lemma emits_quiet validate_every ok {A : Type} (m : M A) :
  (forall c, ok c = true -> off_schedule c = true) ->
  keeps ok m -> emits (on_schedule validate_every) m.
Proof.
  intros Hok K. eapply emits_keeps; [| exact K].
  intros e d. now apply on_schedule_quiet.
Qed.

Lemma epochs_of_at (p : call -> bool) ok (e0 e : Z) d :
  Forall (fun en => at_epoch en = e0 /\ ok (what en) = true) d ->
  In e (epochs_of p d) -> e = e0.
Proof.
  unfold epochs_of. intros F Hin. apply in_map_iff in Hin as (en & <- & Hen).
  apply List.filter_In in Hen as [Hen _].
  rewrite List.Forall_forall in F. now destruct (F en Hen).
Qed.

Lemma train_call_off_schedule (c : call) : train_call c = true -> off_schedule c = true.
Proof. destruct c; cbn; try reflexivity; try discriminate. Qed.

Lemma bind_run {A B : Type} (m : M A) (k : A -> M B) s :
  bind m k s = match m s with
               | (s1, Return a) => k a s1
               | (s1, Raise e) => (s1, Raise e)
               end.
Proof. reflexivity. Qed.

Lemma validation_due_run validate_every s :
  validation_due validate_every s =
    (s, if validate_every =? 0 then Raise ZeroDivisionError
        else Return ((epoch s + 1) mod validate_every =? 0)).
Proof.
  unfold validation_due, bind, gets, lift, py_mod, ret.
  now destruct (validate_every =? 0).
Qed.

(** One iteration of the epoch loop follows the schedule, whatever its
    outcome. *)
Lemma emits_iteration data_loader validate_every :
  emits (on_schedule validate_every) (epoch_iteration data_loader validate_every).
Proof.
  intros s. unfold epoch_iteration. rewrite bind_gets.
  unfold bind at 1, set_epoch at 1.
  match goal with
  | |- context [bind _ _ ?x] => set (s0 := x)
  end.
  change (log s) with (log s0).
  destruct (keeps_notify is_on_epoch_start OnEpochStart on_epoch_start eq_refl s0)
    as (_ & E1 & _ & d1 & L1 & F1).
  assert (on_schedule validate_every d1) as Q1
    by (eapply on_schedule_quiet; [| exact F1]; now intros []).
  rewrite bind_run.
  destruct (notify OnEpochStart on_epoch_start s0) as [s1 [[]|e1]]; cbn [fst snd] in *;
    [| now exists d1].
  destruct (keeps_train data_loader s1) as (_ & E2 & _ & d2 & L2 & F2).
  assert (on_schedule validate_every d2) as Q2
    by (eapply on_schedule_quiet; [apply train_call_off_schedule | exact F2]).
  assert (on_schedule validate_every (d1 ++ d2)) as Q12 by now apply on_schedule_app.
  rewrite bind_run.
  destruct (__train data_loader s1) as [s2 [[]|e2]]; cbn [fst snd] in *.
  2:{ exists (d1 ++ d2). split; [| exact Q12]. rewrite L2, L1. now rewrite <- List.app_assoc. }
  assert (log s2 = log s0 ++ d1 ++ d2) as L12
    by (rewrite L2, L1; now rewrite <- List.app_assoc).
  rewrite bind_run, validation_due_run.
  destruct (Z.eqb_spec validate_every 0) as [Hz | Hnz]; [now exists (d1 ++ d2) |].
  destruct ((epoch s2 + 1) mod validate_every =? 0) eqn:Hdue.
  - apply Z.eqb_eq in Hdue.
    destruct (keeps_validate s2) as (_ & E3 & _ & d3 & L3 & F3).
    assert (forall e, In e (epochs_of is_validation_start d3) ->
                      validate_every <> 0 /\ (e + 1) mod validate_every = 0) as V3.
    { intros e Hin. apply (epochs_of_at _ _ _ _ _ F3) in Hin. now subst e. }
    assert (epochs_of is_on_epoch_end d3 = []) as N3
      by (eapply epochs_of_none; [| exact F3]; now intros [| [] | | | | | | | | | | | | | | | | | | | | | |]).
    rewrite bind_run.
    destruct (__validate s2) as [s3 [[]|e3]] eqn:Ev; cbn [fst snd] in *.
    + apply validate_Return in Ev as (m & L3' & _).
      rewrite L3 in L3'. apply app_inv_head in L3'. subst d3.
      destruct (keeps_notify is_on_epoch_end OnEpochEnd on_epoch_end eq_refl s3)
        as (_ & E4 & _ & d4 & L4 & F4).
      exists ((d1 ++ d2) ++ validate_calls (epoch s2) (grad_enabled s2) m ++ d4).
      split; [rewrite L4, L3, L12; now rewrite <- !List.app_assoc |].
      apply on_schedule_app; [exact Q12 |].
      split; intros e; rewrite !epochs_of_app, !in_app_iff.
      * intros [Hin | Hin]; [now apply V3 |].
        exfalso. erewrite epochs_of_none in Hin; [destruct Hin | | exact F4].
        now intros [].
      * intros [Hin | Hin] _.
        { rewrite N3 in Hin. destruct Hin. }
        apply (epochs_of_at _ _ _ _ _ F4) in Hin. subst e.
        left. rewrite E3. cbn. now left.
    + exists ((d1 ++ d2) ++ d3).
      split; [rewrite L3, L12; now rewrite <- !List.app_assoc |].
      apply on_schedule_app; [exact Q12 |].
      split; [exact V3 |]. rewrite N3. intros e [].
  - apply Z.eqb_neq in Hdue. rewrite bind_run. cbn [ret].
    destruct (keeps_notify is_on_epoch_end OnEpochEnd on_epoch_end eq_refl s2)
      as (_ & E4 & _ & d4 & L4 & F4).
    exists ((d1 ++ d2) ++ d4).
    split; [rewrite L4, L12; now rewrite <- !List.app_assoc |].
    apply on_schedule_app; [exact Q12 |]. split; intros e Hin.
    + exfalso. erewrite epochs_of_none in Hin; [destruct Hin | | exact F4].
      now intros [].
    + apply (epochs_of_at _ _ _ _ _ F4) in Hin. subst e. intros Hd. now destruct Hdue.
Qed.

Lemma emits_fit_try data_loader num_epochs validate_every :
  emits (on_schedule validate_every) (fit_try data_loader num_epochs validate_every).
Proof.
  pose proof (on_schedule_nil validate_every) as Hnil.
  pose proof (on_schedule_app validate_every) as Happ.
  unfold fit_try.
  apply emits_bind; [exact Happ | now apply emits_silent | intros dev].
  apply emits_bind;
    [exact Happ | eapply emits_quiet; [| now apply (keeps_invoke is_model_to)]; now intros []
    | intros _].
  apply emits_bind;
    [exact Happ | eapply emits_quiet; [| now apply (keeps_notify is_on_fit_start)]; now intros []
    | intros _].
  apply emits_for_each; [exact Hnil | exact Happ |].
  intros _. apply emits_iteration.
Qed.

Lemma emits_fit data_loader num_epochs validate_every :
  emits (on_schedule validate_every) (fit data_loader num_epochs validate_every).
Proof.
  pose proof (on_schedule_nil validate_every) as Hnil.
  pose proof (on_schedule_app validate_every) as Happ.
  assert (forall c : call, outside_try c = true -> off_schedule c = true) as Hout
    by now intros [].
  unfold fit.
  apply emits_bind; [exact Happ | now apply emits_silent | intros mode].
  apply emits_bind; [exact Happ | now apply emits_silent | intros start_epoch].
  apply emits_bind; [exact Happ | |].
  - apply emits_try_finally; [exact Happ | |].
    + apply emits_try_except; [exact Happ | |].
      * apply emits_bind; [exact Happ | apply emits_fit_try | intros _].
        now apply emits_silent.
      * intros e h. unfold fit_except.
        destruct e; intros [= <-];
          (apply emits_bind;
           [exact Happ
           | eapply emits_quiet; [exact Hout | now apply keeps_notify]
           | intros _; now apply emits_silent]).
    + eapply emits_quiet; [exact Hout | now apply keeps_model_train].
  - intros output.
    apply emits_bind;
      [exact Happ | eapply emits_quiet; [exact Hout | now apply keeps_invoke] | intros tv].
    apply emits_bind;
      [exact Happ | eapply emits_quiet; [exact Hout | now apply keeps_invoke] | intros vv].
    apply emits_bind; [exact Happ | now apply emits_silent | intros e].
    apply emits_bind;
      [exact Happ | eapply emits_quiet; [exact Hout | now apply keeps_notify]
      | intros _; now apply emits_silent].
Qed.
End Schedule.

(** ** The log records everything that happens to the collaborators *)

Section ReplayFacts.
Context {W Device Batch Output Scalar Ser : Type}.
Context `{!Model W Device Ser, !Optimizer W Ser, !ValueStore W Ser,
          !TrainEvaluator W Output Scalar Ser, !Evaluator W Scalar Ser,
          !Callback W Output Scalar Ser, !UpdateStrategy W Batch Output}.

Local Abbreviation trainer := (trainer W Device Batch Output Scalar Ser).
Local Abbreviation M := (M W Device Batch Output Scalar Ser).
Local Abbreviation entry := (entry Device Batch Output Scalar Ser).
Local Abbreviation call := (call Device Batch Output Scalar Ser).
Local Abbreviation reply := (reply Output Scalar Ser).
Implicit Types (s : trainer) (w : W) (d : list entry) (data_loader : list Batch).

Lemma replays_app w d1 w1 d2 w2 :
  replays w d1 w1 -> replays w1 d2 w2 -> replays w (d1 ++ d2) w2.
Proof.
  revert w. induction d1 as [| en d1 IH]; intros w R1 R2; cbn in *.
  - now subst w1.
  - destruct R1 as (w' & A & R1). exists w'. split; [exact A | now apply IH].
Qed.

Lemma replays_app_inv w d1 d2 w2 :
  replays w (d1 ++ d2) w2 -> exists w1, replays w d1 w1 /\ replays w1 d2 w2.
Proof.
  revert w. induction d1 as [| en d1 IH]; intros w R; cbn in *.
  - now exists w.
  - destruct R as (w' & A & R). apply IH in R as (w1 & R1 & R2).
    exists w1. split; [| exact R2]. now exists w'.
Qed.

(** A stretch of log is replayed from a heap in one way only. *)
Lemma replays_functional w d w1 w2 : replays w d w1 -> replays w d w2 -> w1 = w2.
Proof.
  revert w. induction d as [| en d IH]; intros w R1 R2; cbn in *.
  - congruence.
  - destruct R1 as (a & A1 & R1), R2 as (b & A2 & R2).
    rewrite A1 in A2. inversion A2; subst b. eauto.
Qed.

Lemma records_at_silent {A : Type} (m : M A) s :
  log (m s).1 = log s -> collab (m s).1 = collab s -> records_at m s.
Proof. intros L C. exists []. rewrite app_nil_r. split; [exact L | exact C]. Qed.

Lemma records_at_bind {A B : Type} (m : M A) (k : A -> M B) s :
  records_at m s -> (forall a, records (k a)) -> records_at (bind m k) s.
Proof.
  intros (d1 & L1 & R1) Hk. unfold records_at, bind.
  destruct (m s) as [s1 [a|e]]; cbn in *; [| now exists d1].
  destruct (Hk a s1) as (d2 & L2 & R2).
  exists (d1 ++ d2). split; [rewrite L2, L1; now rewrite <- List.app_assoc |].
  eapply replays_app; eassumption.
Qed.

Lemma records_at_bind_gets {A B : Type} (f : trainer -> A) (k : A -> M B) s :
  records_at (k (f s)) s -> records_at (bind (gets f) k) s.
Proof. intros H0. exact H0. Qed.

Lemma records_at_invoke {A : Type} c (wrap : A -> reply) (f : method W A) s :
  answer (epoch s) c (collab s) = answered wrap (f (collab s)) ->
  records_at (invoke c wrap f) s.
Proof.
  intros Ha. unfold records_at, invoke, answered in *.
  destruct (f (collab s)) as [w r]. cbn in *.
  eexists. split; [reflexivity |]. cbn. exists w. split; [exact Ha | reflexivity].
Qed.

Lemma records_at_no_grad_invoke {A : Type} c (wrap : A -> reply) (f : method W A) s :
  answer (epoch s) c (collab s) = answered wrap (f (collab s)) ->
  records_at (no_grad (invoke c wrap f)) s.
Proof.
  intros Ha. unfold records_at, no_grad, invoke, set_grad_enabled, answered in *. cbn.
  destruct (f (collab s)) as [w r]. cbn in *.
  eexists. split; [reflexivity |]. cbn. exists w. split; [exact Ha | reflexivity].
Qed.

Lemma records_at_model_train (mode : bool) s : records_at (model_train mode) s.
Proof.
  unfold records_at, model_train. cbn.
  eexists. split; [reflexivity |]. cbn. exists (collab s). now split.
Qed.

Lemma records_for_each {A : Type} (items : list A) (body : A -> M unit) :
  (forall x, records (body x)) -> records (for_each items body).
Proof.
  intros Hb. induction items as [| x items IH]; cbn [for_each]; intros s.
  - now apply records_at_silent.
  - apply records_at_bind; [apply Hb | intros _; exact IH].
Qed.

Lemma records_try_except {A : Type} (body : M A) (handlers : exn -> option (M A)) :
  records body -> (forall e h, handlers e = Some h -> records h) ->
  records (try_except body handlers).
Proof.
  intros Hb Hh s. destruct (Hb s) as (d1 & L1 & R1). unfold records_at, try_except.
  destruct (body s) as [s1 [a|e]]; cbn in *; [now exists d1 |].
  destruct (handlers e) as [h|] eqn:Eh; [| now exists d1].
  destruct (Hh e h Eh s1) as (d2 & L2 & R2).
  exists (d1 ++ d2). split; [rewrite L2, L1; now rewrite <- List.app_assoc |].
  eapply replays_app; eassumption.
Qed.

Lemma records_try_finally {A : Type} (body : M A) (fin : M unit) :
  records body -> records fin -> records (try_finally body fin).
Proof.
  intros Hb Hf s. destruct (Hb s) as (d1 & L1 & R1). unfold records_at, try_finally.
  destruct (body s) as [s1 r]; cbn in *.
  destruct (Hf s1) as (d2 & L2 & R2).
  exists (d1 ++ d2).
  destruct (fin s1) as [s2 [[]|e]]; cbn in *;
    (split; [rewrite L2, L1; now rewrite <- List.app_assoc |
             eapply replays_app; eassumption]).
Qed.

Ltac records_step :=
  first
    [ apply records_at_bind_gets
    | apply records_at_invoke; reflexivity
    | apply records_at_no_grad_invoke; reflexivity
    | apply records_at_model_train
    | apply records_at_silent; reflexivity
    | apply records_at_bind; [| intros ? ?] ].

Lemma records_train data_loader : records (__train data_loader).
Proof.
  intros s. unfold __train, notify. repeat records_step.
  apply records_for_each. intros [batch_num batch] st. unfold train_batch, notify.
  repeat records_step.
Qed.

Lemma records_validate : records __validate.
Proof. intros s. unfold __validate, notify. repeat records_step. Qed.

Lemma records_iteration data_loader validate_every :
  records (epoch_iteration data_loader validate_every).
Proof.
  intros s. unfold epoch_iteration, notify, validation_due.
  repeat first [apply records_train | apply records_validate | records_step].
  match goal with |- _ (if ?due then _ else _) _ => destruct due end;
    [apply records_validate | now apply records_at_silent].
Qed.

Lemma records_fit_try data_loader num_epochs validate_every :
  records (fit_try data_loader num_epochs validate_every).
Proof.
  intros s. unfold fit_try, notify. repeat records_step.
  apply records_for_each. intros _. apply records_iteration.
Qed.

Lemma records_fit data_loader num_epochs validate_every :
  records (fit data_loader num_epochs validate_every).
Proof.
  intros s. unfold fit. repeat records_step.
  apply records_try_finally; [| intros st; apply records_at_model_train].
  apply records_try_except.
  - intros st. apply records_at_bind; [apply records_fit_try |].
    intros _ st'. now apply records_at_silent.
  - intros e h. unfold fit_except, notify.
    destruct e; intros [= <-]; intros st; repeat records_step.
Qed.

Lemma records_state_dict : records state_dict.
Proof. intros s. unfold state_dict. repeat records_step. Qed.

Lemma records_load_state_dict (d : checkpoint_dict Ser) : records (load_state_dict d).
Proof.
  intros s. unfold load_state_dict, restore, getitem, getitem_epoch.
  repeat first
    [ records_step
    | match goal with
      | |- records_at (bind (match ?x with Some _ => _ | None => _ end) _) _ =>
          destruct x
      | |- records_at (match ?x with Some _ => _ | None => _ end) _ => destruct x
      end ].
Qed.

(** What a run added to the log, replayed from the heap it started on,
    gives the heap it ended on. *)
Lemma records_since {A : Type} (m : M A) s :
  records m -> replays (collab s) (since s (m s).1) (collab (m s).1).
Proof. intros Hm. destruct (Hm s) as (d & L & R). now rewrite (since_app _ _ _ L). Qed.
End ReplayFacts.

(** ** What fit does after its try block *)

Section FitOutcomeFacts.
Context {W Device Batch Output Scalar Ser : Type}.
Context `{!Model W Device Ser, !Optimizer W Ser, !ValueStore W Ser,
          !TrainEvaluator W Output Scalar Ser, !Evaluator W Scalar Ser,
          !Callback W Output Scalar Ser, !UpdateStrategy W Batch Output}.

Local Abbreviation trainer := (trainer W Device Batch Output Scalar Ser).
Local Abbreviation M := (M W Device Batch Output Scalar Ser).
Local Abbreviation entry := (entry Device Batch Output Scalar Ser).
Local Abbreviation call := (call Device Batch Output Scalar Ser).
Local Abbreviation keeps :=
  (keeps (W := W) (Device := Device) (Batch := Batch) (Output := Output)
         (Scalar := Scalar) (Ser := Ser)).
Implicit Types (s : trainer) (data_loader : list Batch).

(** The calls after a stop signal that [on_exception] took well. *)
Lemma keeps_finish (start_epoch : Z) (o : option exn) :
  keeps final_call
    (bind (invoke TrainGetTrackedValues GaveTracked train_get_tracked_values)
       (fun tv =>
        bind (invoke ValGetTrackedValues GaveTracked val_get_tracked_values)
          (fun vv =>
           bind (notify (OnFitEnd start_epoch
                           {| exception := o; train_tracked_values := tv;
                              val_tracked_values := vv |})
                   (fun ep => on_fit_end ep start_epoch
                                {| exception := o; train_tracked_values := tv;
                                   val_tracked_values := vv |}))
             (fun _ => ret {| exception := o; train_tracked_values := tv;
                              val_tracked_values := vv |})))).
Proof.
  apply keeps_bind; [now apply keeps_invoke | intros tv].
  apply keeps_bind; [now apply keeps_invoke | intros vv].
  apply keeps_bind; [now apply keeps_notify | intros _; apply keeps_ret].
Qed.

Lemma count_calls_quiet (ok p : call -> bool) (e : Z) (d : list entry) :
  (forall c, ok c = true -> p c = false) ->
  Forall (fun en => at_epoch en = e /\ ok (what en) = true) d ->
  count_calls p d = 0%nat.
Proof.
  intros Hno F. rewrite count_calls_epochs_of.
  now rewrite (epochs_of_none ok p e d Hno F).
Qed.

(** The epoch counter after [fit] is the one at which its [try] block
    ended. *)
Lemma fit_epoch data_loader num_epochs validate_every s :
  epoch (fit data_loader num_epochs validate_every s).1 =
  epoch (fit_try data_loader num_epochs validate_every s).1.
Proof.
  destruct (fit_try data_loader num_epochs validate_every s)
    as [s1 [[]|[msg|name|name]]] eqn:Htry; cbn [fst snd].
  - destruct (fit data_loader num_epochs validate_every s) as [s' r] eqn:E.
    now destruct (fit_after_Return _ _ _ _ _ Htry _ _ E) as (Ep & _).
  - rewrite (fit_after_stop _ _ _ _ _ _ Htry).
    destruct (on_exception _ _ _) as [w2 [[]|e2]]; [| reflexivity].
    match goal with
    | |- context [bind ?m ?k ?x] =>
        destruct (keeps_finish (epoch s1 - epoch s) (Some (StopFitIteration msg)) x)
          as (_ & E & _)
    end.
    exact E.
  - rewrite (fit_after_Exception _ _ _ _ _ _ Htry).
    now destruct (on_exception _ _ _) as [w2 r2].
  - now rewrite (fit_after_BaseException _ _ _ _ _ _ Htry).
Qed.
End FitOutcomeFacts.

(** * The claims about Trainer *)

Section TrainerClaims.
Context {W Device Batch Output Scalar Ser : Type}.
Context `{!Model W Device Ser, !Optimizer W Ser, !ValueStore W Ser,
          !TrainEvaluator W Output Scalar Ser, !Evaluator W Scalar Ser,
          !Callback W Output Scalar Ser, !UpdateStrategy W Batch Output}.

Local Abbreviation trainer := (trainer W Device Batch Output Scalar Ser).
Local Abbreviation entry := (entry Device Batch Output Scalar Ser).
Local Abbreviation call := (call Device Batch Output Scalar Ser).
Implicit Types (s : trainer) (data_loader : list Batch).

(** C1 (as amended).  When the stop signal is raised inside the [try]
    block of [fit] (by [model.to], [on_fit_start] or anything in the epoch
    loop), then, whatever happens afterwards, [fit] calls [on_exception]
    with the signal, right after the calls of the [try] block and exactly
    once in the whole call, and the epoch counter keeps the value it had
    when the signal was raised; when the [on_exception] hook raises, [fit]
    raises what the hook raised.  When the [on_exception] hook, the two
    [get_tracked_values] calls and the [on_fit_end] hook themselves come
    back normally, [fit] puts the model's mode back, fills the train and
    validation snapshots, calls [on_fit_end] with the number of epochs run,
    and returns the output with the signal recorded on it. *)
Theorem fit_graceful_stop data_loader num_epochs validate_every s s1 msg :
  fit_try data_loader num_epochs validate_every s = (s1, Raise (StopFitIteration msg)) ->
  (exists rest,
     since s (fit data_loader num_epochs validate_every s).1 =
       since s s1 ++
       {| at_epoch := epoch s1; grad_on := grad_enabled s1;
          what := OnException (StopFitIteration msg);
          came_back :=
            to_reply (fun _ => Done)
              (on_exception (epoch s1) (StopFitIteration msg) (collab s1)).2 |}
       :: rest /\
     count_calls is_on_exception (since s s1) = 0%nat /\
     count_calls is_on_exception rest = 0%nat) /\
  epoch (fit data_loader num_epochs validate_every s).1 = epoch s1 /\
  (forall (w2 : W) (e2 : exn),
     on_exception (epoch s1) (StopFitIteration msg) (collab s1) = (w2, Raise e2) ->
     (fit data_loader num_epochs validate_every s).2 = Raise e2) /\
  (forall (w2 w3 w4 w5 : W) (tv vv : gmap string (TrackedValue Scalar)),
     on_exception (epoch s1) (StopFitIteration msg) (collab s1) = (w2, Return tt) ->
     train_get_tracked_values w2 = (w3, Return tv) ->
     val_get_tracked_values w3 = (w4, Return vv) ->
     on_fit_end (epoch s1) (epoch s1 - epoch s)
       {| exception := Some (StopFitIteration msg);
          train_tracked_values := tv; val_tracked_values := vv |} w4 = (w5, Return tt) ->
     fit data_loader num_epochs validate_every s =
       ({| collab := w5; device := device s1; epoch := epoch s1;
           training := training s; grad_enabled := grad_enabled s1;
           log := log s1 ++
                  done (epoch s1) (grad_enabled s1) (OnException (StopFitIteration msg))
                  :: finishing_calls (epoch s1) (grad_enabled s1) (training s)
                       (epoch s1 - epoch s)
                       {| exception := Some (StopFitIteration msg);
                          train_tracked_values := tv; val_tracked_values := vv |} |},
        Return {| exception := Some (StopFitIteration msg);
                  train_tracked_values := tv; val_tracked_values := vv |})).
Proof.
  intros Htry.
  destruct (advances_fit_try data_loader num_epochs validate_every s) as [(d & L & F) _].
  rewrite Htry in L. cbn [fst] in L.
  assert (count_calls is_on_exception d = 0%nat) as Hd.
  { apply (count_calls_none try_call); [| exact F].
    now intros [| [] | | | | | | | | | | | | | | | | | | | | | |]. }
  rewrite (since_app _ _ _ L).
  split; [| split; [| split]].
  - rewrite (fit_after_stop _ _ _ _ _ _ Htry). cbv zeta.
    destruct (on_exception _ _ _) as [w2 [[]|e2]]; cbn [snd to_reply].
    + match goal with
      | |- context [bind ?m ?k ?x] =>
          destruct (keeps_finish (epoch s1 - epoch s) (Some (StopFitIteration msg)) x)
            as (_ & _ & _ & d3 & L3 & F3)
      end.
      match goal with |- context [since s (?r).1] => set (fin := r) in * end.
      exists (done (epoch s1) (grad_enabled s1) (ModelTrain (training s)) :: d3).
      split; [| split; [exact Hd |]].
      * apply since_app. rewrite L3. cbn [log]. rewrite L.
        now rewrite <- !List.app_assoc.
      * change (done (epoch s1) (grad_enabled s1) (ModelTrain (training s)) :: d3)
          with ([done (epoch s1) (grad_enabled s1) (ModelTrain (training s))] ++ d3).
        rewrite count_calls_app.
        assert (forall c : call, final_call c = true -> is_on_exception c = false) as Hf
          by now intros [].
        now rewrite (count_calls_quiet final_call _ _ d3 Hf F3).
    + exists [done (epoch s1) (grad_enabled s1) (ModelTrain (training s))].
      split; [| split; [exact Hd | reflexivity]].
      apply since_app. cbn [fst log]. rewrite L. now rewrite <- !List.app_assoc.
  - rewrite fit_epoch. now rewrite Htry.
  - intros w2 e2 Hexc. now rewrite (fit_after_stop _ _ _ _ _ _ Htry), Hexc.
  - intros w2 w3 w4 w5 tv vv Hexc Htv Hvv Hend.
    rewrite (fit_after_stop _ _ _ _ _ _ Htry), Hexc.
    unfold bind, invoke, notify, gets, ret. cbn.
    rewrite Htv. cbn. rewrite Hvv. cbn. unfold invoke. cbn. rewrite Hend. cbn.
    unfold finishing_calls, done. cbn. now rewrite <- !List.app_assoc.
Qed.

(** C2 (as amended).  When an instance of [Exception] other than the stop
    signal is raised inside the [try] block of [fit], then [fit] calls
    [on_exception] with it, exactly once in the whole call, puts the
    model's mode back and raises: the same exception when the hook came
    back normally, and what the hook raised otherwise.  No output is
    returned, [on_fit_end] is not called, and after the exception no
    evaluator is asked for its tracked values. *)
Theorem fit_fatal_error data_loader num_epochs validate_every s s1 name
    (w2 : W) (r2 : outcome unit) :
  fit_try data_loader num_epochs validate_every s = (s1, Raise (Exception name)) ->
  on_exception (epoch s1) (Exception name) (collab s1) = (w2, r2) ->
  exists s',
    fit data_loader num_epochs validate_every s =
      (s', Raise (match r2 with Return _ => Exception name | Raise e2 => e2 end)) /\
    collab s' = w2 /\ epoch s' = epoch s1 /\ training s' = training s /\
    since s1 s' =
      [ {| at_epoch := epoch s1; grad_on := grad_enabled s1;
           what := OnException (Exception name);
           came_back := to_reply (fun _ => Done) r2 |};
        done (epoch s1) (grad_enabled s1) (ModelTrain (training s)) ] /\
    count_calls is_on_exception (since s s') = 1%nat /\
    count_calls is_on_fit_end (since s s') = 0%nat.
Proof.
  intros Htry Hexc.
  rewrite (fit_after_Exception _ _ _ _ _ _ Htry), Hexc.
  eexists. split; [reflexivity |]. cbn.
  repeat split.
  - unfold since. cbn. apply drop_app_length.
  - destruct (advances_fit_try data_loader num_epochs validate_every s) as [(d & L & F) _].
    rewrite Htry in L. cbn in L.
    unfold since. cbn. rewrite L, <- List.app_assoc, drop_app_length.
    rewrite count_calls_app, (count_calls_none try_call); [reflexivity | | exact F].
    now intros [| [] | | | | | | | | | | | | | | | | | | | | | |].
  - destruct (advances_fit_try data_loader num_epochs validate_every s) as [(d & L & F) _].
    rewrite Htry in L. cbn in L.
    unfold since. cbn. rewrite L, <- List.app_assoc, drop_app_length.
    rewrite count_calls_app, (count_calls_none try_call); [reflexivity | | exact F].
    now intros [| [] | | | | | | | | | | | | | | | | | | | | | |].
Qed.

(** C3.  In every call of [fit], whatever its outcome, validation started
    at an epoch whose iteration reached [on_epoch_end] if and only if
    [(epoch + 1) % validate_every == 0] for the counter of that iteration,
    and it never started at an epoch where that test fails.  When [fit]
    returns without a stop signal, validation started exactly at the due
    epochs among [start + 1 .. start + num_epochs]; for a trainer whose
    counter is -1, [validate_every = 2] and [num_epochs = 4] these are the
    epochs 1 and 3. *)
Theorem validation_schedule data_loader num_epochs validate_every s s'
    (r : outcome (FitOutput Scalar)) :
  fit data_loader num_epochs validate_every s = (s', r) ->
  (forall e, In e (epochs_of is_on_epoch_end (since s s')) ->
             (In e (epochs_of is_validation_start (since s s')) <->
              (e + 1) mod validate_every = 0)) /\
  (forall e, In e (epochs_of is_validation_start (since s s')) ->
             (e + 1) mod validate_every = 0) /\
  (forall output, r = Return output -> exception output = None ->
     epochs_of is_validation_start (since s s') =
       List.filter (fun e => (e + 1) mod validate_every =? 0)
                   (epochs_from (epoch s + 1) (Z.to_nat num_epochs)) /\
     (epoch s = -1 -> validate_every = 2 -> num_epochs = 4 ->
      epochs_of is_validation_start (since s s') = [1; 3])).
Proof.
  intros E.
  destruct (emits_fit data_loader num_epochs validate_every s) as (d & L & [V1 V2]).
  rewrite E in L. cbn in L. rewrite (since_app _ _ _ L).
  split; [| split].
  - intros e He. split; [apply V1 | now apply V2].
  - intros e He. now apply V1.
  - intros output -> Hnone.
    destruct (fit_Return_None _ _ _ _ _ _ E Hnone) as [s1 Htry].
    destruct (fit_after_Return _ _ _ _ _ Htry _ _ E) as (_ & _ & Hfin).
    destruct (Hfin output eq_refl) as [_ L2].
    apply fit_try_Return in Htry as (_ & d1 & L1 & _ & _ & Hv).
    rewrite L1, <- List.app_assoc in L2. rewrite L in L2.
    apply app_inv_head in L2. subst d.
    rewrite epochs_of_app, Hv. cbn. rewrite app_nil_r.
    split; [reflexivity |].
    intros -> -> ->. reflexivity.
Qed.

(** C4.  After [fit] the model is in the mode it was in before [fit],
    whatever the outcome: an output without a stop signal, an output with
    one, or a raised exception. *)
Theorem fit_restores_model_mode data_loader num_epochs validate_every s :
  training (fit data_loader num_epochs validate_every s).1 = training s.
Proof.
  unfold fit. rewrite !bind_gets.
  unfold bind at 1, try_finally, model_train.
  destruct (try_except _ _ s) as [s1 [output|e]]; cbn; [| reflexivity].
  unfold notify, bind, gets, invoke. cbn.
  destruct (train_get_tracked_values _) as [w2 [tv|e2]]; cbn; [| reflexivity].
  destruct (val_get_tracked_values _) as [w3 [vv|e3]]; cbn; [| reflexivity].
  destruct (on_fit_end _ _ _ _) as [w4 [[]|e4]]; reflexivity.
Qed.

(** C5.  A training phase that runs to its end sets the model to train
    mode, calls [on_epoch_train_start] with the number of batches and the
    evaluator's [epoch_start] with the epoch, then for every batch in the
    order of the data loader [on_train_batch_start], [batch_update], the
    evaluator's [evaluate_batch] on the output of [batch_update] with
    gradients off, and [on_train_batch_end] with that output and the metric
    values the evaluator gave, and finally the evaluator's [epoch_end] and
    [on_epoch_train_end] with the current values of the evaluator's tracked
    values; it makes no other call.  Every one of these calls is the
    collaborator's own method, run on the collaborators as the call before
    it left them, and its logged reply is what that method returned; the
    collaborators end as the last call left them. *)
Theorem train_phase_steps data_loader s s' :
  __train data_loader s = (s', Return tt) ->
  training s' = true /\ epoch s' = epoch s /\
  replays (collab s) (since s s') (collab s') /\
  exists results tracked,
    length results = length data_loader /\
    since s s' = train_calls (epoch s) (grad_enabled s) data_loader results tracked.
Proof.
  intros E.
  pose proof (records_since (__train data_loader) s (records_train data_loader)) as R.
  rewrite E in R. cbn [fst] in R.
  apply train_Return in E as (rs & tracked & Len & L & Ep & _ & T).
  repeat split; trivial. exists rs, tracked. split; [exact Len |].
  now apply since_app.
Qed.

(** C6.  A new trainer's epoch counter is -1.  A call of [fit] that returns
    without a stop signal has run the epoch loop exactly [num_epochs] times
    ([range(num_epochs)]: not at all when [num_epochs] is negative), once at
    each of the epochs [start + 1], [start + 2], ..., and leaves the counter
    at [start + num_epochs] (at [start] when [num_epochs] is negative). *)
Theorem epoch_counter (w : W) (dev : Device) (mode grad : bool)
    data_loader num_epochs validate_every s s' (output : FitOutput Scalar) :
  fit data_loader num_epochs validate_every s = (s', Return output) ->
  exception output = None ->
  epoch (__init__ w dev mode grad : trainer) = -1 /\
  epoch s' = epoch s + Z.max 0 num_epochs /\
  (0 <= num_epochs -> epoch s' = epoch s + num_epochs) /\
  epochs_of is_on_epoch_start (since s s') =
    epochs_from (epoch s + 1) (Z.to_nat num_epochs) /\
  epochs_of is_on_epoch_end (since s s') =
    epochs_from (epoch s + 1) (Z.to_nat num_epochs) /\
  count_calls is_on_epoch_start (since s s') = Z.to_nat num_epochs.
Proof.
  intros E Hnone.
  destruct (fit_Return_None _ _ _ _ _ _ E Hnone) as [s1 Htry].
  destruct (fit_after_Return _ _ _ _ _ Htry _ _ E) as (Ep & _ & Hfin).
  destruct (Hfin output eq_refl) as [_ L2].
  apply fit_try_Return in Htry as (Ep1 & d1 & L1 & Hs & He & _).
  rewrite L1, <- List.app_assoc in L2. rewrite (since_app _ _ _ L2).
  rewrite count_calls_epochs_of, !epochs_of_app, Hs, He. cbn. rewrite !app_nil_r.
  repeat split; [lia | lia | apply epochs_from_length].
Qed.
End TrainerClaims.

(** * The claims about checkpoints *)

Section CheckpointClaims.
Context {W Device Batch Output Scalar Ser : Type}.
Context `{!Model W Device Ser, !Optimizer W Ser, !ValueStore W Ser,
          !TrainEvaluator W Output Scalar Ser, !Evaluator W Scalar Ser,
          !Callback W Output Scalar Ser, !UpdateStrategy W Batch Output}.

Local Abbreviation trainer := (trainer W Device Batch Output Scalar Ser).
Implicit Types (s t : trainer) (d : checkpoint_dict Ser).

(** C7.  [state_dict] returns a dictionary with exactly the keys [model],
    [optimizer], [value_store], [train_evaluator], [val_evaluator],
    [callback] and [epoch]; under each collaborator's key is what that
    collaborator's own [state_dict] returned, the six being called in this
    order, each on the collaborators as the one before left them, and under
    [epoch] is the counter.  [load_state_dict] calls each collaborator's own
    [load_state_dict] on the value under its key, in the same order, each
    on the collaborators as the one before left them, all before the
    counter changes, and then sets the counter to the value under [epoch];
    when anything is raised on the way the counter is unchanged, and the
    collaborators are as the calls made so far left them. *)
Theorem checkpoint_contract s s' d (d' : checkpoint_dict Ser) t t'
    (r : outcome unit) :
  state_dict s = (s', Return d) ->
  load_state_dict d' t = (t', r) ->
  (keys d = {[ "model"; "optimizer"; "value_store"; "train_evaluator";
               "val_evaluator"; "callback"; "epoch" ]} /\
   epoch_item d = Some (epoch s) /\
   exists w1 w2 w3 w4 w5 model optimizer value_store train_evaluator val_evaluator
          callback,
     model_state_dict (collab s) = (w1, Return model) /\
     optimizer_state_dict w1 = (w2, Return optimizer) /\
     value_store_state_dict w2 = (w3, Return value_store) /\
     train_evaluator_state_dict w3 = (w4, Return train_evaluator) /\
     val_evaluator_state_dict w4 = (w5, Return val_evaluator) /\
     callback_state_dict w5 = (collab s', Return callback) /\
     d = checkpoint model optimizer value_store train_evaluator val_evaluator callback
           (epoch s) /\
     since s s' =
       [ saved (epoch s) (grad_enabled s) the_model model;
         saved (epoch s) (grad_enabled s) the_optimizer optimizer;
         saved (epoch s) (grad_enabled s) the_value_store value_store;
         saved (epoch s) (grad_enabled s) the_train_evaluator train_evaluator;
         saved (epoch s) (grad_enabled s) the_val_evaluator val_evaluator;
         saved (epoch s) (grad_enabled s) the_callback callback ]) /\
  (Forall (fun en => at_epoch en = epoch t) (since t t') /\
   replays (collab t) (since t t') (collab t') /\
   (forall e, r = Raise e -> epoch t' = epoch t) /\
   (r = Return tt ->
    exists model optimizer value_store train_evaluator val_evaluator callback z
           w1 w2 w3 w4 w5,
      states d' !! "model" = Some model /\ states d' !! "optimizer" = Some optimizer /\
      states d' !! "value_store" = Some value_store /\
      states d' !! "train_evaluator" = Some train_evaluator /\
      states d' !! "val_evaluator" = Some val_evaluator /\
      states d' !! "callback" = Some callback /\
      epoch_item d' = Some z /\
      model_load_state_dict model (collab t) = (w1, Return tt) /\
      optimizer_load_state_dict optimizer w1 = (w2, Return tt) /\
      value_store_load_state_dict value_store w2 = (w3, Return tt) /\
      train_evaluator_load_state_dict train_evaluator w3 = (w4, Return tt) /\
      val_evaluator_load_state_dict val_evaluator w4 = (w5, Return tt) /\
      callback_load_state_dict callback w5 = (collab t', Return tt) /\
      epoch t' = z /\
      since t t' =
        [ loaded (epoch t) (grad_enabled t) the_model model Done;
          loaded (epoch t) (grad_enabled t) the_optimizer optimizer Done;
          loaded (epoch t) (grad_enabled t) the_value_store value_store Done;
          loaded (epoch t) (grad_enabled t) the_train_evaluator train_evaluator Done;
          loaded (epoch t) (grad_enabled t) the_val_evaluator val_evaluator Done;
          loaded (epoch t) (grad_enabled t) the_callback callback Done ])).
Proof.
  intros Hsave Hload. split.
  - apply state_dict_Return in Hsave
      as (w1 & w2 & w3 & w4 & w5 & a1 & a2 & a3 & a4 & a5 & a6
          & E1 & E2 & E3 & E4 & E5 & E6 & -> & _ & _ & L).
    split; [apply checkpoint_keys_dom |]. split; [reflexivity |].
    exists w1, w2, w3, w4, w5, a1, a2, a3, a4, a5, a6.
    repeat split; trivial. now apply since_app.
  - pose proof (records_since (load_state_dict d') t (records_load_state_dict d')) as R.
    rewrite Hload in R. cbn [fst] in R.
    apply load_state_dict_spec in Hload as (calls & L & F & Hok & Hfail).
    rewrite (since_app _ _ _ L) in *. split; [exact F |]. split; [exact R |].
    split; [exact Hfail |]. exact Hok.
Qed.

Context `{!SymmetricCheckpoints W}.

(** C8 (as amended).  With collaborators that keep their side of the
    save/restore contract, [load_state_dict(state_dict())] always succeeds,
    on the trainer the checkpoint was taken from as on any other trainer
    [t] with collaborators of the same kind: [state_dict] leaves the
    original as it was, and the restored trainer has the captured
    collaborator state and epoch counter, so that the first iteration of
    its next [fit] runs at the captured epoch plus one; its device, model
    mode and gradient mode are those [t] had, since a checkpoint does not
    hold them.  When these three are those of the original, the restored
    trainer is the original in everything but the log, and the next [fit]
    on it makes the same calls with the same replies, has the same outcome
    and ends in the same state as on the original. *)
Theorem checkpoint_round_trip (data_loader : list Batch) (num_epochs validate_every : Z)
    s t :
  exists s' d t',
    state_dict s = (s', Return d) /\ relog [] s' = relog [] s /\
    load_state_dict d t = (t', Return tt) /\
    collab t' = collab s /\ epoch t' = epoch s /\
    device t' = device t /\ training t' = training t /\
    grad_enabled t' = grad_enabled t /\
    epoch (epoch_iteration data_loader validate_every t').1 = epoch s + 1 /\
    (device t = device s -> training t = training s -> grad_enabled t = grad_enabled s ->
     relog [] t' = relog [] s /\
     observe t' (fit data_loader num_epochs validate_every t') =
       observe s' (fit data_loader num_epochs validate_every s')).
Proof.
  eexists _, _, _.
  split; [apply state_dict_symmetric |].
  split; [reflexivity |].
  split; [apply load_state_dict_symmetric |].
  split; [reflexivity |]. split; [reflexivity |].
  split; [reflexivity |]. split; [reflexivity |]. split; [reflexivity |].
  split; [now rewrite iteration_epoch |].
  intros Hd Ht Hg.
  split; [unfold relog; cbn; congruence |].
  apply observe_log_blind; [apply log_blind_fit | cbn; congruence ..].
Qed.
End CheckpointClaims.

(** * The claims about GroupRMSprop and MSELoss *)

Section GroupRMSpropClaims.
Import GroupRMSprop.
Context {Params Base : Type}.
Context (Optimizer__init__ : Params -> defaults -> outcome Base).
Context (format : float -> string).

(** [not 0.0 <= x] holds of the negative floats and of NaN. *)
Lemma not_nonnegative (x : float) :
  (0 <=? x)%float = false <-> ((x <? 0)%float = true \/ PrimFloat.is_nan x = true).
Proof.
  unfold PrimFloat.is_nan.
  rewrite FloatAxioms.leb_spec, FloatAxioms.ltb_spec, FloatAxioms.eqb_spec.
  change (Prim2SF 0%float) with (S754_zero false).
  destruct (Prim2SF x) as [sg | sg | | sg m e]; cbn.
  - split; [discriminate | intros [?|?]; discriminate].
  - destruct sg; cbn; split; auto; intros [?|?]; discriminate.
  - split; auto.
  - unfold SFeqb, SFcompare. rewrite Z.compare_refl, Pos.compare_cont_refl.
    destruct sg; cbn; split; auto; intros [?|?]; discriminate.
Qed.

(** C9 (as amended).  The constructor raises [ValueError] before it
    reaches the base class if and only if [lr], [eps] or [beta] fails the
    test [0.0 <= x], that is, is negative or NaN (zero is accepted);
    otherwise it calls the base constructor with the defaults [lr], [beta],
    [eps] and [adjusted_lr = lr], and its outcome is that call's. *)
Theorem group_rmsprop_init (params : Params) (lr beta eps : float) :
  let rejected x := (x <? 0)%float = true \/ PrimFloat.is_nan x = true in
  (rejected lr \/ rejected eps \/ rejected beta ->
   exists msg, __init__ Optimizer__init__ format params lr beta eps
               = Raise (ValueError msg)) /\
  (~ (rejected lr \/ rejected eps \/ rejected beta) ->
   __init__ Optimizer__init__ format params lr beta eps
   = Optimizer__init__ params
       {| GroupRMSprop.lr := lr; GroupRMSprop.beta := beta; GroupRMSprop.eps := eps;
          adjusted_lr := lr |}) /\
  __init__ Optimizer__init__ format params 0 0 0
  = Optimizer__init__ params
      {| GroupRMSprop.lr := 0; GroupRMSprop.beta := 0; GroupRMSprop.eps := 0;
         adjusted_lr := 0 |}.
Proof.
  cbv zeta. unfold __init__. rewrite <- !not_nonnegative.
  destruct (0 <=? lr)%float, (0 <=? eps)%float, (0 <=? beta)%float; cbn;
    (split; [| split; [| reflexivity]]);
    try (intros _; eexists; reflexivity);
    try (intros [?|[?|?]]; discriminate);
    try (intros Hn; exfalso; apply Hn; auto; fail);
    try (intros _; reflexivity).
Qed.
End GroupRMSpropClaims.

Section MSELossClaims.
Import MSELoss.
Context {Tensor Scalar : Type}.
Context (sub : Tensor -> Tensor -> Tensor) (pow : Tensor -> Z -> Tensor)
        (mean sum : Tensor -> Tensor) (item : Tensor -> Scalar) (len : Tensor -> Z).

(** C10.  [_calc_metric] returns the mean of the squared element-wise
    errors with [len(y)] when [reduction] is ["mean"], and their sum with
    [len(y)] for every other [reduction], ["none"] and ["sum"] included:
    the result is always one of the two reduced values. *)
Theorem calc_metric_reduction (self : MSELoss) (y_pred y : Tensor) :
  (reduction self = "mean" ->
   _calc_metric sub pow mean sum item len self y_pred y
   = (item (mean (pow (sub y_pred y) 2)), len y)) /\
  (reduction self <> "mean" ->
   _calc_metric sub pow mean sum item len self y_pred y
   = (item (sum (pow (sub y_pred y) 2)), len y)) /\
  _calc_metric sub pow mean sum item len {| reduction := "none" |} y_pred y
  = (item (sum (pow (sub y_pred y) 2)), len y) /\
  (_calc_metric sub pow mean sum item len self y_pred y
   = (item (mean (pow (sub y_pred y) 2)), len y) \/
   _calc_metric sub pow mean sum item len self y_pred y
   = (item (sum (pow (sub y_pred y) 2)), len y)).
Proof.
  unfold _calc_metric.
  destruct (String.eqb_spec (reduction self) "mean") as [-> | Hne].
  - repeat split; auto. intros Hne. now destruct Hne.
  - repeat split; auto. intros He. now destruct Hne.
Qed.
End MSELossClaims.

(** * More about Trainer *)

(** ** Fields that a run leaves alone *)

Section Frames.
Context {W Device Batch Output Scalar Ser : Type}.
Context `{!Model W Device Ser, !Optimizer W Ser, !ValueStore W Ser,
          !TrainEvaluator W Output Scalar Ser, !Evaluator W Scalar Ser,
          !Callback W Output Scalar Ser, !UpdateStrategy W Batch Output}.

Local Abbreviation trainer := (trainer W Device Batch Output Scalar Ser).
Local Abbreviation M := (M W Device Batch Output Scalar Ser).
Local Abbreviation entry := (entry Device Batch Output Scalar Ser).
Local Abbreviation call := (call Device Batch Output Scalar Ser).
Local Abbreviation frames :=
  (frames (W := W) (Device := Device) (Batch := Batch) (Output := Output)
          (Scalar := Scalar) (Ser := Ser)).
Implicit Types (s : trainer).

Section Field.
Context {X : Type} (f : trainer -> X).

Lemma frames_ret {A : Type} (a : A) : frames f (ret a).
Proof. intros s. reflexivity. Qed.

Lemma frames_raise {A : Type} (e : exn) : frames f (raise (A := A) e).
Proof. intros s. reflexivity. Qed.

Lemma frames_lift {A : Type} (r : outcome A) : frames f (lift r).
Proof. intros s. reflexivity. Qed.

Lemma frames_gets {A : Type} (g : trainer -> A) : frames f (gets g).
Proof. intros s. reflexivity. Qed.

Lemma frames_bind {A B : Type} (m : M A) (k : A -> M B) :
  frames f m -> (forall a, frames f (k a)) -> frames f (bind m k).
Proof.
  intros Hm Hk s. specialize (Hm s). unfold bind.
  destruct (m s) as [s1 [a|e]]; cbn in *; [| exact Hm].
  now rewrite Hk.
Qed.

Lemma frames_for_each {A : Type} (items : list A) (body : A -> M unit) :
  (forall x, frames f (body x)) -> frames f (for_each items body).
Proof.
  intros Hb. induction items as [| x items IH]; cbn.
  - apply frames_ret.
  - apply frames_bind; [apply Hb | intros _; exact IH].
Qed.

Lemma frames_try_except {A : Type} (body : M A) (handlers : exn -> option (M A)) :
  frames f body -> (forall e h, handlers e = Some h -> frames f h) ->
  frames f (try_except body handlers).
Proof.
  intros Hb Hh s. specialize (Hb s). unfold try_except.
  destruct (body s) as [s1 [a|e]]; cbn in *; [exact Hb |].
  destruct (handlers e) as [h|] eqn:Eh; [| exact Hb].
  now rewrite (Hh e h Eh).
Qed.

Lemma frames_try_finally {A : Type} (body : M A) (fin : M unit) :
  frames f body -> frames f fin -> frames f (try_finally body fin).
Proof.
  intros Hb Hf s. specialize (Hb s). unfold try_finally.
  destruct (body s) as [s1 r]; cbn in *. specialize (Hf s1).
  destruct (fin s1) as [s2 [[]|e]]; cbn in *; congruence.
Qed.

Hypothesis f_own : own_field f.

Lemma frames_invoke {A : Type} c (wrap : A -> reply Output Scalar Ser) (m : method W A) :
  frames f (invoke c wrap m).
Proof. intros s. unfold invoke. destruct (m (collab s)) as [w r]. apply f_own. Qed.

Lemma frames_model_train (mode : bool) : frames f (model_train mode).
Proof. intros s. apply f_own. Qed.

Lemma frames_notify c (hook : Z -> method W unit) : frames f (notify c hook).
Proof. unfold notify. apply frames_bind; [apply frames_gets | intros e; apply frames_invoke]. Qed.
End Field.

Lemma own_epoch : own_field (W := W) (Device := Device) (Batch := Batch) (Output := Output)
                    (Scalar := Scalar) (Ser := Ser) epoch.
Proof. intros s w b l. reflexivity. Qed.

Lemma own_grad_enabled :
  own_field (W := W) (Device := Device) (Batch := Batch) (Output := Output)
    (Scalar := Scalar) (Ser := Ser) grad_enabled.
Proof. intros s w b l. reflexivity. Qed.

(** [with torch.no_grad()] around one call puts the gradient mode back,
    also when the call raises. *)
Lemma frames_no_grad_invoke {A : Type} c (wrap : A -> reply Output Scalar Ser)
    (m : method W A) :
  frames grad_enabled (no_grad (invoke c wrap m)).
Proof.
  intros s. unfold no_grad, invoke, set_grad_enabled. cbn.
  now destruct (m (collab s)).
Qed.

Ltac frames_step own :=
  first
    [ apply frames_ret | apply frames_raise | apply frames_lift | apply frames_gets
    | apply frames_notify; exact own
    | apply frames_no_grad_invoke
    | apply frames_invoke; exact own
    | apply frames_model_train; exact own
    | apply frames_bind; [| intros ?] ].

Lemma frames_grad_train data_loader : frames grad_enabled (__train data_loader).
Proof.
  unfold __train. repeat frames_step own_grad_enabled.
  apply frames_for_each. intros [batch_num batch]. unfold train_batch.
  repeat frames_step own_grad_enabled.
Qed.

Lemma frames_grad_validate : frames grad_enabled __validate.
Proof. unfold __validate. repeat frames_step own_grad_enabled. Qed.

Lemma frames_grad_fit data_loader num_epochs validate_every :
  frames grad_enabled (fit data_loader num_epochs validate_every).
Proof.
  unfold fit.
  apply frames_bind; [apply frames_gets | intros mode].
  apply frames_bind; [apply frames_gets | intros start_epoch].
  apply frames_bind.
  - apply frames_try_finally; [| now apply frames_model_train].
    apply frames_try_except.
    + apply frames_bind; [| intros _; apply frames_ret].
      unfold fit_try. repeat frames_step own_grad_enabled.
      apply frames_for_each. intros _. unfold epoch_iteration, validation_due.
      repeat first [apply frames_grad_train | frames_step own_grad_enabled].
      * intros s. reflexivity.
      * match goal with |- _ (if ?due then _ else _) => destruct due end;
          [apply frames_grad_validate | apply frames_ret].
    + intros e h. unfold fit_except.
      destruct e; intros [= <-]; repeat frames_step own_grad_enabled.
  - intros output. repeat frames_step own_grad_enabled.
Qed.

(** X1.  A validation phase that runs to its end puts the model in eval
    mode, calls [on_epoch_validation_start], the evaluator's [epoch_start]
    with the epoch, the evaluator's [evaluate] with gradients off, the
    evaluator's [epoch_end] with the epoch and [on_epoch_validation_end]
    with the metric values [evaluate] returned; it makes no other call and
    leaves the model in eval mode. *)
Theorem validate_phase_steps s s' :
  __validate s = (s', Return tt) ->
  training s' = false /\ epoch s' = epoch s /\
  exists metric_values,
    since s s' = validate_calls (epoch s) (grad_enabled s) metric_values.
Proof.
  intros E. apply validate_Return in E as (m & L & Ep & _ & T).
  repeat split; trivial. exists m. now apply since_app.
Qed.

(** X2.  The gradient mode after a training phase, a validation phase or a
    whole [fit] is the one before it, whatever the outcome: the evaluators
    run with gradients off and [torch.no_grad()] puts the mode back also
    when they raise. *)
Theorem gradient_mode_restored data_loader num_epochs validate_every s :
  grad_enabled (__train data_loader s).1 = grad_enabled s /\
  grad_enabled (__validate s).1 = grad_enabled s /\
  grad_enabled (fit data_loader num_epochs validate_every s).1 = grad_enabled s.
Proof.
  split; [apply frames_grad_train |].
  split; [apply frames_grad_validate | apply frames_grad_fit].
Qed.
End Frames.

(** ** The outcomes of fit *)

Section Outcomes.
Context {W Device Batch Output Scalar Ser : Type}.
Context `{!Model W Device Ser, !Optimizer W Ser, !ValueStore W Ser,
          !TrainEvaluator W Output Scalar Ser, !Evaluator W Scalar Ser,
          !Callback W Output Scalar Ser, !UpdateStrategy W Batch Output}.

Local Abbreviation trainer := (trainer W Device Batch Output Scalar Ser).
Local Abbreviation M := (M W Device Batch Output Scalar Ser).
Local Abbreviation entry := (entry Device Batch Output Scalar Ser).
Local Abbreviation call := (call Device Batch Output Scalar Ser).
Local Abbreviation keeps :=
  (keeps (W := W) (Device := Device) (Batch := Batch) (Output := Output)
         (Scalar := Scalar) (Ser := Ser)).
Implicit Types (s : trainer) (data_loader : list Batch).

(** X3.  In every call of [fit] the [on_exception] hook is called at most
    once: exactly once when the [try] block raised the stop signal or
    another [Exception], and not at all when the [try] block came back
    normally or raised something that is not an [Exception]. *)
Theorem on_exception_at_most_once data_loader num_epochs validate_every s :
  count_calls is_on_exception
    (since s (fit data_loader num_epochs validate_every s).1) =
  match (fit_try data_loader num_epochs validate_every s).2 with
  | Raise (StopFitIteration _) | Raise (Exception _) => 1%nat
  | _ => 0%nat
  end.
Proof.
  destruct (advances_fit_try data_loader num_epochs validate_every s) as [(d & L & F) _].
  assert (count_calls is_on_exception d = 0%nat) as Hd.
  { apply (count_calls_none try_call); [| exact F].
    now intros [| [] | | | | | | | | | | | | | | | | | | | | | |]. }
  destruct (fit_try data_loader num_epochs validate_every s)
    as [s1 [[]|[msg|name|name]]] eqn:Htry; cbn [fst snd] in L |- *.
  - destruct (fit data_loader num_epochs validate_every s) as [s' r] eqn:E.
    destruct (fit_after_Return _ _ _ _ _ Htry _ _ E) as (_ & (d2 & L2 & F2) & _). cbn.
    rewrite L in L2. rewrite <- List.app_assoc in L2.
    rewrite (since_app _ _ _ L2), count_calls_app, Hd.
    rewrite (count_calls_none (fun c => negb (is_on_exception c))); [reflexivity | | exact F2].
    intros c. now destruct (is_on_exception c).
  - rewrite (fit_after_stop _ _ _ _ _ _ Htry). cbv zeta.
    destruct (on_exception _ _ _) as [w2 [[]|e2]].
    + match goal with
      | |- context [bind ?m ?k ?x] =>
          destruct (keeps_finish (epoch s1 - epoch s) (Some (StopFitIteration msg)) x)
            as (_ & _ & _ & d3 & L3 & F3)
      end.
      match goal with |- context [since s (?r).1] => set (fin := r) in * end.
      assert (log fin.1 = log s ++ d ++
                [done (epoch s1) (grad_enabled s1) (OnException (StopFitIteration msg));
                 done (epoch s1) (grad_enabled s1) (ModelTrain (training s))] ++ d3) as L4.
      { rewrite L3. cbn [log]. rewrite L. now rewrite <- !List.app_assoc. }
      rewrite (since_app _ _ _ L4), !count_calls_app, Hd.
      assert (forall c : call, final_call c = true -> is_on_exception c = false) as Hf
        by now intros [].
      rewrite (count_calls_quiet final_call _ _ d3 Hf F3). reflexivity.
    + unfold since. cbn. rewrite L, <- List.app_assoc, drop_app_length.
      now rewrite count_calls_app, Hd.
  - rewrite (fit_after_Exception _ _ _ _ _ _ Htry).
    destruct (on_exception _ _ _) as [w2 r2].
    unfold since. cbn. rewrite L, <- List.app_assoc, drop_app_length.
    now rewrite count_calls_app, Hd.
  - rewrite (fit_after_BaseException _ _ _ _ _ _ Htry).
    unfold since. cbn. rewrite L, <- List.app_assoc, drop_app_length.
    now rewrite count_calls_app, Hd.
Qed.

(** X4.  When the [try] block of [fit] raises something that is not an
    instance of [Exception] (a keyboard interrupt, say), [fit] raises it
    unchanged: [on_exception] is not called, nothing but [model.train] with
    the original mode is called afterwards, and the collaborators and the
    epoch counter stay as the interrupt left them. *)
Theorem fit_base_exception data_loader num_epochs validate_every s s1 name :
  fit_try data_loader num_epochs validate_every s = (s1, Raise (BaseException name)) ->
  exists s',
    fit data_loader num_epochs validate_every s = (s', Raise (BaseException name)) /\
    collab s' = collab s1 /\ epoch s' = epoch s1 /\ training s' = training s /\
    since s1 s' = [done (epoch s1) (grad_enabled s1) (ModelTrain (training s))] /\
    count_calls is_on_exception (since s s') = 0%nat.
Proof.
  intros Htry.
  destruct (advances_fit_try data_loader num_epochs validate_every s) as [(d & L & F) _].
  rewrite Htry in L. cbn [fst] in L.
  rewrite (fit_after_BaseException _ _ _ _ _ _ Htry).
  eexists. split; [reflexivity |]. cbn [collab epoch training].
  repeat split.
  - unfold since. cbn [log]. apply drop_app_length.
  - unfold since. cbn [log]. rewrite L, <- List.app_assoc, drop_app_length.
    rewrite count_calls_app, (count_calls_none try_call); [reflexivity | | exact F].
    now intros [| [] | | | | | | | | | | | | | | | | | | | | | |].
Qed.
End Outcomes.

(** ** Degenerate arguments of fit *)

Section Degenerate.
Context {W Device Batch Output Scalar Ser : Type}.
Context `{!Model W Device Ser, !Optimizer W Ser, !ValueStore W Ser,
          !TrainEvaluator W Output Scalar Ser, !Evaluator W Scalar Ser,
          !Callback W Output Scalar Ser, !UpdateStrategy W Batch Output}.

Local Abbreviation trainer := (trainer W Device Batch Output Scalar Ser).
Local Abbreviation M := (M W Device Batch Output Scalar Ser).
Local Abbreviation entry := (entry Device Batch Output Scalar Ser).
Local Abbreviation call := (call Device Batch Output Scalar Ser).
Local Abbreviation keeps :=
  (keeps (W := W) (Device := Device) (Batch := Batch) (Output := Output)
         (Scalar := Scalar) (Ser := Ser)).
Local Abbreviation emits :=
  (emits (W := W) (Device := Device) (Batch := Batch) (Output := Output)
         (Scalar := Scalar) (Ser := Ser)).
Implicit Types (s : trainer) (data_loader : list Batch) (ok : call -> bool).

Lemma range_nonpositive (n : Z) : n <= 0 -> range n = [].
Proof. intros Hn. unfold range. now replace (Z.to_nat n) with 0%nat by lia. Qed.

Lemma Forall_ok_app ok (d1 d2 : list entry) :
  Forall (fun en => ok (what en) = true) d1 ->
  Forall (fun en => ok (what en) = true) d2 ->
  Forall (fun en => ok (what en) = true) (d1 ++ d2).
Proof. intros. apply Forall_app. now split. Qed.

Lemma emits_calls (ok ok' : call -> bool) {A : Type} (m : M A) :
  (forall c, ok' c = true -> ok c = true) ->
  keeps ok' m -> emits (Forall (fun en => ok (what en) = true)) m.
Proof.
  intros Hsub K. eapply emits_keeps; [| exact K].
  intros e d F. eapply List.Forall_impl; [| exact F]. cbn. intros en [_ ?]. auto.
Qed.

(** Everything [fit] logs satisfies [ok] when the calls outside the loop do
    and everything the loop logs does. *)
Lemma emits_fit_calls ok data_loader num_epochs validate_every :
  (forall c, outside_loop c = true -> ok c = true) ->
  emits (Forall (fun en => ok (what en) = true))
    (for_each (range num_epochs) (fun _ => epoch_iteration data_loader validate_every)) ->
  emits (Forall (fun en => ok (what en) = true))
    (fit data_loader num_epochs validate_every).
Proof.
  intros Hout Hloop.
  pose proof (Forall_ok_app ok) as Happ.
  assert (Forall (fun en : entry => ok (what en) = true) []) as Hnil by constructor.
  assert (forall c : call, outside_try c = true -> ok c = true) as Ho.
  { intros c Hc. apply Hout. unfold outside_loop. rewrite Hc. now rewrite orb_true_r. }
  unfold fit.
  apply emits_bind; [exact Happ | now apply emits_silent | intros mode].
  apply emits_bind; [exact Happ | now apply emits_silent | intros start_epoch].
  apply emits_bind; [exact Happ | |].
  - apply emits_try_finally; [exact Happ | |].
    + apply emits_try_except; [exact Happ | |].
      * apply emits_bind; [exact Happ | | intros _; now apply emits_silent].
        unfold fit_try.
        apply emits_bind; [exact Happ | now apply emits_silent | intros dev].
        apply emits_bind; [exact Happ | | intros _].
        { eapply (emits_calls ok is_model_to); [| now apply keeps_invoke].
          intros c Hc. apply Hout. unfold outside_loop. now rewrite Hc. }
        apply emits_bind; [exact Happ | | intros _; exact Hloop].
        eapply (emits_calls ok is_on_fit_start); [| now apply keeps_notify].
        intros c Hc. apply Hout. unfold outside_loop. rewrite Hc.
        now rewrite orb_true_r.
      * intros e h. unfold fit_except.
        destruct e; intros [= <-];
          (apply emits_bind;
           [exact Happ
           | eapply (emits_calls ok outside_try); [exact Ho | now apply keeps_notify]
           | intros _; now apply emits_silent]).
    + eapply (emits_calls ok outside_try); [exact Ho | now apply keeps_model_train].
  - intros output.
    apply emits_bind;
      [exact Happ | eapply (emits_calls ok outside_try); [exact Ho | now apply keeps_invoke]
      | intros tv].
    apply emits_bind;
      [exact Happ | eapply (emits_calls ok outside_try); [exact Ho | now apply keeps_invoke]
      | intros vv].
    apply emits_bind; [exact Happ | now apply emits_silent | intros e].
    apply emits_bind;
      [exact Happ | eapply (emits_calls ok outside_try); [exact Ho | now apply keeps_notify]
      | intros _; now apply emits_silent].
Qed.

(** X5.  With [num_epochs <= 0] the epoch loop does not run: [fit] does
    not depend on the data loader or on [validate_every] (not even
    [validate_every = 0] raises), it only calls [model.to], [on_fit_start],
    [model.train], the evaluators' [get_tracked_values], [on_fit_end] and,
    when one of those raised in the [try] block, [on_exception]; the epoch
    counter is unchanged, whatever the outcome. *)
Theorem fit_without_epochs data_loader num_epochs validate_every s :
  num_epochs <= 0 ->
  (forall data_loader' validate_every',
     fit data_loader num_epochs validate_every s
     = fit data_loader' num_epochs validate_every' s) /\
  epoch (fit data_loader num_epochs validate_every s).1 = epoch s /\
  Forall (fun en => outside_loop (what en) = true)
    (since s (fit data_loader num_epochs validate_every s).1).
Proof.
  intros Hn. split; [| split].
  - intros dl' v'. unfold fit, fit_try. now rewrite (range_nonpositive _ Hn).
  - rewrite fit_epoch. unfold fit_try. rewrite (range_nonpositive _ Hn).
    rewrite bind_gets.
    match goal with
    | |- epoch (?m s).1 = _ => assert (keeps outside_loop m) as K
    end.
    { apply keeps_bind; [now apply keeps_invoke | intros _].
      apply keeps_bind; [now apply keeps_notify | intros _; apply keeps_ret]. }
    now destruct (K s) as (_ & E & _).
  - destruct (emits_fit_calls outside_loop data_loader num_epochs validate_every) with (s := s)
      as (d & L & F); [auto | |].
    + rewrite (range_nonpositive _ Hn). cbn. apply emits_silent; [constructor | reflexivity].
    + now rewrite (since_app _ _ _ L).
Qed.
End Degenerate.

(** ** The epoch loop, call by call *)

Section EpochLoop.
Context {W Device Batch Output Scalar Ser : Type}.
Context `{!Model W Device Ser, !Optimizer W Ser, !ValueStore W Ser,
          !TrainEvaluator W Output Scalar Ser, !Evaluator W Scalar Ser,
          !Callback W Output Scalar Ser, !UpdateStrategy W Batch Output}.

Local Abbreviation trainer := (trainer W Device Batch Output Scalar Ser).
Local Abbreviation M := (M W Device Batch Output Scalar Ser).
Local Abbreviation entry := (entry Device Batch Output Scalar Ser).
Local Abbreviation call := (call Device Batch Output Scalar Ser).
Local Abbreviation keeps :=
  (keeps (W := W) (Device := Device) (Batch := Batch) (Output := Output)
         (Scalar := Scalar) (Ser := Ser)).
Local Abbreviation emits :=
  (emits (W := W) (Device := Device) (Batch := Batch) (Output := Output)
         (Scalar := Scalar) (Ser := Ser)).
Implicit Types (s : trainer) (data_loader : list Batch) (p : call -> bool).

(** An iteration that came back normally, call by call. *)
Lemma iteration_steps data_loader validate_every s s' :
  epoch_iteration data_loader validate_every s = (s', Return tt) ->
  validate_every <> 0 /\ epoch s' = epoch s + 1 /\
  grad_enabled s' = grad_enabled s /\
  training s' = negb ((epoch s + 1 + 1) mod validate_every =? 0) /\
  exists results tracked validation,
    length results = length data_loader /\
    (if (epoch s + 1 + 1) mod validate_every =? 0
     then exists metric_values,
            validation = validate_calls (epoch s + 1) (grad_enabled s) metric_values
     else validation = []) /\
    log s' = log s ++
      done (epoch s + 1) (grad_enabled s) OnEpochStart
      :: train_calls (epoch s + 1) (grad_enabled s) data_loader results tracked
      ++ validation ++ [done (epoch s + 1) (grad_enabled s) OnEpochEnd].
Proof.
  intros E. unfold epoch_iteration in E. rewrite bind_gets in E.
  unfold bind at 1, set_epoch at 1 in E.
  apply bind_Return_inv in E as (s1 & [] & E1 & E).
  apply notify_Return in E1 as (L1 & Ep1 & G1 & _). cbn in L1, Ep1, G1.
  apply bind_Return_inv in E as (s2 & [] & E2 & E).
  apply train_Return in E2 as (rs & tracked & Len & L2 & Ep2 & G2 & T2).
  apply bind_Return_inv in E as (s3 & due & E3 & E).
  apply validation_due_Return in E3 as (-> & Hne & ->).
  apply bind_Return_inv in E as (s4 & [] & E4 & E).
  apply notify_Return in E as (L5 & Ep5 & G5 & T5).
  rewrite Ep1, G1 in L2. rewrite Ep2, Ep1 in E4.
  split; [exact Hne |].
  destruct ((epoch s + 1 + 1) mod validate_every =? 0).
  - apply validate_Return in E4 as (m & L4 & Ep4 & G4 & T4).
    rewrite Ep2, Ep1 in L4. rewrite G2, G1 in L4.
    split; [congruence |]. split; [congruence |]. split; [cbn; congruence |].
    exists rs, tracked, (validate_calls (epoch s + 1) (grad_enabled s) m).
    split; [exact Len |]. split; [now exists m |].
    rewrite L5, L4, L2, L1, Ep4, G4, Ep2, G2, Ep1, G1.
    now rewrite <- !List.app_assoc.
  - inversion E4; subst s4; clear E4.
    split; [congruence |]. split; [congruence |]. split; [cbn; congruence |].
    exists rs, tracked, []. split; [exact Len |]. split; [reflexivity |].
    rewrite L5, L2, L1, Ep2, G2, Ep1, G1.
    now rewrite <- !List.app_assoc.
Qed.

(** X6.  An iteration of the epoch loop that runs to its end moves the
    epoch counter one step and then calls [on_epoch_start], the whole
    training phase, the whole validation phase when
    [(epoch + 1) % validate_every == 0] for the new counter and nothing
    otherwise, and [on_epoch_end], all at the new epoch; it leaves the model
    in eval mode after a validation and in train mode otherwise. *)
Theorem epoch_iteration_steps data_loader validate_every s s' :
  epoch_iteration data_loader validate_every s = (s', Return tt) ->
  validate_every <> 0 /\ epoch s' = epoch s + 1 /\
  training s' = negb ((epoch s + 1 + 1) mod validate_every =? 0) /\
  exists results tracked validation,
    length results = length data_loader /\
    (if (epoch s + 1 + 1) mod validate_every =? 0
     then exists metric_values,
            validation = validate_calls (epoch s + 1) (grad_enabled s) metric_values
     else validation = []) /\
    since s s' =
      done (epoch s + 1) (grad_enabled s) OnEpochStart
      :: train_calls (epoch s + 1) (grad_enabled s) data_loader results tracked
      ++ validation ++ [done (epoch s + 1) (grad_enabled s) OnEpochEnd].
Proof.
  intros E.
  apply iteration_steps in E as (Hne & Ep & _ & T & rs & tracked & val & Len & Hval & L).
  repeat split; trivial. exists rs, tracked, val.
  split; [exact Len |]. split; [exact Hval | now apply since_app].
Qed.
End EpochLoop.

(** * Runs on the concrete collaborators *)

Import Demo.

(** The concrete collaborators keep the save/restore contract. *)
Lemma demo_symmetric (p : plan) :
  SymmetricCheckpoints world (Model0 := demo_model) (Optimizer0 := demo_optimizer)
    (ValueStore0 := demo_value_store) (TrainEvaluator0 := demo_train_evaluator)
    (Evaluator0 := demo_val_evaluator) (Callback0 := demo_callback p).
Proof.
  refine {| captured := demo_captured; restored := demo_restored |}.
  - intros [] w; reflexivity.
  - intros [] src dst; reflexivity.
  - intros [? ? [] [] ? ? ?] []; reflexivity.
Defined.

(** The stop signal raised from [on_train_batch_end] at epoch 2 of a
    10-epoch run: [fit] returns, the signal is on the output, the counter
    is 2. *)
Lemma fit_graceful_stop_witness :
  (exists s' output,
     Demo.fit stop_plan [1; 2] 10 1 fresh_trainer = (s', Return output) /\
     exception output = Some (StopFitIteration "stop") /\ epoch s' = 2) /\
  epoch (Demo.fit stop_broken_hook_plan [1; 2] 10 1 fresh_trainer).1 = 2.
Proof.
  split.
  - edestruct (fit_graceful_stop (Model0 := demo_model)
                 (TrainEvaluator0 := demo_train_evaluator)
                 (Evaluator0 := demo_val_evaluator)
                 (Callback0 := demo_callback stop_plan)
                 (UpdateStrategy0 := demo_update stop_plan)
                 [1; 2] 10 1 fresh_trainer) as (_ & _ & _ & Hret);
      [vm_compute; reflexivity |].
    eexists _, _. split; [| split].
    + eapply Hret; vm_compute; reflexivity.
    + reflexivity.
    + reflexivity.
  - edestruct (fit_graceful_stop (Model0 := demo_model)
                 (TrainEvaluator0 := demo_train_evaluator)
                 (Evaluator0 := demo_val_evaluator)
                 (Callback0 := demo_callback stop_broken_hook_plan)
                 (UpdateStrategy0 := demo_update stop_broken_hook_plan)
                 [1; 2] 10 1 fresh_trainer) as (_ & Hep & _);
      [vm_compute; reflexivity |].
    exact Hep.
Defined.

(** The stop signal raised by [on_fit_end], outside the [try] block,
    reaches the caller and [on_exception] is never called; the stop signal
    raised inside the loop reaches the caller as another exception when
    the [on_exception] hook fails. *)
Lemma stop_signal_can_escape :
  (exists s',
     Demo.fit late_stop_plan [1; 2] 1 1 fresh_trainer
     = (s', Raise (StopFitIteration "late")) /\
     count_calls is_on_exception (log s') = 0%nat) /\
  (exists s',
     Demo.fit stop_broken_hook_plan [1; 2] 10 1 fresh_trainer
     = (s', Raise (Exception "LoggerError")) /\
     count_calls is_on_fit_end (log s') = 0%nat).
Proof. split; eexists; split; vm_compute; reflexivity. Qed.

(** [batch_update] fails at epoch 1 of a 3-epoch run. *)
Lemma fit_fatal_error_witness :
  exists s',
    Demo.fit failing_plan [1; 2] 3 1 fresh_trainer = (s', Raise (Exception "RuntimeError")) /\
    epoch s' = 1 /\
    count_calls is_on_exception (since fresh_trainer s') = 1%nat /\
    count_calls is_on_fit_end (since fresh_trainer s') = 0%nat.
Proof.
  edestruct (fit_fatal_error (Model0 := demo_model)
               (TrainEvaluator0 := demo_train_evaluator)
               (Evaluator0 := demo_val_evaluator)
               (Callback0 := demo_callback failing_plan)
               (UpdateStrategy0 := demo_update failing_plan)
               [1; 2] 3 1 fresh_trainer) as (s' & E & _ & Ep & _ & _ & C1 & C2);
    [vm_compute; reflexivity | vm_compute; reflexivity |].
  exists s'. split; [exact E |]. split; [exact Ep |]. split; [exact C1 | exact C2].
Defined.

(** A keyboard interrupt during [batch_update] reaches the caller without
    [on_exception] being called; an exception raised by [on_fit_end]
    reaches the caller without [on_exception] being called, after
    [on_fit_end] was called; and when the [on_exception] hook itself
    fails, the caller gets the hook's exception, not the original one. *)
Lemma exception_not_always_reported :
  (exists s',
     Demo.fit interrupted_plan [1; 2] 3 1 fresh_trainer
     = (s', Raise (BaseException "KeyboardInterrupt")) /\
     count_calls is_on_exception (log s') = 0%nat) /\
  (exists s',
     Demo.fit end_fails_plan [1; 2] 3 1 fresh_trainer = (s', Raise (Exception "IOError")) /\
     count_calls is_on_exception (log s') = 0%nat /\
     count_calls is_on_fit_end (log s') = 1%nat) /\
  (exists s1 s',
     Demo.fit_try failing_broken_hook_plan [1; 2] 3 1 fresh_trainer
     = (s1, Raise (Exception "RuntimeError")) /\
     Demo.fit failing_broken_hook_plan [1; 2] 3 1 fresh_trainer
     = (s', Raise (Exception "LoggerError"))).
Proof.
  split; [| split].
  - eexists. split; vm_compute; reflexivity.
  - eexists. split; [| split]; vm_compute; reflexivity.
  - eexists _, _. split; vm_compute; reflexivity.
Qed.

(** A fresh trainer, [validate_every = 2], [num_epochs = 4]: validation
    runs at epochs 1 and 3. *)
Lemma validation_schedule_witness :
  epochs_of is_validation_start
    (since fresh_trainer (Demo.fit well_behaved [1; 2] 4 2 fresh_trainer).1) = [1; 3].
Proof.
  edestruct (validation_schedule (Model0 := demo_model)
               (TrainEvaluator0 := demo_train_evaluator)
               (Evaluator0 := demo_val_evaluator)
               (Callback0 := demo_callback well_behaved)
               (UpdateStrategy0 := demo_update well_behaved)
               [1; 2] 4 2 fresh_trainer) as (_ & _ & H);
    [apply surjective_pairing |].
  edestruct H as [_ H3]; [vm_compute; reflexivity | vm_compute; reflexivity |].
  apply H3; reflexivity.
Defined.

(** The training phase of a fresh trainer over two batches. *)
Lemma train_phase_steps_witness :
  (exists results tracked,
     length results = 2%nat /\
     since fresh_trainer (Demo.train well_behaved [1; 2] fresh_trainer).1
     = train_calls (-1) true [1; 2] results tracked) /\
  replays (Model0 := demo_model) (Optimizer0 := demo_optimizer)
    (ValueStore0 := demo_value_store) (TrainEvaluator0 := demo_train_evaluator)
    (Evaluator0 := demo_val_evaluator) (Callback0 := demo_callback well_behaved)
    (UpdateStrategy0 := demo_update well_behaved)
    fresh_world
    (since fresh_trainer (Demo.train well_behaved [1; 2] fresh_trainer).1)
    (collab (Demo.train well_behaved [1; 2] fresh_trainer).1).
Proof.
  edestruct (train_phase_steps (Model0 := demo_model) (Optimizer0 := demo_optimizer)
               (ValueStore0 := demo_value_store)
               (TrainEvaluator0 := demo_train_evaluator)
               (Evaluator0 := demo_val_evaluator)
               (Callback0 := demo_callback well_behaved)
               (UpdateStrategy0 := demo_update well_behaved)
               [1; 2] fresh_trainer) as (_ & _ & R & results & tracked & Len & L);
    [vm_compute; reflexivity |].
  split; [| exact R].
  exists results, tracked. split; [exact Len | exact L].
Defined.

(** Four epochs from a fresh trainer: the counter ends at 3. *)
Lemma epoch_counter_witness :
  epoch (Demo.fit well_behaved [1; 2] 4 2 fresh_trainer).1 = -1 + 4 /\
  count_calls is_on_epoch_start
    (since fresh_trainer (Demo.fit well_behaved [1; 2] 4 2 fresh_trainer).1) = 4%nat.
Proof.
  edestruct (epoch_counter (Model0 := demo_model)
               (TrainEvaluator0 := demo_train_evaluator)
               (Evaluator0 := demo_val_evaluator)
               (Callback0 := demo_callback well_behaved)
               (UpdateStrategy0 := demo_update well_behaved)
               fresh_world tt true true [1; 2] 4 2 fresh_trainer)
    as (_ & _ & Ep & _ & _ & Cnt);
    [vm_compute; reflexivity | vm_compute; reflexivity |].
  split; [apply Ep; lia | exact Cnt].
Defined.

(** Saving a fresh trainer and loading its checkpoint into a trained
    one. *)
Lemma checkpoint_contract_witness :
  exists s' t',
    Demo.state_dict well_behaved fresh_trainer = (s', Return fresh_checkpoint) /\
    Demo.load_state_dict well_behaved fresh_checkpoint (trained well_behaved)
    = (t', Return tt) /\
    keys fresh_checkpoint
    = {[ "model"; "optimizer"; "value_store"; "train_evaluator"; "val_evaluator";
         "callback"; "epoch" ]} /\
    epoch_item fresh_checkpoint = Some (-1) /\
    Forall (fun en => at_epoch en = 3) (since (trained well_behaved) t') /\
    epoch t' = -1.
Proof.
  assert (exists s', Demo.state_dict well_behaved fresh_trainer
                     = (s', Return fresh_checkpoint)) as [s' Hsave]
    by (eexists; vm_compute; reflexivity).
  assert (exists t', Demo.load_state_dict well_behaved fresh_checkpoint
                       (trained well_behaved) = (t', Return tt)) as [t' Hload]
    by (eexists; vm_compute; reflexivity).
  destruct (checkpoint_contract (Model0 := demo_model) (Optimizer0 := demo_optimizer)
              (ValueStore0 := demo_value_store)
              (TrainEvaluator0 := demo_train_evaluator)
              (Evaluator0 := demo_val_evaluator)
              (Callback0 := demo_callback well_behaved)
              (UpdateStrategy0 := demo_update well_behaved)
              _ _ _ _ _ _ _ Hsave Hload)
    as [(Hdom & Hep & _) (Hall & _ & _ & Hok)].
  destruct (Hok eq_refl)
    as (? & ? & ? & ? & ? & ? & z & ? & ? & ? & ? & ?
        & _ & _ & _ & _ & _ & _ & Hz & _ & _ & _ & _ & _ & _ & Ht & _).
  exists s', t'. repeat split; try assumption.
  rewrite Ht. rewrite Hep in Hz. now inversion Hz.
Defined.

(** A checkpoint of the trained trainer loaded into a fresh one: the fresh
    one becomes the trained one, and goes on from epoch 4. *)
Lemma checkpoint_round_trip_witness :
  exists s' d t',
    Demo.state_dict well_behaved (trained well_behaved) = (s', Return d) /\
    Demo.load_state_dict well_behaved d fresh_trainer = (t', Return tt) /\
    epoch t' = 3 /\
    relog [] t' = relog [] (trained well_behaved) /\
    observe t' (Demo.fit well_behaved [3; 4] 2 1 t')
    = observe s' (Demo.fit well_behaved [3; 4] 2 1 s').
Proof.
  edestruct (checkpoint_round_trip (Model0 := demo_model) (Optimizer0 := demo_optimizer)
               (ValueStore0 := demo_value_store)
               (TrainEvaluator0 := demo_train_evaluator)
               (Evaluator0 := demo_val_evaluator)
               (Callback0 := demo_callback well_behaved)
               (UpdateStrategy0 := demo_update well_behaved)
               (SymmetricCheckpoints0 := demo_symmetric well_behaved)
               [3; 4] 2 1 (trained well_behaved) fresh_trainer)
    as (s' & d & t' & Hs & _ & Hl & _ & Ep & _ & _ & _ & _ & Hsame).
  destruct Hsame as [Heq Hobs]; [reflexivity | reflexivity | reflexivity |].
  exists s', d, t'. repeat split; assumption.
Defined.

(** A checkpoint of the trained trainer loaded into a new trainer whose
    model is in eval mode: the load succeeds and the collaborators' state
    and the epoch counter are the captured ones, but the model's mode is
    not part of the checkpoint, so the restored trainer is in eval mode
    where the original is in train mode, and so they are after the next
    [fit]. *)
Lemma round_trip_forgets_model_mode :
  exists s' d t',
    Demo.state_dict well_behaved (trained well_behaved) = (s', Return d) /\
    Demo.load_state_dict well_behaved d fresh_eval_trainer = (t', Return tt) /\
    collab t' = collab s' /\ epoch t' = epoch s' /\
    training s' = true /\ training t' = false /\
    training (Demo.fit well_behaved [3; 4] 2 1 s').1 = true /\
    training (Demo.fit well_behaved [3; 4] 2 1 t').1 = false.
Proof.
  eexists _, _, _.
  split; [vm_compute; reflexivity |]. split; [vm_compute; reflexivity |].
  split; [vm_compute; reflexivity |]. split; [vm_compute; reflexivity |].
  split; [vm_compute; reflexivity |]. split; [vm_compute; reflexivity |].
  split; vm_compute; reflexivity.
Qed.

(** A NaN learning rate is rejected with [ValueError] although none of
    [lr < 0], [eps < 0], [beta < 0] holds. *)
Lemma nan_learning_rate_rejected :
  (nan <? 0)%float = false /\ (0x1p-20 <? 0)%float = false /\
  (0.5 <? 0)%float = false /\
  GroupRMSprop.__init__ (fun (_ : unit) d => Return d) (fun _ => "nan") tt nan 0.5 0x1p-20
  = Raise (ValueError "Invalid learning rate: nan").
Proof. repeat split. Qed.

(** A negative epsilon is rejected; the defaults are accepted and reach
    the base constructor. *)
Lemma group_rmsprop_init_witness :
  (exists msg,
     GroupRMSprop.__init__ (fun (_ : unit) d => Return d) (fun _ => "-1.0") tt
       0.5 0.5 (-1) = Raise (ValueError msg)) /\
  GroupRMSprop.__init__ (fun (_ : unit) d => Return d) (fun _ => "") tt 0.5 0.5 0.25
  = Return {| GroupRMSprop.lr := 0.5; GroupRMSprop.beta := 0.5;
              GroupRMSprop.eps := 0.25; GroupRMSprop.adjusted_lr := 0.5 |}.
Proof.
  destruct (group_rmsprop_init (fun (_ : unit) d => Return d) (fun _ => "-1.0") tt
              0.5 0.5 (-1)) as (Hbad & _).
  destruct (group_rmsprop_init (fun (_ : unit) d => Return d) (fun _ => "") tt
              0.5 0.5 0.25) as (_ & Hgood & _).
  split.
  - apply Hbad. right. left. left. reflexivity.
  - apply Hgood. intros [[H|H]|[[H|H]|[H|H]]]; discriminate H.
Defined.

(** Squared errors 4, 1, 1: the mean is 2, the sum is 6, and ["none"]
    gives the sum. *)
Lemma calc_metric_reduction_witness :
  MSELoss._calc_metric vsub vpow vmean vsum vitem vlen
    {| MSELoss.reduction := "mean" |} [3; 2; 2] [1; 1; 1] = (2, 3) /\
  MSELoss._calc_metric vsub vpow vmean vsum vitem vlen
    {| MSELoss.reduction := "none" |} [3; 2; 2] [1; 1; 1] = (6, 3).
Proof.
  destruct (calc_metric_reduction vsub vpow vmean vsum vitem vlen
              {| MSELoss.reduction := "mean" |} [3; 2; 2] [1; 1; 1])
    as (Hmean & _).
  destruct (calc_metric_reduction vsub vpow vmean vsum vitem vlen
              {| MSELoss.reduction := "none" |} [3; 2; 2] [1; 1; 1])
    as (_ & Hother & _).
  split; [exact (Hmean eq_refl) | apply Hother; discriminate].
Defined.
